(* ===== verification/_CoqProject ===== *)
-Q . S2P
Prelude.v
PyStr.v
Csv.v
Tree.v
Samples.v
Query.v
Attribution.v
Extract.v
Validators.v
Engine.v
Dispatch.v
Batch.v
Driver.v
EndToEnd.v
Merge.v
Pipeline.v
