(* ===== verification/Prelude.v ===== *)
(** * A verification development for run_validation.py and merge_csv.py

    The repository grades machine-generated Kotlin files and unified diffs
    against fixed structural criteria.  [src/run_validation.py] parses each
    artifact with tree-sitter, runs a pattern query over the tree, turns the
    captures into facts (functions with their annotations, imports,
    constructor calls, classes with their parents, diff deletions and
    additions), evaluates a fixed set of named boolean validations per task
    and writes one CSV row per processed item.  [src/merge_csv.py]
    concatenates per-run CSV files, tagging each row with its directory.

    How the parts interact: the [__main__] block loads the manifest with
    [json.load], builds the tree-sitter objects and calls
    [process_all_files], then prints a summary; [process_all_files] reads each manifest entry,
    picks a task family, reads the file through the file system and calls
    [process_kotlin_file] or [process_diff_file]; these call one validate_*
    function, which calls the parser and the query engine (external), folds
    over the captures (the fact extractor, whose Kotlin loops call the
    annotation attribution algorithm) and returns an ordered dict of named
    booleans; the reporter turns it, or the exception raised, into a row,
    and writes the rows with [csv.DictWriter].  merge_csv.py reads such
    files back with [csv.DictReader] and writes them again, merged.

    ** Layout (one file per component, in dependency order)

    - [Prelude] (this file): the Python exceptions the code raises and
      catches ([exn]), the result monad [result] with [x <- m ;; k] in
      [py_scope], insertion-ordered dicts ([dict_set] for [d[k] = v],
      [dict_get] for [d.get(k)]), list helpers shared by the components
      ([str_mem] for [x in list], [count_where] for [sum(1 for .. if ..)],
      [take_while], [drop_while]), their lemmas (fold invariants, [find],
      dict updates), the hint databases [pyval] and [pyval_rw] and the
      tactic [label_cases] for the capture-name tests of a loop body.
    - [PyStr]: the Python [str] operations the code relies on: [a in b]
      ([contains], specified by [contains_spec]), [str.strip] ([strip],
      [strip_surrounding]), [s[1:]] ([slice_from]), [', '.join]
      ([str_join]), [repr] ([py_repr]) and [str(e)] of the exceptions
      ([exn_str]).  Library semantics: only [exn_str] is mapped.
    - [Csv]: the csv module (excel dialect, CPython 3.11 and later) as a
      library model: the writer ([writerow], [csv_write]), the reader's
      state machine ([parse_process_char], [read_chars], [csv_reader],
      with the field size limit) and [csv.DictReader] ([dict_reader]).
    - [Tree]: the tree-sitter node API the code uses ([node.type],
      [node.text], [node.children], [node.parent], [root_node.has_error]).
      A node handle is a zipper location [loc], so [parent] is total and
      every upward walk ([climb]) is structural recursion on the path;
      [while_parent] is the same walk as Python's [while] loop with fuel.
      The parser and query engine are records of operations ([parser],
      [query], [language]) passed as the Python passes its objects.
    - [Query]: the four query sources of the code as pattern data
      ([preview_patterns], [unit_test_patterns],
      [instrumentation_patterns], [diff_patterns]), tree-sitter's matching
      of a pattern at a node ([pat_matches]: node type, child patterns on
      distinct children in order, greedy [?], [#eq?] predicates), the
      contract of [query.captures] ([engine_ok]: exactly the captures of
      the matches, in document order), [engine_language] (the
      [language] record of an engine) and [run_query], an engine meeting
      the contract ([run_query_ok]).
    - [Samples]: concrete trees and captures shaped as tree-sitter-kotlin
      and tree-sitter-diff build them, used by the witnesses.
    - [Attribution]: the annotation attribution algorithm (lines 34-52,
      repeated at 110-129 and 197-214): [find_anchor] (and [anchor_loop],
      the same walk with fuel), [modifier_annotations], [climb_wrappers],
      [anchor_annotations].
    - [Extract]: the capture loops of the validators: [preview_functions],
      [unit_test_results], [instrumentation_results] (the class dict as an
      insertion-ordered association list, and [classes_map], the same
      loop on a stdpp [gmap]) and [diff_facts].
    - [Validators]: the five validate_* functions, each returning its
      ordered validation dict ([validations], read with [validation]).
    - [Engine]: the capture loops run on the captures of any engine with
      the contract, for the code's own queries.
    - [Dispatch]: [process_diff_file], [process_kotlin_file] and the
      spec's table of validation names per task ([task_keys]).
    - [Batch]: [process_items] (the loop of process_all_files with its key
      lookups outside the [try], the family lists, the rows),
      [process_all_files] (with [os.makedirs(os.path.dirname(..))] and the
      report text [report_text], written by [write_report]), for manifests
      of string fields.
    - [Driver]: the [__main__] block ([main]) with its console output,
      [load_file_mappings_from_json], and process_all_files run on the
      Python values [json.load] builds ([pyval]) with Python's dynamic
      typing ([py_iter], [py_getitem], [py_path], [py_str], [csv_field]):
      one iteration's prints and rows ([item_body]: [Unknown task], line
      442, and [Error processing] with [str(Path)], line 461), the loop as
      a function ([run_items]) and as a small-step machine ([dstep] on
      [dstate], one step per iteration), the line of 483 ([results_line]).
    - [EndToEnd]: no new code; the components composed as the script runs
      them, in a Section over an engine [E] with [engine_ok E].
    - [Merge]: src/merge_csv.py over the texts of its input files:
      [read_csv_input], [merge_loop] (header of the first file, rows tagged
      by a dict merge [row_with_test]), [dict_row] (csv.DictWriter's field
      check), [write_output] and the script [merge_csv].
    - [Pipeline]: the two scripts together, merging reports written by
      process_all_files.

    ** What the theorems show

    - Attribution (C1-C3, C29): the attributed list is the direct
      annotations followed by the new inherited texts of the maximal chain
      of wrapper ancestors, once each; the anchor is the nearest
      function-like ancestor; the climb refines a fold over that chain;
      the list is duplicate-free exactly when the annotation texts under
      the anchor's modifiers are (direct duplicates are kept, a divergence
      from the spec).
    - Validators (C5-C8): each predicate's meaning in terms of the
      captures: the preview verdict as a function whose anchor's
      annotations contain both names (by substring), exact and at-least
      counts of test functions, substring containment of the required
      diff lines.
    - Engine (C4, C18, C27): with captures from an engine with
      tree-sitter's contract, a parent_class capture always finds its
      class registered (so the parent lost when seen before its class
      needs an order the engine never produces), the anchor guard of the
      preview loop never drops a function, and every class declaration of
      the tree is registered.
    - Extract (C19): the unit-test loop records, in capture order, the
      imports, one function fact per func_name capture and the
      constructors.
    - Batch (C9-C15, C28): rows only for tasks in the two family lists,
      which makes the unit-test and instrumentation validators
      unreachable; per-item isolation under permutation; error rows for
      unreadable files and missing diff collaborators; a missing manifest
      key aborts the run; the default output path makes every run raise;
      the written report reads back through csv.DictReader.
    - Dispatch (C21-C22): validation names per task (the ValueError on
      unknown task names is a lemma of Dispatch).
    - Driver (C16, C20, C23-C25): the console output of the script, every
      print included: an empty manifest (also [{}] or [""]) gives a
      header-only report and only the line saying where; every state the
      loop machine reaches has printed exactly the output of the items
      iterated (invariant by rule induction); the output of a normal run;
      the [Error processing] lines are as many as the error rows and an
      item either prints [Unknown task] or adds one row; a bad item aborts
      the script after the output of the items before it, with no report.
    - EndToEnd (C17, C26): under the engine contract alone, a preview
      item of the manifest goes through the driver's loop, process_all_files,
      the dispatcher, the validator, its capture loop and the attribution
      to one row whose verdict is a property of the tree (some func_name
      capture with @Preview and @Composable attributed); the Material
      diff's [contains_all_deletions] holds iff each required deletion is
      in the content of some [deletion] node of the tree.
    - Merge and Pipeline (C30-C32): the whole merge script as a function
      of its input texts, error branches included; a rejected row leaves a
      truncated output file; merging reports of run_validation.py gives
      their rows tagged with the run's directory.

    Lemmas that are not claims document further behaviour: the ValueError
    of the dispatchers, the class table's unique keys and its agreement
    with a [gmap] model of the dict, the termination of the anchor walk
    within [depth + 2] tests, the refinement of Batch's string-manifest
    loop by the driver's loop, and a report value past the csv field
    size limit making the report unreadable.

    ** Bounds and fuel

    The upward walks recurse on the zipper path, the capture loops on the
    capture list, the batch loop on the manifest, the csv reader on the
    text, the query matcher on the pattern and the child list: no
    definition needs fuel.  The driver's loop machine [dstep] is
    deterministic and reaches from the start the final state [run_items]
    computes ([run_items_steps]).  [anchor_loop] writes the walk of
    lines 34-36 as the Python [while] loop with explicit fuel, to state
    its termination: [depth + 2] evaluations of the test (one per ancestor
    and the node itself, and the final test of [None]) always suffice,
    and [anchor_loop_bound_tight] shows they can be needed.  Counts are
    Python ints, modelled as [nat] (no overflow in the source).  The csv
    reader's field size limit (131072 characters, [field_limit], an [N])
    is the one bound of the modelled code: it is kept; the round trip of
    written reports (C28) is stated under it, and a lemma shows a value
    past it makes the report unreadable.

    ** Not modelled

    - The tree-sitter grammars: trees are given, not parsed from text,
      so [correct_syntax] is [has_error] of whatever tree the parser
      record returns.  The Kotlin and diff grammars are generated C
      tables of a library the script only calls: they cannot be modelled
      faithfully from the repository, which is why the tree-sitter
      component stays partly modelled (its node API and query matching
      are modelled, its parser is a parameter of the theorems).  Of the query language, only what the code's four
      queries use is modelled (node patterns, captures, [?] on child
      patterns, [#eq?]).  Tree-sitter's removal of identical duplicate
      matches is not modelled: for the code's patterns a duplicate needs a
      node with two children of an uncaptured optional type (two class
      bodies), which the grammar does not build.
    - In merge_csv.py, the glob (its order is the input order) and the
      final print.  In run_validation.py, the libraries the driver calls:
      argparse (the script receives its namespace, [cli_args]), the json
      decoder (a [json_module] turning the file's text into a [pyval] or
      an exception) and the loading of the tree-sitter languages (a
      [ts_setup] or the exception it raised).  Floats of the manifest are
      kept as their [repr].
    - Text outside code points 0-255 and UTF-8 decoding errors: strings are
      [String.string]; bytes read from files are the same strings.
*)

From Stdlib Require Export Ascii String.
From stdpp Require Export base list strings gmap.

(** stdpp makes [String.append] opaque to [simpl]; the string lemmas of
    [PyStr] compute with it, so it reduces on a constructor again. *)
#[global] Arguments String.append : simpl nomatch.

(** ** Python exceptions *)

(** The exceptions the modelled code raises; [str(e)] is [exn_str] of
    [PyStr].  [CsvError] is the [_csv.Error] of the csv module. *)
Inductive exn :=
| ValueError (msg : string)
| KeyError (key : string)
| FileNotFoundError (msg : string)
| OSError (msg : string)
| TypeError (msg : string)
| CsvError (msg : string).

(** ** A result monad for code that may raise *)

Inductive result (A : Type) :=
| Ok (a : A)
| Raise (e : exn).
Arguments Ok {A} a.
Arguments Raise {A} e.

Definition rbind {A B} (m : result A) (k : A -> result B) : result B :=
  match m with
  | Ok a => k a
  | Raise e => Raise e
  end.

Declare Scope py_scope.
Delimit Scope py_scope with py.
Notation "x <- m ;; k" := (rbind m (fun x => k))
  (at level 60, m at next level, right associativity) : py_scope.
Notation "'raise' e" := (Raise e) (at level 10) : py_scope.

Definition is_ok {A} (r : result A) : bool :=
  match r with Ok _ => true | Raise _ => false end.

(** ** List helpers shared by the components *)

(** Python's [x in l] on a list of strings. *)
Definition str_mem (x : string) (l : list string) : bool :=
  existsb (String.eqb x) l.

(** Python's [sum(1 for y in l if p(y))]. *)
Definition count_where {A} (p : A -> bool) (l : list A) : nat :=
  length (List.filter p l).

(** [itertools.takewhile]: the longest prefix whose elements satisfy [p]. *)
Fixpoint take_while {A} (p : A -> bool) (l : list A) : list A :=
  match l with
  | [] => []
  | x :: l' => if p x then x :: take_while p l' else []
  end.

(** [itertools.dropwhile]: drop the longest prefix satisfying [p]. *)
Fixpoint drop_while {A} (p : A -> bool) (l : list A) : list A :=
  match l with
  | [] => []
  | x :: l' => if p x then drop_while p l' else l
  end.

(** ** Insertion-ordered dicts

    A Python dict as the list of its items in insertion order. *)

(** [d[k] = v]: an existing key keeps its place and takes the new value,
    a new key goes last. *)
Definition dict_set {K V} `{EqDecision K} (d : list (K * V)) (k : K) (v : V)
  : list (K * V) :=
  if bool_decide (k ∈ map fst d)
  then map (fun kv => if bool_decide (kv.1 = k) then (kv.1, v) else kv) d
  else d ++ [(k, v)].

(** [d.get(k)]: the value of the key, [None] when it is absent. *)
Definition dict_get {K V} `{EqDecision K} (d : list (K * V)) (k : K) : option V :=
  snd <$> List.find (fun kv => bool_decide (kv.1 = k)) d.

Create HintDb pyval discriminated.
Create Rewrite HintDb pyval_rw.

Lemma str_mem_spec x l : str_mem x l = true <-> In x l.
Proof.
  unfold str_mem. rewrite existsb_exists. split.
  - intros (y & Hy & E). apply String.eqb_eq in E. by subst.
  - intros H. exists x. split; [done | apply String.eqb_refl].
Qed.

Lemma str_mem_elem x l : str_mem x l = true <-> x ∈ l.
Proof. rewrite str_mem_spec. symmetry. apply list_elem_of_In. Qed.

Lemma str_mem_false x l : str_mem x l = false <-> ~ In x l.
Proof.
  rewrite <- str_mem_spec. destruct (str_mem x l); split; congruence.
Qed.

Lemma str_mem_app x l1 l2 : str_mem x (l1 ++ l2) = str_mem x l1 || str_mem x l2.
Proof. unfold str_mem. apply existsb_app. Qed.

Lemma count_where_app {A} (p : A -> bool) l1 l2 :
  count_where p (l1 ++ l2) = count_where p l1 + count_where p l2.
Proof. unfold count_where. by rewrite List.filter_app, length_app. Qed.

Lemma count_where_pos {A} (p : A -> bool) l :
  0 < count_where p l <-> Exists (fun x => p x = true) l.
Proof.
  unfold count_where. induction l as [|x l IH]; simpl.
  - split; [lia | inversion 1].
  - rewrite Exists_cons. destruct (p x) eqn:E; simpl.
    + split; intros _; [by left | lia].
    + rewrite <- IH. split; [auto | intros [?|?]; [congruence | done]].
Qed.

Lemma rbind_Ok {A B} (m : result A) (k : A -> result B) b :
  rbind m k = Ok b <-> exists a, m = Ok a /\ k a = Ok b.
Proof.
  destruct m as [a|e]; simpl; split.
  - eauto.
  - intros (a' & [= ->] & H). done.
  - discriminate.
  - intros (? & ? & _). discriminate.
Qed.

(** [find] returns the first element satisfying the test. *)
Lemma find_first {A} (p : A -> bool) l x :
  List.find p l = Some x ->
  exists pre post, l = pre ++ x :: post /\ p x = true /\ Forall (fun y => p y = false) pre.
Proof.
  induction l as [|y l IH]; simpl; [discriminate|].
  destruct (p y) eqn:E.
  - intros [= <-]. exists [], l. auto.
  - intros H. destruct (IH H) as (pre & post & -> & Hx & Hpre).
    exists (y :: pre), post. auto.
Qed.

(** An accumulator loop whose step appends [g x] for each [x]. *)
Lemma fold_left_append {A B} (f : list B -> A -> list B) (g : A -> list B) l acc :
  (forall acc x, f acc x = acc ++ g x) ->
  fold_left f l acc = acc ++ flat_map g l.
Proof.
  intros Hf. revert acc. induction l as [|x l IH]; intros acc; simpl.
  - by rewrite app_nil_r.
  - by rewrite Hf, IH, app_assoc.
Qed.

(** A loop over the images of a list is a loop over the list. *)
Lemma fold_left_fmap {A B C} (f : A -> B -> A) (g : C -> B) l a :
  fold_left f (map g l) a = fold_left (fun x y => f x (g y)) l a.
Proof. revert a. induction l as [|x l IH]; intros a; simpl; auto. Qed.

(** A property kept by each step of a loop holds after the loop. *)
Lemma fold_left_invariant {A B} (P : B -> Prop) (f : B -> A -> B) l b :
  P b -> (forall b a, P b -> P (f b a)) -> P (fold_left f l b).
Proof. revert b. induction l as [|x l IH]; intros b Hb Hf; simpl; auto. Qed.

Section Dicts.
Context {K V : Type} `{EqDecision K}.

(** Setting a key absent from the dict appends it. *)
Lemma dict_set_fresh (d : list (K * V)) k v :
  k ∉ map fst d -> dict_set d k v = d ++ [(k, v)].
Proof. intros Hk. unfold dict_set. by rewrite bool_decide_false. Qed.

(** Setting keys that are fresh and distinct, one after the other,
    appends them in order. *)
Lemma fold_dict_set_fresh (acc row : list (K * V)) :
  NoDup (map fst row) -> (forall k, k ∈ map fst row -> k ∉ map fst acc) ->
  fold_left (fun d kv => dict_set d kv.1 kv.2) row acc = acc ++ row.
Proof.
  revert acc. induction row as [|[k v] row IH]; intros acc Hnd Hfresh; simpl.
  - by rewrite app_nil_r.
  - apply NoDup_cons in Hnd as [Hk Hnd]. rewrite dict_set_fresh by (apply Hfresh; set_solver).
    rewrite IH; [by rewrite <- app_assoc | done |].
    intros k' Hk'. rewrite map_app. simpl. rewrite elem_of_app, list_elem_of_singleton.
    intros [H| ->]; [apply (Hfresh k'); [set_solver | done] | done].
Qed.

(** The value of the first item with the key. *)
Lemma dict_get_app_l (d1 d2 : list (K * V)) k v :
  dict_get d1 k = Some v -> dict_get (d1 ++ d2) k = Some v.
Proof.
  unfold dict_get. induction d1 as [|[k' v'] d1 IH]; simpl; [discriminate|].
  case_bool_decide; [done | apply IH].
Qed.

Lemma dict_get_app_r (d1 d2 : list (K * V)) k :
  k ∉ map fst d1 -> dict_get (d1 ++ d2) k = dict_get d2 k.
Proof.
  unfold dict_get. induction d1 as [|[k' v'] d1 IH]; simpl; [done|].
  intros Hk. rewrite bool_decide_false by set_solver. apply IH. set_solver.
Qed.
Lemma dict_get_set_eq (d : list (K * V)) k v : dict_get (dict_set d k v) k = Some v.
Proof.
  unfold dict_get, dict_set. case_bool_decide as Hk.
  - induction d as [|[k' v'] d IH]; simpl in *; [set_solver|].
    destruct (decide (k' = k)) as [->|Hne].
    + rewrite (bool_decide_true (k = k)) by done. simpl. by rewrite bool_decide_true.
    + rewrite (bool_decide_false (k' = k)) by done. simpl.
      rewrite bool_decide_false by done. apply IH. set_solver.
  - induction d as [|[k' v'] d IH]; simpl in *.
    + by rewrite bool_decide_true.
    + rewrite bool_decide_false by set_solver. apply IH. set_solver.
Qed.

Lemma dict_get_set_ne (d : list (K * V)) k k' v :
  k' <> k -> dict_get (dict_set d k v) k' = dict_get d k'.
Proof.
  intros Hne. unfold dict_get, dict_set. case_bool_decide as Hk.
  - f_equal. clear Hk. induction d as [|[k0 v0] d IH]; simpl; [done|].
    destruct (decide (k0 = k)) as [->|]; simpl.
    + rewrite (bool_decide_true (k = k)) by done. simpl.
      rewrite !(bool_decide_false (k = k')) by congruence. by rewrite IH.
    + rewrite (bool_decide_false (k0 = k)) by done. simpl.
      by case_bool_decide; [|rewrite IH].
  - f_equal. clear Hk. induction d as [|[k0 v0] d IH]; simpl.
    + by rewrite bool_decide_false.
    + by case_bool_decide; [|rewrite IH].
Qed.

Lemma dict_set_keys (d : list (K * V)) k v k' :
  k' ∈ map fst (dict_set d k v) <-> k' ∈ map fst d \/ k' = k.
Proof.
  unfold dict_set. case_bool_decide.
  - rewrite map_map. replace (map _ d) with (map fst d).
    + split; [auto | intros [?| ->]; auto].
    + apply map_ext. intros [k0 v0]. simpl. by case_bool_decide.
  - rewrite map_app. set_solver.
Qed.
End Dicts.

(** The finite map of an association list keeps the first value of each
    key, as [dict_get] reads it. *)
Lemma list_to_map_dict_get `{Countable K} {V} (l : list (K * V)) k :
  (list_to_map l : gmap K V) !! k = dict_get l k.
Proof.
  unfold dict_get. induction l as [|[k' v] l IH]; simpl; [done|].
  rewrite lookup_insert. case_decide; case_bool_decide; simpl; congruence.
Qed.

#[export] Hint Rewrite str_mem_app @count_where_app : pyval_rw.
#[export] Hint Resolve <- str_mem_spec : pyval.
#[export] Hint Resolve -> str_mem_spec : pyval.

(** Case analysis on the capture-name tests [c.2 == "..."] of a loop
    body: each test is decided and the literal comparisons computed. *)
Ltac label_cases c :=
  repeat match goal with
  | |- context [String.eqb c.2 ?s] =>
      let E := fresh "E" in
      destruct (String.eqb_spec c.2 s) as [E|E]; [rewrite ?E; simpl|]
  end.

(** Case analysis on the boolean tests the code performs on strings. *)
Ltac case_str_eqb :=
  repeat match goal with
  | |- context [String.eqb ?a ?b] =>
      destruct (String.eqb_spec a b); subst; simpl in *
  | H : context [String.eqb ?a ?b] |- _ =>
      destruct (String.eqb_spec a b); subst; simpl in *
  end.

(** The index form: the element found is at the first index that passes. *)
Lemma find_first_index {A} (P : A -> bool) cs y :
  List.find P cs = Some y ->
  exists f, cs !! f = Some y /\ P y = true /\ forall g z, cs !! g = Some z -> P z = true -> f <= g.
Proof.
  induction cs as [|c cs IH]; simpl; [done|]. destruct (P c) eqn:Hc.
  - intros [=<-]. exists 0. split_and!; [done|done|lia].
  - intros (f & Hf & Hy & Hmin)%IH. exists (S f). split_and!; [done|done|].
    intros [|g] z Hz Hp; simplify_eq/=; [congruence|]. specialize (Hmin _ _ Hz Hp). lia.
Qed.
