(* ===== verification/PyStr.v ===== *)
(** * Python [str] operations used by run_validation.py

    The substring test [a in b], [str.strip()], the slice [s[1:]], [len]
    and [sep.join(l)], on strings of code points below 256 (Rocq's
    [String.string]).  These are the semantics of Python's built-in [str]
    type that the validators depend on, with their specifications:
    [contains_spec] (substring) and [strip_surrounding] (strip). *)

From S2P Require Import Prelude.

(** ** Whitespace and [str.strip] *)

(** [str.isspace] on one code point below 256: the ASCII controls
    \t \n \v \f \r, the separators \x1c..\x1f, space, NEL (\x85) and
    NBSP (\xa0). *)
Definition is_space (c : ascii) : bool :=
  let n := nat_of_ascii c in
  ((9 <=? n) && (n <=? 13)) || ((28 <=? n) && (n <=? 32)) ||
  (n =? 133) || (n =? 160).

Fixpoint lstrip (s : string) : string :=
  match s with
  | EmptyString => EmptyString
  | String c s' => if is_space c then lstrip s' else s
  end.

Fixpoint rstrip (s : string) : string :=
  match s with
  | EmptyString => EmptyString
  | String c s' =>
      let r := rstrip s' in
      match r with
      | EmptyString => if is_space c then EmptyString else String c EmptyString
      | _ => String c r
      end
  end.

(** [s.strip()] with no argument. *)
Definition strip (s : string) : string := rstrip (lstrip s).

(** ** Slicing and length *)

(** [s[i:]]. *)
Definition slice_from (i : nat) (s : string) : string :=
  substring i (String.length s - i) s.

(** ** Substring test *)

(** [s.startswith(sub)]. *)
Fixpoint starts_with (sub s : string) : bool :=
  match sub, s with
  | EmptyString, _ => true
  | String c sub', String d s' => bool_decide (c = d) && starts_with sub' s'
  | String _ _, EmptyString => false
  end.

(** [sub in s]: some suffix of [s] starts with [sub]. *)
Fixpoint contains (sub s : string) : bool :=
  starts_with sub s ||
  match s with
  | EmptyString => false
  | String _ s' => contains sub s'
  end.

(** [sep.join(l)] is [str_join sep l], i.e. [String.concat sep l]: no separator before the first
    element, one between consecutive elements, "" for the empty list. *)
Abbreviation str_join := String.concat.

(** ** [repr] and [str] of exceptions *)

(** A lowercase hexadecimal digit. *)
Definition hex_digit (n : nat) : ascii :=
  ascii_of_nat (if n <? 10 then 48 + n else 87 + n).

(** One code point of [repr(s)] (unicode_repr in Objects/unicodeobject.c)
    with [q] the chosen quote: the quote and the backslash are escaped,
    tab, newline and carriage return become \t \n \r, the other
    non-printable code points below 256 (the C0 controls, DEL, the C1
    controls, NBSP and the soft hyphen) become \xhh. *)
Definition repr_char (q c : ascii) : string :=
  let n := nat_of_ascii c in
  if Ascii.eqb c q || Ascii.eqb c "\" then String "\" (String c "")
  else if n =? 9 then "\t"
  else if n =? 10 then "\n"
  else if n =? 13 then "\r"
  else if (n <? 32) || (n =? 127) || ((128 <=? n) && (n <=? 160)) || (n =? 173)
  then String "\" (String "x" (String (hex_digit (n / 16)) (String (hex_digit (n mod 16)) "")))
  else String c "".

(** [repr(s)] of a str: single quotes, unless the text has a single quote
    and no double quote. *)
Definition py_repr (s : string) : string :=
  let cs := list_ascii_of_string s in
  let q := if existsb (Ascii.eqb "'") cs && negb (existsb (Ascii.eqb "034") cs)
           then "034"%char else "'"%char in
  String q (String.concat "" (map (repr_char q) cs) +:+ String q "").

(** [str(e)]: the message of the exception; [str(KeyError(k))] is the
    repr of the key. *)
Definition exn_str (e : exn) : string :=
  match e with
  | ValueError m => m
  | KeyError k => py_repr k
  | FileNotFoundError m => m
  | OSError m => m
  | TypeError m => m
  | CsvError m => m
  end.

(** ** Lemmas *)

Lemma starts_with_spec sub s : starts_with sub s = true <-> exists q, s = sub +:+ q.
Proof.
  revert s. induction sub as [|c sub IH]; intros s; simpl.
  - split; intros; [by exists s | done].
  - destruct s as [|d s]; simpl.
    + split; [discriminate | intros [q Hq]; discriminate].
    + rewrite andb_true_iff, bool_decide_eq_true, IH. split.
      * intros [-> [q ->]]. by exists q.
      * intros [q Hq]. injection Hq as -> ->. eauto.
Qed.

Lemma contains_spec sub s :
  contains sub s = true <-> exists p q, s = p +:+ sub +:+ q.
Proof.
  induction s as [|c s IH]; simpl.
  - rewrite orb_false_r, starts_with_spec. split.
    + intros [q Hq]. by exists "", q.
    + intros ([|? p] & q & Hq); [by exists q | discriminate].
  - rewrite orb_true_iff, starts_with_spec, IH. split.
    + intros [[q Hq] | (p & q & Hpq)].
      * by exists "", q.
      * exists (String c p), q. by rewrite Hpq.
    + intros ([|d p] & q & Hpq); simpl in Hpq.
      * left. by exists q.
      * right. injection Hpq as -> ->. by exists p, q.
Qed.

(** A string contains each of its infixes. *)
Lemma contains_infix p sub q : contains sub (p +:+ sub +:+ q) = true.
Proof. apply contains_spec. eauto. Qed.

Lemma append_empty_r s : s +:+ "" = s.
Proof. induction s as [|c s IH]; simpl; congruence. Qed.

Lemma append_assoc s1 s2 s3 : (s1 +:+ s2) +:+ s3 = s1 +:+ (s2 +:+ s3).
Proof. induction s1 as [|c s1 IH]; simpl; congruence. Qed.

(** A string made only of whitespace. *)
Definition all_space (s : string) : bool := forallb is_space (list_ascii_of_string s).

Lemma all_space_cons c s : all_space (String c s) = is_space c && all_space s.
Proof. done. Qed.

Lemma lstrip_all_space ws : all_space ws = true -> lstrip ws = "".
Proof.
  induction ws as [|c ws IH]; [done|].
  rewrite all_space_cons, andb_true_iff. intros [Hc Hws]. simpl. by rewrite Hc, IH.
Qed.

Lemma rstrip_all_space ws : all_space ws = true -> rstrip ws = "".
Proof.
  induction ws as [|c ws IH]; [done|].
  rewrite all_space_cons, andb_true_iff. intros [Hc Hws]. simpl. by rewrite IH, Hc.
Qed.

Lemma lstrip_app_space ws s : all_space ws = true -> lstrip (ws +:+ s) = lstrip s.
Proof.
  induction ws as [|c ws IH]; [done|].
  rewrite all_space_cons, andb_true_iff. intros [Hc Hws]. simpl. by rewrite Hc, IH.
Qed.

(** Trailing whitespace does not change [rstrip]. *)
Lemma rstrip_app_space s ws : all_space ws = true -> rstrip (s +:+ ws) = rstrip s.
Proof.
  intros Hws. induction s as [|c s IH]; simpl.
  - by apply rstrip_all_space.
  - by rewrite IH.
Qed.

Lemma strip_app_space_r s ws :
  all_space ws = true -> rstrip (lstrip (s +:+ ws)) = rstrip (lstrip s).
Proof.
  intros Hws. induction s as [|c s IH]; simpl.
  - by rewrite lstrip_all_space.
  - destruct (is_space c); [done|].
    change (rstrip (String c s +:+ ws) = rstrip (String c s)).
    by apply rstrip_app_space.
Qed.

(** [strip] removes any surrounding whitespace. *)
Theorem strip_surrounding ws1 s ws2 :
  all_space ws1 = true -> all_space ws2 = true ->
  strip (ws1 +:+ s +:+ ws2) = strip s.
Proof.
  intros H1 H2. unfold strip. rewrite lstrip_app_space by done.
  by apply strip_app_space_r.
Qed.

#[export] Hint Resolve contains_infix : pyval.
