(* ===== verification/Csv.v ===== *)
(** * Python's csv module, excel dialect, as the two scripts use it

    run_validation.py writes its report with [csv.DictWriter] (lines
    474-481); merge_csv.py reads the per-run files with [csv.DictReader]
    (lines 22-30) and writes the merged table with [csv.DictWriter]
    (lines 33-36).  This file holds the library's behaviour (CPython 3.11
    and later, Modules/_csv.c and Lib/csv.py) for the excel dialect:
    delimiter [,], the double quote as quote character, doubled quotes, no escape
    character, QUOTE_MINIMAL, line terminator "\r\n", strict off.  It is
    not repository code: nothing here is mapped to lines of src/.

    - Writer: [write_field] is join_append (a field containing the
      delimiter, the quote or a line-terminator character is quoted and
      its quotes doubled), [writerow] joins the fields with [,], writes a
      record made of one empty field as two quotes and ends the record with
      "\r\n"; [csv_write] is the text of a table.
    - Reader: [parse_process_char] is the state machine of _csv.c over
      [token]s, a character or the end-of-line mark the reader feeds at
      the end of each line; [parse_add_char] raises past the field size
      limit of 131072 characters; [read_chars] is Reader_iternext over the
      text of a file opened with newline='' (a line ends after "\n",
      after "\r\n" and after a "\r" that no "\n" follows); [csv_reader]
      is the list of records.
    - [dict_reader] is [csv.DictReader]: the first record gives the field
      names, blank records are skipped, a record shorter than the header
      is padded with [None], the surplus of a longer one goes under the
      key [None].

    Theorems: the reader gives back every table the writer writes, and
    raises exactly when a field is longer than the limit
    ([read_written_table], [reader_writer_roundtrip],
    [long_field_raises]); [DictReader] gives back each record of such a
    table, with distinct field names, as the dict zipping header and
    record ([dict_reader_written]). *)

From S2P Require Import Prelude PyStr.

(** ** Characters of the excel dialect *)

Definition delimiter : ascii := ",".
Definition quotechar : ascii := "034".
Definition cr : ascii := "013".
Definition lf : ascii := "010".

Definition is_crlf (c : ascii) : bool := Ascii.eqb c cr || Ascii.eqb c lf.

(** ** Writer *)

(** The characters that make QUOTE_MINIMAL quote a field: the delimiter,
    the quote character and the characters of the line terminator. *)
Definition needs_quoting (c : ascii) : bool :=
  Ascii.eqb c delimiter || Ascii.eqb c quotechar || is_crlf c.

(** doublequote: a quote inside a quoted field is written twice. *)
Fixpoint double_quotes (cs : list ascii) : list ascii :=
  match cs with
  | [] => []
  | c :: cs' =>
      if Ascii.eqb c quotechar then quotechar :: quotechar :: double_quotes cs'
      else c :: double_quotes cs'
  end.

(** join_append: one field as written. *)
Definition write_field (s : string) : list ascii :=
  let cs := list_ascii_of_string s in
  if existsb needs_quoting cs then quotechar :: double_quotes cs ++ [quotechar] else cs.

(** The fields separated by the delimiter. *)
Fixpoint join_fields (fs : list (list ascii)) : list ascii :=
  match fs with
  | [] => []
  | [f] => f
  | f :: fs' => f ++ delimiter :: join_fields fs'
  end.

(** csv_writerow: a non-empty record whose text is empty (one empty field)
    is written as two quotes, so that it is not read back as a blank line. *)
Definition writerow (row : list string) : list ascii :=
  let rec := join_fields (map write_field row) in
  match row, rec with
  | _ :: _, [] => [quotechar; quotechar]
  | _, _ => rec
  end ++ [cr; lf].

(** The text of a table: [writer.writerow] on each record in turn. *)
Definition csv_write (rows : list (list string)) : string :=
  string_of_list_ascii (flat_map writerow rows).

(** ** Reader *)

(** The states of the reader (ParserState of _csv.c; the escape states are
    unreachable without an escape character). *)
Inductive parser_state :=
| START_RECORD | START_FIELD | IN_FIELD | IN_QUOTED_FIELD
| QUOTE_IN_QUOTED_FIELD | EAT_CRNL.

(** What the state machine consumes: a character, or the end of a line. *)
Inductive token := Chr (c : ascii) | EOL.

(** The reader object: its state, the fields of the record so far, the
    field being read (reversed) and its length. *)
Record reader_state := ReaderState {
  rd_state : parser_state;
  rd_fields : list string;
  rd_field : list ascii;
  rd_field_len : N
}.

(** [csv.field_size_limit()] by default. *)
Definition field_limit : N := 131072.

Definition field_limit_error : exn := CsvError "field larger than field limit (131072)".

Definition parse_reset : reader_state := ReaderState START_RECORD [] [] 0.

Definition with_state (s : parser_state) (st : reader_state) : reader_state :=
  ReaderState s (rd_fields st) (rd_field st) (rd_field_len st).

Definition parse_save_field (st : reader_state) : reader_state :=
  ReaderState (rd_state st) (rd_fields st ++ [string_of_list_ascii (rev (rd_field st))]) [] 0.

Definition parse_add_char (st : reader_state) (c : ascii) : result reader_state :=
  if (field_limit <=? rd_field_len st)%N then Raise field_limit_error
  else Ok (ReaderState (rd_state st) (rd_fields st) (c :: rd_field st) (N.succ (rd_field_len st))).

(** START_FIELD on a character that does not end the line. *)
Definition start_field (st : reader_state) (c : ascii) : result reader_state :=
  if Ascii.eqb c quotechar then Ok (with_state IN_QUOTED_FIELD st)
  else if Ascii.eqb c delimiter then Ok (with_state START_FIELD (parse_save_field st))
  else (st' <- parse_add_char st c ;; Ok (with_state IN_FIELD st'))%py.

(** parse_process_char. *)
Definition parse_process_char (st : reader_state) (t : token) : result reader_state :=
  match rd_state st, t with
  | START_RECORD, EOL => Ok st
  | START_RECORD, Chr c =>
      if is_crlf c then Ok (with_state EAT_CRNL st) else start_field st c
  | START_FIELD, EOL => Ok (with_state START_RECORD (parse_save_field st))
  | START_FIELD, Chr c =>
      if is_crlf c then Ok (with_state EAT_CRNL (parse_save_field st)) else start_field st c
  | IN_FIELD, EOL => Ok (with_state START_RECORD (parse_save_field st))
  | IN_FIELD, Chr c =>
      if is_crlf c then Ok (with_state EAT_CRNL (parse_save_field st))
      else if Ascii.eqb c delimiter then Ok (with_state START_FIELD (parse_save_field st))
      else parse_add_char st c
  | IN_QUOTED_FIELD, EOL => Ok st
  | IN_QUOTED_FIELD, Chr c =>
      if Ascii.eqb c quotechar then Ok (with_state QUOTE_IN_QUOTED_FIELD st)
      else parse_add_char st c
  | QUOTE_IN_QUOTED_FIELD, Chr c =>
      if Ascii.eqb c quotechar then
        (st' <- parse_add_char st c ;; Ok (with_state IN_QUOTED_FIELD st'))%py
      else if Ascii.eqb c delimiter then Ok (with_state START_FIELD (parse_save_field st))
      else if is_crlf c then Ok (with_state EAT_CRNL (parse_save_field st))
      else (st' <- parse_add_char st c ;; Ok (with_state IN_FIELD st'))%py
  | QUOTE_IN_QUOTED_FIELD, EOL => Ok (with_state START_RECORD (parse_save_field st))
  | EAT_CRNL, EOL => Ok (with_state START_RECORD st)
  | EAT_CRNL, Chr c =>
      if is_crlf c then Ok st
      else Raise (CsvError ("new-line character seen in unquoted field - "
                            +:+ "do you need to open the file with newline=''?"))
  end.

(** A line of [for line in f] (newline='') ends after [c] when [c] is
    "\n", when [c] is "\r" and no "\n" follows, and at the end of the
    text. *)
Definition line_ends_after (c : ascii) (rest : list ascii) : bool :=
  match rest with
  | [] => true
  | c' :: _ => Ascii.eqb c lf || (Ascii.eqb c cr && negb (Ascii.eqb c' lf))
  end.

(** At the end of the input, a pending field (or an open quoted field) is
    saved and its record returned. *)
Definition at_eof (st : reader_state) : list (list string) :=
  match rd_state st with
  | IN_QUOTED_FIELD => [rd_fields (parse_save_field st)]
  | _ => if N.eqb (rd_field_len st) 0 then [] else [rd_fields (parse_save_field st)]
  end.

(** Reader_iternext, iterated to the end of the text: each character is
    processed, the end-of-line mark after each line, and a record is
    complete when a line ends in [START_RECORD]. *)
Fixpoint read_chars (s : list ascii) (st : reader_state) : result (list (list string)) :=
  match s with
  | [] => Ok (at_eof st)
  | c :: s' =>
      (st1 <- parse_process_char st (Chr c) ;;
       if line_ends_after c s' then
         (st2 <- parse_process_char st1 EOL ;;
          match rd_state st2 with
          | START_RECORD => (recs <- read_chars s' parse_reset ;; Ok (rd_fields st2 :: recs))
          | _ => read_chars s' st2
          end)
       else read_chars s' st1)%py
  end.

(** [list(csv.reader(f))]. *)
Definition csv_reader (text : string) : result (list (list string)) :=
  read_chars (list_ascii_of_string text) parse_reset.

(** ** DictReader *)

(** A value of a row of [csv.DictReader]: a field, the [None] of a
    missing field, or the list of surplus fields. *)
Inductive cell := CStr (s : string) | CNone | CList (l : list string).

(** A row of [csv.DictReader]: keys are field names, or [None] (restkey)
    for the surplus fields. *)
Abbreviation row_dict := (list (option string * cell)).

(** DictReader.__next__ on one non-blank record. *)
Definition dict_of_record (fieldnames row : list string) : row_dict :=
  let d := fold_left (fun d kv => dict_set d (Some kv.1) (CStr kv.2)) (zip fieldnames row) [] in
  let lf := length fieldnames in
  let lr := length row in
  if lf <? lr then dict_set d None (CList (drop lf row))
  else if lr <? lf then fold_left (fun d k => dict_set d (Some k) CNone) (drop lr fieldnames) d
  else d.

Definition is_blank (r : list string) : bool :=
  match r with [] => true | _ => false end.

(** [reader.fieldnames] (the first record, [None] for an empty file) and
    the rows of [for row in reader]. *)
Definition dict_reader (records : list (list string)) : option (list string) * list row_dict :=
  match records with
  | [] => (None, [])
  | fns :: rest => (Some fns, map (dict_of_record fns) (List.filter (fun r => negb (is_blank r)) rest))
  end.

(** The dict [csv.DictReader] builds for a record with the header's
    length and distinct field names. *)
Definition zip_dict (hdr row : list string) : row_dict :=
  map (fun kv => (Some kv.1, CStr kv.2)) (zip hdr row).

(** A field within the size limit. *)
Definition fits (s : string) : bool := (N.of_nat (String.length s) <=? field_limit)%N.

(** [parse_add_char] in state [S]: the character joins the field, or the
    field size limit is reached. *)
Definition add1 (S : parser_state) (fs : list string) (f : list ascii) (n : N) (c : ascii)
  : result reader_state :=
  if (field_limit <=? n)%N then Raise field_limit_error
  else Ok (ReaderState S fs (c :: f) (N.succ n)).

(** The states in which a delimiter or a line end closes a field. *)
Definition ends_field (S : parser_state) : bool :=
  match S with START_FIELD | IN_FIELD | QUOTE_IN_QUOTED_FIELD => true | _ => false end.

(** Case analysis on the field-length comparisons of a proof. *)
Ltac limit_cases :=
  repeat match goal with
  | |- context [(?a <=? ?b)%N] => destruct (N.leb_spec a b)
  end; try lia; try done.

(** ** Lemmas *)

Lemma length_list_ascii_of_string s : length (list_ascii_of_string s) = String.length s.
Proof. induction s as [|c s IH]; simpl; congruence. Qed.

(** A character that does not end the line moves the reader on; so does
    any character inside a quoted field, where the end-of-line mark is
    ignored. *)
Lemma read_chars_step c s st st1 :
  parse_process_char st (Chr c) = Ok st1 ->
  line_ends_after c s = false \/ rd_state st1 = IN_QUOTED_FIELD ->
  read_chars (c :: s) st = read_chars s st1.
Proof.
  intros Hp Hl. simpl. rewrite Hp. simpl.
  destruct Hl as [-> | Hq]; [done|].
  destruct (line_ends_after c s); [|done].
  destruct st1 as [q fs f n]; simpl in Hq; subst q. done.
Qed.

(** The end of a record: "\r\n" read after the last field. *)
Lemma read_chars_crlf fs r :
  read_chars (lf :: r) (ReaderState EAT_CRNL fs [] 0) =
  (recs <- read_chars r parse_reset ;; Ok (fs :: recs))%py.
Proof. destruct r; reflexivity. Qed.

Lemma line_ends_after_mid c s : is_crlf c = false -> s <> [] -> line_ends_after c s = false.
Proof.
  unfold is_crlf. intros Hc Hs. destruct s; [done|]. simpl.
  apply orb_false_iff in Hc as [-> ->]. done.
Qed.

Lemma read_add S c s st fs f n :
  parse_process_char st (Chr c) = add1 S fs f n c ->
  line_ends_after c s = false \/ S = IN_QUOTED_FIELD ->
  read_chars (c :: s) st =
  if (field_limit <=? n)%N then Raise field_limit_error
  else read_chars s (ReaderState S fs (c :: f) (N.succ n)).
Proof.
  unfold add1. intros Hp Hl. destruct (field_limit <=? n)%N.
  - simpl. by rewrite Hp.
  - by eapply read_chars_step.
Qed.

Lemma step_quoted_char fs f n c :
  Ascii.eqb c quotechar = false ->
  parse_process_char (ReaderState IN_QUOTED_FIELD fs f n) (Chr c) = add1 IN_QUOTED_FIELD fs f n c.
Proof. intros Hc. cbn. rewrite Hc. unfold parse_add_char, add1; simpl. by destruct (_ <=? _)%N. Qed.

Lemma step_quote_in_quoted fs f n :
  parse_process_char (ReaderState QUOTE_IN_QUOTED_FIELD fs f n) (Chr quotechar) =
  add1 IN_QUOTED_FIELD fs f n quotechar.
Proof. cbn. unfold parse_add_char, add1; simpl. by destruct (_ <=? _)%N. Qed.

Lemma read_quoted_content cs r fs f n :
  (n <= field_limit)%N ->
  read_chars (double_quotes cs ++ quotechar :: r) (ReaderState IN_QUOTED_FIELD fs f n) =
  if (n + N.of_nat (length cs) <=? field_limit)%N
  then read_chars (quotechar :: r) (ReaderState IN_QUOTED_FIELD fs (rev cs ++ f) (n + N.of_nat (length cs)))
  else Raise field_limit_error.
Proof.
  revert f n. induction cs as [|c cs IH]; intros f n Hn; cbn [double_quotes app length].
  - limit_cases. by rewrite N.add_0_r.
  - destruct (Ascii.eqb c quotechar) eqn:Hc; cbn [app].
    + apply Ascii.eqb_eq in Hc as ->.
      rewrite (read_chars_step _ _ _ (ReaderState QUOTE_IN_QUOTED_FIELD fs f n)); [|done|by left].
      rewrite (read_add IN_QUOTED_FIELD _ _ _ fs f n); [|apply step_quote_in_quoted|by right].
      destruct (N.leb_spec field_limit n); [limit_cases|].
      rewrite IH by lia. cbn [rev]. rewrite <- app_assoc. limit_cases. do 2 f_equal; lia.
    + rewrite (read_add IN_QUOTED_FIELD _ _ _ fs f n); [|by apply step_quoted_char|by right].
      destruct (N.leb_spec field_limit n); [limit_cases|].
      rewrite IH by lia. cbn [rev]. rewrite <- app_assoc. limit_cases. do 2 f_equal; lia.
Qed.


Lemma no_quoting c : needs_quoting c = false ->
  Ascii.eqb c delimiter = false /\ Ascii.eqb c quotechar = false /\ is_crlf c = false.
Proof. unfold needs_quoting. by intros [[-> ->]%orb_false_iff ->]%orb_false_iff. Qed.

Lemma step_field_char fs f n c :
  needs_quoting c = false ->
  parse_process_char (ReaderState IN_FIELD fs f n) (Chr c) = add1 IN_FIELD fs f n c.
Proof.
  intros (Hd & _ & Hc)%no_quoting. cbn. rewrite Hc, Hd.
  unfold parse_add_char, add1; simpl. by destruct (_ <=? _)%N.
Qed.

Lemma read_unquoted_content cs r fs f n :
  (n <= field_limit)%N ->
  forallb (fun c => negb (needs_quoting c)) cs = true -> r <> [] ->
  read_chars (cs ++ r) (ReaderState IN_FIELD fs f n) =
  if (n + N.of_nat (length cs) <=? field_limit)%N
  then read_chars r (ReaderState IN_FIELD fs (rev cs ++ f) (n + N.of_nat (length cs)))
  else Raise field_limit_error.
Proof.
  revert f n. induction cs as [|c cs IH]; intros f n Hn Hcs Hr; cbn [app length].
  - limit_cases. by rewrite N.add_0_r.
  - simpl in Hcs. apply andb_true_iff in Hcs as [Hc Hcs]. apply negb_true_iff in Hc.
    rewrite (read_add IN_FIELD _ _ _ fs f n); [|by apply step_field_char|].
    2:{ left. apply line_ends_after_mid; [apply no_quoting, Hc|]. by destruct cs. }
    destruct (N.leb_spec field_limit n); [limit_cases|].
    rewrite IH by (done || lia). cbn [rev]. rewrite <- app_assoc. limit_cases. do 2 f_equal; lia.
Qed.

(** A field ends at a delimiter or at the "\r" of a line end. *)
Lemma step_end_field S fs f n c :
  ends_field S = true -> c = delimiter \/ c = cr ->
  parse_process_char (ReaderState S fs f n) (Chr c) =
  Ok (ReaderState (if Ascii.eqb c delimiter then START_FIELD else EAT_CRNL)
        (fs ++ [string_of_list_ascii (rev f)]) [] 0).
Proof. destruct S; try discriminate; intros _ [-> | ->]; reflexivity. Qed.

Lemma start_field_state S1 S2 fs f n c :
  start_field (ReaderState S1 fs f n) c = start_field (ReaderState S2 fs f n) c.
Proof.
  unfold start_field. destruct (Ascii.eqb c quotechar), (Ascii.eqb c delimiter); try done.
  unfold parse_add_char; simpl. by destruct (_ <=? _)%N.
Qed.

(** At the start of a record, a character that is not a line end starts
    the first field. *)
Lemma read_chars_record_start s :
  match s with c :: _ => is_crlf c = false | [] => False end ->
  read_chars s parse_reset = read_chars s (ReaderState START_FIELD [] [] 0).
Proof.
  destruct s as [|c s]; [done|]. intros Hc. cbn [read_chars].
  unfold parse_process_char at 1 3. cbn [rd_state parse_reset].
  rewrite Hc. unfold parse_reset at 1. by rewrite (start_field_state START_RECORD START_FIELD).
Qed.

Lemma string_of_list_ascii_rev_rev s :
  string_of_list_ascii (rev (rev (list_ascii_of_string s) ++ [])) = s.
Proof. by rewrite app_nil_r, rev_involutive, string_of_list_ascii_of_string. Qed.

(** One field as the writer writes it, followed by a delimiter or a line
    end: the reader saves it, or raises when it is longer than the
    limit. *)
Lemma read_field s c r fs :
  c = delimiter \/ c = cr -> line_ends_after c r = false ->
  read_chars (write_field s ++ c :: r) (ReaderState START_FIELD fs [] 0) =
  if fits s
  then read_chars r (ReaderState (if Ascii.eqb c delimiter then START_FIELD else EAT_CRNL)
                       (fs ++ [s]) [] 0)
  else Raise field_limit_error.
Proof.
  intros Hc Hl. unfold write_field, fits. rewrite <- length_list_ascii_of_string.
  destruct (existsb needs_quoting (list_ascii_of_string s)) eqn:Hq.
  - cbn [app]. rewrite (read_chars_step _ _ _ (ReaderState IN_QUOTED_FIELD fs [] 0)); [|done|by right].
    rewrite <- app_assoc. cbn [app].
    rewrite read_quoted_content by lia. rewrite N.add_0_l.
    destruct (_ <=? _)%N; [|done].
    rewrite (read_chars_step _ _ _ (ReaderState QUOTE_IN_QUOTED_FIELD fs
               (rev (list_ascii_of_string s) ++ []) (N.of_nat (length (list_ascii_of_string s)))));
      [|done|by left].
    rewrite (read_chars_step _ _ _ _ (step_end_field QUOTE_IN_QUOTED_FIELD _ _ _ c eq_refl Hc));
      [|by left].
    by rewrite string_of_list_ascii_rev_rev.
  - assert (Hs : forallb (fun c => negb (needs_quoting c)) (list_ascii_of_string s) = true).
    { rewrite forallb_forall. intros x Hx. apply negb_true_iff.
      destruct (needs_quoting x) eqn:E; [|done].
      enough (existsb needs_quoting (list_ascii_of_string s) = true) by congruence.
      apply existsb_exists. eauto. }
    destruct (list_ascii_of_string s) as [|c0 cs] eqn:Es.
    + cbn [app length]. rewrite (read_chars_step _ _ _ _ (step_end_field START_FIELD _ _ _ c eq_refl Hc));
        [|by left].
      limit_cases. rewrite <- (string_of_list_ascii_of_string s), Es. done.
    + simpl in Hs. apply andb_true_iff in Hs as [Hc0 Hs]. apply negb_true_iff in Hc0.
      pose proof (no_quoting _ Hc0) as (Hd0 & Hq0 & Hcr0).
      cbn [app]. rewrite (read_add IN_FIELD _ _ _ fs [] 0).
      2:{ cbn. rewrite Hcr0. unfold start_field. rewrite Hq0, Hd0. reflexivity. }
      2:{ left. apply line_ends_after_mid; [done|]. by destruct cs. }
      change (field_limit <=? 0)%N with false. cbv iota.
      rewrite read_unquoted_content by (done || unfold field_limit; lia).
      rewrite (read_chars_step _ _ _ _ (step_end_field IN_FIELD _ _ _ c eq_refl Hc)); [|by left].
      rewrite rev_app_distr, rev_involutive. cbn [rev app].
      replace (string_of_list_ascii (c0 :: cs)) with s
        by (by rewrite <- Es, string_of_list_ascii_of_string).
      cbn [length]. limit_cases.
Qed.

(** The fields of a record, the last one followed by "\r\n". *)
Lemma read_fields fs fs0 r :
  fs <> [] ->
  read_chars (join_fields (map write_field fs) ++ cr :: lf :: r) (ReaderState START_FIELD fs0 [] 0) =
  if forallb fits fs then (recs <- read_chars r parse_reset ;; Ok ((fs0 ++ fs) :: recs))%py
  else Raise field_limit_error.
Proof.
  revert fs0. induction fs as [|f fs IH]; intros fs0 Hne; [done|].
  destruct fs as [|f' fs].
  - cbn [map join_fields forallb]. rewrite read_field by (by right || reflexivity).
    rewrite andb_true_r. destruct (fits f); [|done]. apply read_chars_crlf.
  - change (join_fields (map write_field (f :: f' :: fs)))
      with (write_field f ++ delimiter :: join_fields (map write_field (f' :: fs))).
    rewrite <- app_assoc. cbn [app]. rewrite read_field; [| by left |].
    2:{ apply line_ends_after_mid; [done|]. by destruct (join_fields _). }
    cbn [forallb]. destruct (fits f); [|done]. cbn [andb].
    rewrite IH by done. by rewrite <- app_assoc.
Qed.

Lemma write_field_head s d cs : write_field s = d :: cs -> is_crlf d = false.
Proof.
  unfold write_field. destruct (existsb needs_quoting _) eqn:Hq; [by intros [= <- _]|].
  intros Hs. assert (Hd : d ∈ list_ascii_of_string s) by (rewrite Hs; set_solver).
  destruct (needs_quoting d) eqn:E.
  - enough (existsb needs_quoting (list_ascii_of_string s) = true) by congruence.
    apply existsb_exists. exists d. split; [by apply list_elem_of_In | done].
  - by apply no_quoting in E as (_ & _ & ?).
Qed.

Lemma join_fields_head fs d cs : join_fields (map write_field fs) = d :: cs -> is_crlf d = false.
Proof.
  destruct fs as [|f [|f' fs]]; cbn [map join_fields]; [done | apply write_field_head|].
  destruct (write_field f) as [|d' cs'] eqn:E; cbn [app].
  - by intros [= <- _].
  - intros [= <- _]. by apply (write_field_head f d' cs').
Qed.

Lemma write_field_nil s : write_field s = [] -> s = "".
Proof.
  unfold write_field. destruct (existsb _ _); [done|].
  intros H. by rewrite <- (string_of_list_ascii_of_string s), H.
Qed.

(** One record as the writer writes it. *)
Lemma read_writerow row r :
  read_chars (writerow row ++ r) parse_reset =
  if forallb fits row then (recs <- read_chars r parse_reset ;; Ok (row :: recs))%py
  else Raise field_limit_error.
Proof.
  unfold writerow. destruct row as [|f fs].
  - cbn [map join_fields app]. rewrite (read_chars_step _ _ _ (ReaderState EAT_CRNL [] [] 0));
      [apply read_chars_crlf | done | by left].
  - destruct (join_fields (map write_field (f :: fs))) as [|d cs] eqn:J.
    + assert (fs = [] /\ f = "") as [-> ->].
      { destruct fs as [|f' fs]; cbn in J.
        - split; [done|]. by apply write_field_nil.
        - destruct (write_field f); discriminate. }
      cbn [app]. rewrite (read_chars_step _ _ _ (ReaderState IN_QUOTED_FIELD [] [] 0)); [|done|by left].
      rewrite (read_chars_step _ _ _ (ReaderState QUOTE_IN_QUOTED_FIELD [] [] 0)); [|done|by left].
      rewrite (read_chars_step _ _ _ (ReaderState EAT_CRNL [""] [] 0)); [|done|by left].
      apply read_chars_crlf.
    + rewrite <- J, <- app_assoc.
      rewrite (read_chars_record_start (join_fields (map write_field (f :: fs)) ++ [cr; lf] ++ r))
        by (rewrite J; by eapply join_fields_head).
      change ([cr; lf] ++ r) with (cr :: lf :: r). by rewrite read_fields.
Qed.

(** The reader on the writer's text: the table back, or the field size
    error when a field is longer than the limit. *)
Lemma read_written_table rows :
  csv_reader (csv_write rows) =
  if forallb (forallb fits) rows then Ok rows else Raise field_limit_error.
Proof.
  unfold csv_reader, csv_write. rewrite list_ascii_of_string_of_list_ascii.
  induction rows as [|row rows IH]; [done|]. cbn [flat_map forallb].
  rewrite read_writerow, IH. destruct (forallb fits row), (forallb (forallb fits) rows); done.
Qed.

Lemma forallb_fits_iff rows :
  forallb (forallb fits) rows = true <-> Forall (Forall (fun s => fits s = true)) rows.
Proof.
  rewrite forallb_forall, Forall_forall. apply forall_proper; intros row.
  rewrite forallb_forall, Forall_forall, <- list_elem_of_In.
  by setoid_rewrite <- list_elem_of_In.
Qed.

(** A field longer than the limit, anywhere in the table, makes reading
    the written text raise. *)
Lemma read_written_long_field rows row s :
  row ∈ rows -> s ∈ row -> fits s = false ->
  csv_reader (csv_write rows) = Raise field_limit_error.
Proof.
  intros Hrow Hs Hf. rewrite read_written_table.
  destruct (forallb (forallb fits) rows) eqn:E; [|done].
  apply forallb_fits_iff in E. rewrite Forall_forall in E.
  apply E in Hrow. rewrite Forall_forall in Hrow. apply Hrow in Hs. congruence.
Qed.

(** DictReader over a table whose records all have the header's length,
    with distinct field names: each record is the dict zipping header and
    record. *)
Lemma dict_reader_table hdr rows :
  hdr <> [] -> NoDup hdr -> Forall (fun r => length r = length hdr) rows ->
  dict_reader (hdr :: rows) =
  (Some hdr, map (zip_dict hdr) rows).
Proof.
  intros Hne Hnd Hlen. simpl. f_equal.
  rewrite (List.filter_ext_in _ (fun _ => true)), List.filter_true.
  2:{ intros r Hr. rewrite Forall_forall in Hlen. rewrite <- list_elem_of_In in Hr.
      apply Hlen in Hr. destruct r, hdr; simpl in *; done. }
  apply map_ext_in. intros r Hr. rewrite Forall_forall in Hlen. rewrite <- list_elem_of_In in Hr.
  apply Hlen in Hr. unfold dict_of_record.
  rewrite Hr, Nat.ltb_irrefl. cbn [negb].
  replace (fold_left _ (zip hdr r) [])
    with (fold_left (fun d kv => dict_set d kv.1 kv.2) (map (fun kv => (Some kv.1, CStr kv.2)) (zip hdr r)) [])
    by (by rewrite fold_left_fmap).
  rewrite fold_dict_set_fresh; [done| |set_solver].
  rewrite map_map. cbn. rewrite <- (map_map fst Some), fst_zip by lia.
  apply NoDup_fmap_2; [apply _ | done].
Qed.
