(* ===== verification/Tree.v ===== *)
(** * The tree-sitter interface the validators call

    A syntax-tree node ([node]) carries what the code reads from a
    tree-sitter [Node]: its [type], its [text] (already decoded), whether
    it is a MISSING node, and its children.  A node handle as the Python
    holds it (a [Node] with a [.parent]) is a zipper location [loc]: the
    subtree plus the frames leading to the root.  [parent] and the upward
    walk [climb] are structural on the frames, so every [while curr: ...
    curr = curr.parent] loop of the source terminates by construction.

    The parser and the query engine are external collaborators; they are
    records of operations ([parser], [query], [language]) passed to the
    validators as the Python passes [parser] and [KOTLIN_LANGUAGE]. *)

From S2P Require Import Prelude.
Local Set Warnings "-register-all".

Inductive node := Node {
  ntype : string;
  ntext : string;
  nmissing : bool;
  children : list node
}.

(** One step of the path to the root: the parent's own data and the
    siblings left and right of the hole. *)
Record frame := Frame {
  f_type : string;
  f_text : string;
  f_missing : bool;
  f_left : list node;
  f_right : list node
}.

Definition plug (f : frame) (n : node) : node :=
  Node (f_type f) (f_text f) (f_missing f) (f_left f ++ n :: f_right f).

(** A node handle: the node and its path to the root (innermost first). *)
Record loc := Loc { l_node : node; l_ctx : list frame }.

(** [node.parent]: [None] at the root. *)
Definition parent (l : loc) : option loc :=
  match l_ctx l with
  | [] => None
  | f :: c => Some (Loc (plug f (l_node l)) c)
  end.

Fixpoint zip_up (n : node) (ctx : list frame) : node :=
  match ctx with
  | [] => n
  | f :: c => zip_up (plug f n) c
  end.

(** The root of the tree a handle points into. *)
Definition root_of (l : loc) : node := zip_up (l_node l) (l_ctx l).

(** [root_node.has_error]: the subtree holds an ERROR or a MISSING node. *)
Fixpoint has_error (n : node) : bool :=
  nmissing n || String.eqb (ntype n) "ERROR" || existsb has_error (children n).

(** The node itself, its parent, its grandparent, ... up to the root. *)
Fixpoint ancestors_from (n : node) (ctx : list frame) : list loc :=
  Loc n ctx ::
  match ctx with
  | [] => []
  | f :: c => ancestors_from (plug f n) c
  end.

Definition ancestors (l : loc) : list loc := ancestors_from (l_node l) (l_ctx l).

(** The loop shape [curr = node; while curr and not p(curr.type): curr =
    curr.parent]: the first handle, from the node upward, whose type
    satisfies [p]; [None] when the walk falls off the root. *)
Fixpoint climb (p : string -> bool) (n : node) (ctx : list frame) : option loc :=
  if p (ntype n) then Some (Loc n ctx)
  else match ctx with
       | [] => None
       | f :: c => climb p (plug f n) c
       end.

(** The number of ancestors of a handle: how many times [.parent] can be
    taken before it gives [None]. *)
Definition depth (l : loc) : nat := length (l_ctx l).

(** [while cur and cond(cur): cur = cur.parent] as Python runs it, one
    evaluation of the loop test per unit of fuel: [Some r] is the value
    of [cur] when the loop exits, [None] that the fuel ran out first. *)
Fixpoint while_parent (fuel : nat) (cond : loc -> bool) (cur : option loc) : option (option loc) :=
  match fuel with
  | 0 => None
  | S fuel' =>
      match cur with
      | Some l => if cond l then while_parent fuel' cond (parent l) else Some (Some l)
      | None => Some None
      end
  end.

(** [node.children[i]] as a handle. *)
Definition child (l : loc) (i : nat) : option loc :=
  match l_node l with
  | Node t x m cs =>
      match cs !! i with
      | Some c => Some (Loc c (Frame t x m (take i cs) (drop (S i) cs) :: l_ctx l))
      | None => None
      end
  end.

(** Follow a path of child indices from a handle. *)
Fixpoint descend (l : loc) (path : list nat) : option loc :=
  match path with
  | [] => Some l
  | i :: p => match child l i with Some c => descend c p | None => None end
  end.

(** The handle of the root node of a tree. *)
Definition root_loc (n : node) : loc := Loc n [].

(** ** The external collaborators *)

(** A tree-sitter [Parser] with its language set: [parser.parse(bytes)]
    returns the root node of the tree. *)
Record parser := { parse : string -> node }.

(** A capture: a node handle and the capture name of the query. *)
Definition capture := (loc * string)%type.

(** A compiled query: [query.captures(root_node)]. *)
Record query := { captures : node -> list capture }.

(** The query sources that appear literally in run_validation.py. *)
Inductive query_src :=
| PreviewQuery          (* lines 15-25 *)
| UnitTestQuery         (* lines 81-95 *)
| InstrumentationQuery  (* lines 167-182 *)
| DiffQuery.            (* lines 521-524 *)

(** A tree-sitter [Language]: [LANGUAGE.query(source)]. *)
Record language := { lang_query : query_src -> query }.

(** The text of a captured node: [node.text.decode('utf8')]. *)
Definition cap_text (c : capture) : string := ntext (l_node c.1).

(** ** Lemmas on handles *)

(** The walk is [find] over the ancestor chain. *)
Theorem climb_find p l :
  climb p (l_node l) (l_ctx l) = List.find (fun a => p (ntype (l_node a))) (ancestors l).
Proof.
  destruct l as [n ctx]. unfold ancestors; simpl.
  revert n. induction ctx as [|f c IH]; intros n; simpl;
    destruct (p (ntype n)); auto.
Qed.

(** The Python loop ends within [depth l + 2] tests, at the node [climb]
    finds: the upward walk terminates, and [climb] is its result. *)
Lemma while_parent_climb p n ctx fuel :
  length ctx + 2 <= fuel ->
  while_parent fuel (fun a => negb (p (ntype (l_node a)))) (Some (Loc n ctx)) = Some (climb p n ctx).
Proof.
  revert n fuel. induction ctx as [|f ctx IH]; intros n [|fuel] Hf; simpl in *; try lia.
  - destruct (p (ntype n)); simpl; [done|]. by destruct fuel; [lia|].
  - destruct (p (ntype n)); simpl; [done|]. apply IH. lia.
Qed.

(** Going down to a child and back up is the identity. *)
Lemma parent_child l i c : child l i = Some c -> parent c = Some l.
Proof.
  destruct l as [[t x m cs] ctx]. unfold child, parent; simpl.
  destruct (cs !! i) as [d|] eqn:E; intros H; simplify_eq; simpl.
  unfold plug; cbn [f_type f_text f_missing f_left f_right].
  by rewrite (take_drop_middle cs i d E).
Qed.


(** The sample handle: a child of the root, whose parent is the root. *)
Lemma parent_child_witness :
  child (root_loc (Node "source_file" "" false [Node "annotation" "@A" false []])) 0 =
    Some (Loc (Node "annotation" "@A" false []) [Frame "source_file" "" false [] []]) /\
  parent (Loc (Node "annotation" "@A" false []) [Frame "source_file" "" false [] []]) =
    Some (root_loc (Node "source_file" "" false [Node "annotation" "@A" false []])).
Proof.
  assert (H : child (root_loc (Node "source_file" "" false [Node "annotation" "@A" false []])) 0 =
    Some (Loc (Node "annotation" "@A" false []) [Frame "source_file" "" false [] []])) by reflexivity.
  split; [exact H|]. exact (parent_child _ _ _ H).
Defined.
