(* ===== verification/Samples.v ===== *)
(** * Sample syntax trees and captures

    Concrete inputs for the witnesses: small Kotlin trees shaped as
    tree-sitter-kotlin builds them (standard [function_declaration] with a
    [modifiers] child; expression-style [fun] declarations as an
    [infix_expression] under [prefix_expression] wrappers carrying the
    annotations; a class with a [delegation_specifier]) and diff trees with
    [deletion] and [addition] lines.  A sample query returns the captures
    a tree-sitter query would return on the sample, as node handles built
    with [descend]. *)

From S2P Require Import Prelude Tree.

Definition leaf (t x : string) : node := Node t x false [].
Definition ann (x : string) : node := leaf "annotation" x.
Definition ident (x : string) : node := leaf "simple_identifier" x.

(** The capture of the node at [path] under [root], named [name]. *)
Definition cap_at (root : node) (path : list nat) (name : string) : list capture :=
  match descend (root_loc root) path with
  | Some l => [(l, name)]
  | None => []
  end.

(** A parser that returns a fixed tree, and a language whose queries all
    return fixed captures. *)
Definition const_parser (t : node) : parser := {| parse := fun _ => t |}.
Definition const_query (cs : list capture) : query := {| captures := fun _ => cs |}.
Definition const_language (cs : list capture) : language :=
  {| lang_query := fun _ => const_query cs |}.

(** ** Kotlin *)

(** A one-digit suffix for generated names. *)
Definition digit (i : nat) : string := String (ascii_of_nat (48 + i)) "".

Definition kotlin_file (decls : list node) : node := Node "source_file" "" false decls.

(** [@A @B fun name() {}]: a standard declaration. *)
Definition fun_decl (anns : list string) (name : string) : node :=
  Node "function_declaration" "" false
    [Node "modifiers" "" false (map ann anns); ident name;
     leaf "function_value_parameters" "()"; leaf "function_body" "{}"].

(** [fun name() = ...]: an expression-style declaration. *)
Definition expr_fun (name : string) : node :=
  Node "infix_expression" "" false
    [ident "fun"; Node "call_expression" "" false [ident name; leaf "call_suffix" "()"]].

(** [@Preview @Composable fun GreetingPreview() = ...] in expression style:
    each annotation sits on its own [prefix_expression] wrapper. *)
Definition preview_expr_file : node :=
  kotlin_file
    [Node "prefix_expression" "" false
       [ann "@Preview";
        Node "prefix_expression" "" false [ann "@Composable"; expr_fun "GreetingPreview"]]].

Definition preview_expr_caps : list capture :=
  cap_at preview_expr_file [0; 1; 1; 0] "keyword_fun" ++
  cap_at preview_expr_file [0; 1; 1; 1; 0] "func_name".

(** The handle of [GreetingPreview] in [preview_expr_file]. *)
Definition preview_expr_name : loc :=
  Eval vm_compute in default (root_loc preview_expr_file) (descend (root_loc preview_expr_file) [0; 1; 1; 1; 0]).

(** The captures of the top-level function names of a file. *)
Definition top_fun_caps (f : node) (n : nat) : list capture :=
  flat_map (fun i => cap_at f [i; 1] "func_name") (seq 0 n).

(** [@Preview fun A() {}] and [@Composable fun B() {}]. *)
Definition split_preview_file : node :=
  kotlin_file [fun_decl ["@Preview"] "A"; fun_decl ["@Composable"] "B"].

(** [@Preview @Composable fun A() {}]. *)
Definition joint_preview_file : node :=
  kotlin_file [fun_decl ["@Preview"; "@Composable"] "A"].

(** [@Test @Test fun t() {}]: the same annotation written twice. *)
Definition duplicate_test_file : node := kotlin_file [fun_decl ["@Test"; "@Test"] "t"].

(** [import a.b.C] *)
Definition import_header (path : string) : node :=
  Node "import_header" "" false [leaf "identifier" path].

(** [val name = Ctor()] *)
Definition property_ctor (name ctor : string) : node :=
  Node "property_declaration" "" false
    [Node "variable_declaration" "" false [ident name];
     Node "call_expression" "" false [ident ctor; leaf "call_suffix" "()"]].

(** A unit-test file with both required imports, [k] tests and, when
    [with_ctor] holds, the use-case constructor call. *)
Definition unit_test_file (with_ctor : bool) (k : nat) : node :=
  kotlin_file
    ([import_header "com.google.samples.apps.nowinandroid.core.model.data.FollowableTopic";
      import_header "com.google.samples.apps.nowinandroid.core.model.data.Topic"] ++
     (if with_ctor then [property_ctor "useCase" "GetFollowableTopicsUseCase"] else []) ++
     map (fun i => fun_decl ["@Test"] ("test" +:+ digit i)) (seq 0 k)).

Definition unit_test_caps (with_ctor : bool) (k : nat) : list capture :=
  let f := unit_test_file with_ctor k in
  let off := if with_ctor then 3 else 2 in
  cap_at f [0; 0] "import_path" ++ cap_at f [1; 0] "import_path" ++
  (if with_ctor then cap_at f [2; 0; 0] "prop_name" ++ cap_at f [2; 1; 0] "constructor_name"
   else []) ++
  flat_map (fun i => cap_at f [off + i; 1] "func_name") (seq 0 k).

(** [class name : parent() { <k tests> }] *)
Definition class_decl (name parent : string) (k : nat) : node :=
  Node "class_declaration" "" false
    [leaf "type_identifier" name;
     Node "delegation_specifier" "" false
       [Node "constructor_invocation" "" false
          [Node "user_type" "" false [leaf "type_identifier" parent]; leaf "value_arguments" "()"]];
     Node "class_body" "" false (map (fun i => fun_decl ["@Test"] ("t" +:+ digit i)) (seq 0 k))].

Definition instr_file (k : nat) : node :=
  kotlin_file
    [import_header "com.google.samples.apps.nowinandroid.core.database.model.TopicEntity";
     class_decl "TopicDaoTest" "DatabaseTest" k].

(** The captures in document order, or with the parent before the class
    name when [parent_first] holds. *)
Definition instr_caps (parent_first : bool) (k : nat) : list capture :=
  let f := instr_file k in
  let cls := cap_at f [1; 0] "class_name" in
  let par := cap_at f [1; 1; 0; 0; 0] "parent_class" in
  cap_at f [0; 0] "import_path" ++
  (if parent_first then par ++ cls else cls ++ par) ++
  flat_map (fun i => cap_at f [1; 2; i; 1] "func_name") (seq 0 k).

(** The [class_name] capture of [instr_caps false 0]. *)
Definition instr_class_cap : capture :=
  Eval vm_compute in nth 1 (instr_caps false 0) (root_loc (kotlin_file []), "").

(** The [parent_class] capture of [instr_caps false 0]. *)
Definition instr_parent_cap : capture :=
  Eval vm_compute in nth 2 (instr_caps false 0) (root_loc (kotlin_file []), "").

(** ** Diffs *)

Definition diff_file (dels adds : list string) : node :=
  Node "source" "" false (map (leaf "deletion") dels ++ map (leaf "addition") adds).

Definition diff_caps (dels adds : list string) : list capture :=
  let f := diff_file dels adds in
  flat_map (fun i => cap_at f [i] "deletion") (seq 0 (length dels)) ++
  flat_map (fun i => cap_at f [length dels + i] "addition") (seq 0 (length adds)).
