(* ===== verification/Query.v ===== *)
(** * The tree-sitter queries of run_validation.py and the query engine

    The four query sources of the code (lines 15-25, 81-95, 167-182 and
    521-524) are data here: a [pat] is a node pattern [(type child ...)]
    with an optional capture [@name], a child pattern may carry the
    quantifier [?], and a [qpattern] adds the [(#eq? @name "text")]
    predicates of the pattern.

    The engine is tree-sitter's, a collaborator the code only calls.  What
    the code relies on is its contract [engine_ok]: [query.captures(root)]
    lists exactly the (node, capture name) pairs of the matches of the
    query's patterns in the tree ([captured]: a pattern matches at a node
    when the node has the pattern's type and the child patterns match
    distinct children in order, the optional ones possibly none, and the
    [#eq?] predicates hold), in document order of the nodes.  [run_query]
    is an engine meeting the contract ([run_query_ok]): it enumerates the
    matches at every node of the tree and sorts the captures by the
    position of their nodes.

    Theorems: [run_query_ok]; [pat_matches_paths], every capture of a
    match lies on a capture path of its pattern ([pat_paths]: the name and
    the types from the captured node up to the matched node); the lemmas
    on child handles, document order and the class of matches the
    theorems of Engine.v use; and [run_query_samples], that the engine
    gives on the sample trees of Samples.v exactly the captures written
    there by hand, so the witnesses of the other files use the captures
    the code's queries produce. *)

From S2P Require Import Prelude PyStr Tree Samples.
From stdpp Require Import sorting.
Local Set Warnings "-register-all".

(** ** Patterns *)

(** [(ty child ...) @cap]; each child pattern with its [?] flag. *)
Inductive pat := Pat (ty : string) (cap : option string) (kids : list (bool * pat)).

(** One pattern of a query and its [#eq?] predicates. *)
Record qpattern := QPattern { qp_pat : pat; qp_eq : list (string * string) }.

(** A child pattern without quantifier. *)
Definition req (p : pat) : bool * pat := (false, p).

(** [(simple_identifier) @cap] and the like: a captured leaf pattern. *)
Definition cap_pat (ty cap : string) : pat := Pat ty (Some cap) [].

(** [(function_declaration (simple_identifier) @func_name)] *)
Definition function_declaration_pattern : qpattern :=
  QPattern (Pat "function_declaration" None [req (cap_pat "simple_identifier" "func_name")]) [].

(** [(infix_expression (simple_identifier) @kw (#eq? @kw "fun")
     (call_expression (simple_identifier) @func_name))] *)
Definition infix_fun_pattern (kw : string) : qpattern :=
  QPattern
    (Pat "infix_expression" None
       [req (cap_pat "simple_identifier" kw);
        req (Pat "call_expression" None [req (cap_pat "simple_identifier" "func_name")])])
    [(kw, "fun")].

(** [(import_header (identifier) @import_path)] *)
Definition import_pattern : qpattern :=
  QPattern (Pat "import_header" None [req (cap_pat "identifier" "import_path")]) [].

(** [(property_declaration (variable_declaration (simple_identifier) @prop_name)
     (call_expression (simple_identifier) @constructor_name))] *)
Definition property_ctor_pattern : qpattern :=
  QPattern
    (Pat "property_declaration" None
       [req (Pat "variable_declaration" None [req (cap_pat "simple_identifier" "prop_name")]);
        req (Pat "call_expression" None [req (cap_pat "simple_identifier" "constructor_name")])])
    [].

(** [(class_declaration (type_identifier) @class_name
     (delegation_specifier (constructor_invocation (user_type
       (type_identifier) @parent_class)))? (class_body)?)] *)
Definition class_pattern : qpattern :=
  QPattern
    (Pat "class_declaration" None
       [req (cap_pat "type_identifier" "class_name");
        (true, Pat "delegation_specifier" None
                 [req (Pat "constructor_invocation" None
                         [req (Pat "user_type" None [req (cap_pat "type_identifier" "parent_class")])])]);
        (true, Pat "class_body" None [])])
    [].

(** Lines 15-25. *)
Definition preview_patterns : list qpattern :=
  [function_declaration_pattern; infix_fun_pattern "keyword_fun"].

(** Lines 81-95. *)
Definition unit_test_patterns : list qpattern :=
  [import_pattern; function_declaration_pattern; infix_fun_pattern "kw_fun"; property_ctor_pattern].

(** Lines 167-182. *)
Definition instrumentation_patterns : list qpattern :=
  [import_pattern; function_declaration_pattern; infix_fun_pattern "kw_fun"; class_pattern].

(** Lines 521-524: [(deletion) @deletion (addition) @addition]. *)
Definition diff_patterns : list qpattern :=
  [QPattern (cap_pat "deletion" "deletion") []; QPattern (cap_pat "addition" "addition") []].

Definition query_patterns (q : query_src) : list qpattern :=
  match q with
  | PreviewQuery => preview_patterns
  | UnitTestQuery => unit_test_patterns
  | InstrumentationQuery => instrumentation_patterns
  | DiffQuery => diff_patterns
  end.

(** ** Positions *)

(** [node.children] as handles: the [i]-th is [child l i]. *)
Definition child_locs (l : loc) : list loc :=
  match l_node l with
  | Node t x m cs => imap (fun i c => Loc c (Frame t x m (take i cs) (drop (S i) cs) :: l_ctx l)) cs
  end.

(** Every node of the subtree, in document order (preorder). *)
Fixpoint subtree_locs (n : node) (ctx : list frame) : list loc :=
  Loc n ctx ::
  match n with
  | Node t x m cs =>
      (fix go (left right : list node) : list loc :=
         match right with
         | [] => []
         | c :: rest => subtree_locs c (Frame t x m left rest :: ctx) ++ go (left ++ [c]) rest
         end) [] cs
  end.

(** The path of child indices from the root to a node. *)
Definition loc_path (l : loc) : list nat := rev (map (fun f => length (f_left f)) (l_ctx l)).

(** Document order on paths: lexicographic, an ancestor before its
    descendants. *)
Fixpoint path_le (p q : list nat) : bool :=
  match p, q with
  | [], _ => true
  | _ :: _, [] => false
  | i :: p', j :: q' => (i <? j) || ((i =? j) && path_le p' q')
  end.

(** Document order on captures, by the position of their nodes. *)
Definition cap_le (c1 c2 : capture) : Prop := path_le (loc_path c1.1) (loc_path c2.1) = true.

#[export] Instance cap_le_dec : RelDecision cap_le.
Proof. intros c1 c2. unfold cap_le. apply _. Defined.

(** ** Matching *)

(** The capture a pattern makes of the node it matches. *)
Definition cap_here (cap : option string) (l : loc) : list capture :=
  match cap with Some c => [(l, c)] | None => [] end.

(** The matches of a child pattern [g] placed at one of the children
    [cs], each followed by a match [rest] gives on the children after it. *)
Fixpoint place_kid (g : loc -> list (list capture)) (rest : list loc -> list (list capture))
    (cs : list loc) : list (list capture) :=
  match cs with
  | [] => []
  | c :: cs' => flat_map (fun m => map (app m) (rest cs')) (g c) ++ place_kid g rest cs'
  end.

(** The child patterns [ks] matched on distinct children [cs], in order.
    A child pattern with [?] is greedy, as in tree-sitter: it is skipped
    only when it cannot be placed. *)
Fixpoint kids_matches (f : pat -> loc -> list (list capture)) (ks : list (bool * pat))
    (cs : list loc) : list (list capture) :=
  match ks with
  | [] => [[]]
  | (opt, k) :: ks' =>
      let placed := place_kid (f k) (kids_matches f ks') cs in
      if opt && bool_decide (placed = []) then kids_matches f ks' cs else placed
  end.

(** All the matches of a pattern at a node, each as the list of its
    captures: the node has the pattern's type and the child patterns
    match its children. *)
Fixpoint pat_matches (p : pat) (l : loc) : list (list capture) :=
  match p with
  | Pat ty cap kids =>
      if String.eqb (ntype (l_node l)) ty
      then map (app (cap_here cap l)) (kids_matches pat_matches kids (child_locs l))
      else []
  end.

(** [(#eq? @name "text")]: every capture named [name] has that text. *)
Definition eq_holds (eqs : list (string * string)) (m : list capture) : bool :=
  forallb (fun e => forallb (fun c => negb (String.eqb c.2 e.1) || String.eqb (cap_text c) e.2) m) eqs.

(** The matches of a query pattern at a node whose predicates hold. *)
Definition pattern_captures (qp : qpattern) (l : loc) : list (list capture) :=
  List.filter (eq_holds (qp_eq qp)) (pat_matches (qp_pat qp) l).

(** A capture of the query in the tree. *)
Definition captured (qs : list qpattern) (root : node) (c : capture) : Prop :=
  exists l qp m, l ∈ subtree_locs root [] /\ qp ∈ qs /\ m ∈ pattern_captures qp l /\ c ∈ m.

(** ** The engine *)

(** [query.captures(root)] for the query of a list of patterns. *)
Abbreviation engine := (list qpattern -> node -> list capture).

(** The contract: the captures are exactly the captures of the matches,
    in document order. *)
Definition engine_ok (E : engine) : Prop :=
  forall qs root,
    (forall c, c ∈ E qs root <-> captured qs root c) /\ StronglySorted cap_le (E qs root).

(** [LANGUAGE.query(source)] with the engine [E]. *)
Definition engine_language (E : engine) : language :=
  {| lang_query := fun src => {| captures := E (query_patterns src) |} |}.

(** An engine: every match at every node, sorted by position. *)
Definition run_query (qs : list qpattern) (root : node) : list capture :=
  merge_sort cap_le
    (flat_map (fun l => flat_map (fun qp => concat (pattern_captures qp l)) qs)
       (subtree_locs root [])).

(** ** Capture paths *)

(** The types of a node and of its ancestors, innermost first. *)
Definition loc_types (l : loc) : list string := ntype (l_node l) :: map f_type (l_ctx l).

(** For each capture of a pattern, its name and the types from the
    captured node up to the pattern's root node. *)
Fixpoint pat_paths (p : pat) : list (string * list string) :=
  match p with
  | Pat ty cap kids =>
      match cap with Some c => [(c, [ty])] | None => [] end ++
      flat_map (fun k => map (fun nts => (nts.1, nts.2 ++ [ty])) (pat_paths k.2)) kids
  end.

(** The capture paths of a query. *)
Definition query_paths (qs : list qpattern) : list (string * list string) :=
  flat_map (fun qp => pat_paths (qp_pat qp)) qs.

(** ** Document order *)

Lemma path_le_total p q : path_le p q = true \/ path_le q p = true.
Proof.
  revert q. induction p as [|i p IH]; intros [|j q]; simpl; auto.
  destruct (lt_eq_lt_dec i j) as [[Hlt| ->]|Hlt].
  - left. apply orb_true_intro. left. by apply Nat.ltb_lt.
  - rewrite Nat.eqb_refl, Nat.ltb_irrefl. simpl. apply IH.
  - right. apply orb_true_intro. left. by apply Nat.ltb_lt.
Qed.

Lemma path_le_trans p q r : path_le p q = true -> path_le q r = true -> path_le p r = true.
Proof.
  revert q r. induction p as [|i p IH]; intros [|j q] [|k r]; simpl; try done.
  rewrite !orb_true_iff, !andb_true_iff, !Nat.ltb_lt, !Nat.eqb_eq.
  intros [H1|[-> H1]] [H2|[-> H2]]; eauto with lia.
Qed.

#[export] Instance cap_le_total : Total cap_le.
Proof. intros c1 c2. apply path_le_total. Qed.

#[export] Instance cap_le_trans : Transitive cap_le.
Proof. intros c1 c2 c3. apply path_le_trans. Qed.

(** ** The engine meets the contract *)

Lemma elem_of_run_query qs root c :
  c ∈ run_query qs root <-> captured qs root c.
Proof.
  unfold run_query, captured. rewrite (merge_sort_Permutation cap_le _).
  setoid_rewrite list_elem_of_In. rewrite in_flat_map.
  setoid_rewrite in_flat_map. setoid_rewrite in_concat. naive_solver.
Qed.

Lemma run_query_sorted qs root : StronglySorted cap_le (run_query qs root).
Proof. apply StronglySorted_merge_sort; apply _. Qed.

(** [run_query] is an engine with tree-sitter's contract: its captures are
    exactly those of the matches of the query's patterns, in document
    order. *)
Theorem run_query_ok : engine_ok run_query.
Proof. intros qs root. split; [apply elem_of_run_query|apply run_query_sorted]. Qed.

(** ** Matches *)

Lemma pat_ind' (P : pat -> Prop) :
  (forall ty cap kids, Forall (fun k => P k.2) kids -> P (Pat ty cap kids)) -> forall p, P p.
Proof.
  intros H. fix IH 1. intros [ty cap kids]. apply H.
  induction kids as [|k kids IHk]; constructor; [apply IH|apply IHk].
Qed.

Lemma lookup_child_locs l i : child_locs l !! i = child l i.
Proof.
  destruct l as [[t x m cs] ctx]. unfold child_locs, child; simpl.
  rewrite list_lookup_imap. by destruct (cs !! i).
Qed.

Lemma child_loc_path l i c : child l i = Some c -> loc_path c = loc_path l ++ [i].
Proof.
  destruct l as [[t x m cs] ctx]. unfold child, loc_path; simpl.
  destruct (cs !! i) eqn:E; intros; simplify_eq; simpl.
  rewrite length_take_le; [done|]. apply lookup_lt_Some in E. lia.
Qed.

Lemma child_loc_types l i c :
  child l i = Some c -> loc_types c = ntype (l_node c) :: loc_types l.
Proof.
  destruct l as [[t x m cs] ctx]. unfold child; simpl.
  destruct (cs !! i); intros; by simplify_eq.
Qed.

Lemma elem_of_child_locs l c : c ∈ child_locs l <-> exists i, child l i = Some c.
Proof.
  rewrite list_elem_of_lookup. by setoid_rewrite lookup_child_locs.
Qed.

Lemma elem_of_place_kid g rest cs m :
  m ∈ place_kid g rest cs <->
  exists i c m1 m2, cs !! i = Some c /\ m1 ∈ g c /\ m2 ∈ rest (drop (S i) cs) /\ m = m1 ++ m2.
Proof.
  induction cs as [|c cs IH]; simpl.
  - split; [set_solver|]. intros (i & c & m1 & m2 & Hi & _). by rewrite lookup_nil in Hi.
  - rewrite elem_of_app, IH, list_elem_of_In, in_flat_map. setoid_rewrite in_map_iff.
    setoid_rewrite <- list_elem_of_In. split.
    + intros [(m1 & Hm1 & m2 & <- & Hm2)|(i & c' & ?)]; [by exists 0, c, m1, m2|].
      by exists (S i), c'.
    + intros ([|i] & c' & m1 & m2 & Hi & ?); simplify_eq/=; [left; naive_solver|].
      right. by exists i, c', m1, m2.
Qed.

Lemma kids_matches_sound f ks cs m x :
  m ∈ kids_matches f ks cs -> x ∈ m ->
  exists k c m', k ∈ ks /\ c ∈ cs /\ m' ∈ f k.2 c /\ x ∈ m'.
Proof.
  revert cs m. induction ks as [|[o k] ks IH]; intros cs m; simpl.
  - rewrite list_elem_of_singleton. set_solver.
  - destruct (o && _); intros Hm Hx.
    + destruct (IH _ _ Hm Hx) as (k' & c & m' & ?). exists k', c, m'. set_solver.
    + apply elem_of_place_kid in Hm as (i & c & m1 & m2 & Hi & Hm1 & Hm2 & ->).
      apply elem_of_app in Hx as [Hx|Hx].
      * exists (o, k), c, m1. split; [set_solver|]. split; [|done]. by eapply list_elem_of_lookup_2.
      * destruct (IH _ _ Hm2 Hx) as (k' & c' & m' & ? & Hc' & ?).
        exists k', c', m'. split; [set_solver|]. split; [|done].
        by apply (elem_of_suffix _ _ _ Hc'), suffix_drop.
Qed.

Lemma descend_types l path y :
  descend l path = Some y -> exists ts, loc_types y = ts ++ loc_types l.
Proof.
  revert l. induction path as [|i path IH]; intros l; simpl.
  - intros [=<-]. by exists [].
  - destruct (child l i) as [c|] eqn:Hc; [|done]. intros (ts & ->)%IH.
    exists (ts ++ [ntype (l_node c)]). rewrite (child_loc_types _ _ _ Hc). by rewrite <- app_assoc.
Qed.

(** The upward walk from a descendant passes through the nodes between,
    whose types [ts] all fail the test, and goes on as from the ancestor. *)
Lemma climb_descend p l path y ts :
  descend l path = Some y -> loc_types y = ts ++ loc_types l ->
  forallb (fun t => negb (p t)) ts = true ->
  climb p (l_node y) (l_ctx y) = climb p (l_node l) (l_ctx l).
Proof.
  revert l ts. induction path as [|i path IH]; intros l ts; simpl.
  - intros [=->] Hy _. destruct ts; [done|]. apply (f_equal length) in Hy.
    rewrite length_app in Hy. simpl in Hy. lia.
  - destruct (child l i) as [c|] eqn:Hc; [|done]. intros Hd Hy Hts.
    destruct (descend_types _ _ _ Hd) as [ts' Hy'].
    rewrite Hy', (child_loc_types _ _ _ Hc) in Hy.
    replace ts with (ts' ++ [ntype (l_node c)]) in Hts
      by (apply (app_inv_tail (loc_types l)); by rewrite <- app_assoc).
    rewrite forallb_app in Hts. apply andb_true_iff in Hts as [Hts Hc'].
    rewrite (IH _ _ Hd Hy' Hts). simpl in Hc'. rewrite andb_true_r in Hc'.
    apply negb_true_iff in Hc'. pose proof (parent_child _ _ _ Hc) as Hp.
    destruct c as [n [|f ctx]]; [done|]. simpl in *. rewrite Hc'. by injection Hp as <-.
Qed.

(** The walk finds a node whenever a type on the way up passes the test. *)
Lemma climb_is_Some p l :
  existsb p (loc_types l) = true -> is_Some (climb p (l_node l) (l_ctx l)).
Proof.
  destruct l as [n ctx]. unfold loc_types; simpl. revert n.
  induction ctx as [|f ctx IH]; intros n; simpl; destruct (p (ntype n)) eqn:E; simpl; eauto; done.
Qed.

(** Every capture of a match sits where the pattern puts it: its name and
    the types from the captured node up to the matched node are a path of
    the pattern. *)
Theorem pat_matches_paths p l m x :
  m ∈ pat_matches p l -> x ∈ m ->
  exists ts path, (x.2, ts) ∈ pat_paths p /\ descend l path = Some x.1 /\
    loc_types x.1 = ts ++ map f_type (l_ctx l).
Proof.
  revert l m x. induction p as [ty cap kids IH] using pat_ind'; intros l m x; simpl.
  destruct (String.eqb_spec (ntype (l_node l)) ty) as [Hty|]; [|set_solver].
  rewrite list_elem_of_fmap. intros (m' & -> & Hm') [Hx|Hx]%elem_of_app.
  - destruct cap as [c|]; [|set_solver]. apply list_elem_of_singleton in Hx as ->.
    exists [ty], []. split; [set_solver|]. split; [done|]. by rewrite <- Hty.
  - destruct (kids_matches_sound _ _ _ _ _ Hm' Hx) as (k & c & m1 & Hk & Hc & Hm1 & Hx1).
    apply elem_of_child_locs in Hc as [i Hc].
    eapply Forall_forall in IH; [|exact Hk].
    destruct (IH _ _ _ Hm1 Hx1) as (ts & path & Hts & Hd & Htypes).
    exists (ts ++ [ty]), (i :: path). split; [|split; [by simpl; rewrite Hc|]].
    + apply elem_of_app. right. apply list_elem_of_In, in_flat_map. exists k.
      split; [by apply list_elem_of_In|]. apply in_map_iff. exists (x.2, ts). split; [done|by apply list_elem_of_In].
    + rewrite Htypes, <- app_assoc. destruct l as [[t ? ? cs] ctx]. unfold child in Hc. simpl in *.
      destruct (cs !! i); simplify_eq. done.
Qed.

Lemma descend_path l path y : descend l path = Some y -> loc_path y = loc_path l ++ path.
Proof.
  revert l. induction path as [|i path IH]; intros l; simpl.
  - intros [=->]. by rewrite app_nil_r.
  - destruct (child l i) as [c|] eqn:Hc; [|done]. intros ->%IH.
    by rewrite (child_loc_path _ _ _ Hc), <- app_assoc.
Qed.

Lemma elem_of_drop_child_locs n l c :
  c ∈ drop n (child_locs l) -> exists j, n <= j /\ child l j = Some c.
Proof.
  intros (k & Hk)%list_elem_of_lookup. rewrite lookup_drop, lookup_child_locs in Hk.
  exists (n + k). split; [lia|done].
Qed.

(** A match of a pattern whose first child pattern is required: that
    child pattern matches at some child [i], the others after it. *)
Lemma pat_matches_req ty cap k ks l m :
  m ∈ pat_matches (Pat ty cap (req k :: ks)) l <->
  ntype (l_node l) = ty /\
  exists i c m1 m2, child l i = Some c /\ m1 ∈ pat_matches k c /\
    m2 ∈ kids_matches pat_matches ks (drop (S i) (child_locs l)) /\ m = cap_here cap l ++ m1 ++ m2.
Proof.
  simpl. destruct (String.eqb_spec (ntype (l_node l)) ty); [|set_solver].
  rewrite list_elem_of_In, in_map_iff. setoid_rewrite <- list_elem_of_In.
  setoid_rewrite elem_of_place_kid. setoid_rewrite lookup_child_locs. naive_solver.
Qed.

(** Optional child patterns always leave a match, possibly empty. *)
Lemma kids_matches_optional f ks cs :
  Forall (fun k => k.1 = true) ks -> exists m, m ∈ kids_matches f ks cs.
Proof.
  intros Hks. revert cs. induction Hks as [|[o k] ks Ho _ IH]; intros cs; simpl in *; subst.
  - exists []. set_solver.
  - simpl. case_bool_decide as Hp; [apply IH|].
    destruct (place_kid (f k) (kids_matches f ks) cs) as [|m ?]; [done|]. exists m. set_solver.
Qed.

Lemma path_le_app p q1 q2 : path_le (p ++ q1) (p ++ q2) = path_le q1 q2.
Proof. induction p as [|i p IH]; simpl; [done|]. by rewrite Nat.ltb_irrefl, Nat.eqb_refl, IH. Qed.

(** In a list in document order, a capture strictly before [c] comes
    before it in the list. *)
Lemma sorted_before pre c post x :
  StronglySorted cap_le (pre ++ c :: post) -> x ∈ pre ++ c :: post ->
  path_le (loc_path c.1) (loc_path x.1) = false -> x ∈ pre.
Proof.
  intros Hs Hx Hlt. apply elem_of_app in Hx as [Hx|Hx]; [done|].
  apply StronglySorted_app in Hs as (_ & _ & Hs). apply StronglySorted_inv in Hs as [_ Hs].
  apply elem_of_cons in Hx as [->|Hx].
  - by destruct (path_le_total (loc_path c.1) (loc_path c.1)) as [H|H]; rewrite H in Hlt.
  - rewrite Forall_forall in Hs. specialize (Hs x Hx). unfold cap_le in Hs. by rewrite Hs in Hlt.
Qed.

Lemma child_lookup l i c : child l i = Some c -> children (l_node l) !! i = Some (l_node c).
Proof.
  destruct l as [[t x m cs] ctx]. unfold child; simpl. destruct (cs !! i); intros; by simplify_eq.
Qed.

Lemma lookup_child l i n : children (l_node l) !! i = Some n -> exists c, child l i = Some c /\ l_node c = n.
Proof.
  destruct l as [[t x m cs] ctx]. unfold child; simpl. intros ->. by eexists.
Qed.

Lemma pat_matches_type ty cap kids l m :
  m ∈ pat_matches (Pat ty cap kids) l -> ntype (l_node l) = ty.
Proof. simpl. destruct (String.eqb_spec (ntype (l_node l)) ty); set_solver. Qed.

Lemma pat_matches_leaf ty c l : ntype (l_node l) = ty -> [(l, c)] ∈ pat_matches (cap_pat ty c) l.
Proof. intros <-. simpl. rewrite String.eqb_refl. set_solver. Qed.

Lemma climb_here p n ctx : p (ntype n) = true -> climb p n ctx = Some (Loc n ctx).
Proof. intros H. destruct ctx; simpl; by rewrite H. Qed.

(** The sample captures are those the code's queries produce. *)
Example run_query_samples :
  run_query preview_patterns preview_expr_file = preview_expr_caps /\
  run_query preview_patterns split_preview_file = top_fun_caps split_preview_file 2 /\
  run_query preview_patterns joint_preview_file = top_fun_caps joint_preview_file 1 /\
  run_query unit_test_patterns (unit_test_file true 2) = unit_test_caps true 2 /\
  run_query unit_test_patterns (unit_test_file false 3) = unit_test_caps false 3 /\
  run_query instrumentation_patterns (instr_file 5) = instr_caps false 5 /\
  run_query diff_patterns (diff_file ["- a"; "-b"] ["+ c"]) = diff_caps ["- a"; "-b"] ["+ c"].
Proof. split_and!; vm_compute; reflexivity. Qed.
