(* ===== verification/Attribution.v ===== *)
(** * Annotation attribution (the core algorithm of the fact extractor)

    The loop body that run_validation.py repeats in each Kotlin validator
    (lines 34-52, 111-129 and 198-214): from a captured function-name node,
    walk up to the nearest [function_declaration] or [infix_expression]
    (the anchor), collect the [annotation] children of the anchor's
    [modifiers] children, then climb through [prefix_expression] and
    [annotated_lambda] ancestors adding each annotation child's text that
    is not yet in the list.

    Theorems: [find_anchor_nearest] (the anchor is the nearest
    function-like node on the ancestor chain), [inherited_is_fold] (the
    climb is a fold over the maximal chain of wrapper ancestors),
    [anchor_annotations_spec] (direct annotations first, then the distinct
    inherited texts not already present), the divergence
    [direct_duplicates_kept], and [anchor_loop_terminates]: the walk of
    lines 34-36 written as Python's [while] loop with fuel ([anchor_loop])
    ends within [depth + 2] tests of its condition, at [find_anchor]. *)

From S2P Require Import Prelude Tree Samples.

(** ** Node categories *)

(** [anchor.type in ('function_declaration', 'infix_expression')]. *)
Definition is_function_like (t : string) : bool :=
  String.eqb t "function_declaration" || String.eqb t "infix_expression".

(** [curr.type in ('prefix_expression', 'annotated_lambda')]. *)
Definition is_wrapper (t : string) : bool :=
  String.eqb t "prefix_expression" || String.eqb t "annotated_lambda".

Definition is_annotation (n : node) : bool := String.eqb (ntype n) "annotation".

(** ** The algorithm *)

(** [anchor = node; while anchor and anchor.type not in (...):
    anchor = anchor.parent] *)
Definition find_anchor (l : loc) : option loc :=
  climb is_function_like (l_node l) (l_ctx l).

(** Lines 34-36 as Python runs them: [anchor = node], then [while anchor
    and anchor.type not in (...): anchor = anchor.parent], with [fuel]
    evaluations of the loop test. *)
Definition anchor_loop (fuel : nat) (node : loc) : option (option loc) :=
  while_parent fuel (fun a => negb (is_function_like (ntype (l_node a)))) (Some node).

(** [for child in anchor.children: if child.type == 'modifiers':
    for mod in child.children: if mod.type == 'annotation':
    annotations.append(mod.text)] *)
Definition modifier_annotations (anchor : node) : list string :=
  flat_map (fun child =>
              if String.eqb (ntype child) "modifiers"
              then map ntext (List.filter is_annotation (children child))
              else [])
           (children anchor).

(** [if ann_text not in annotations: annotations.append(ann_text)] *)
Definition add_annotation (anns : list string) (t : string) : list string :=
  if str_mem t anns then anns else anns ++ [t].

(** The texts of the [annotation] children of a node, in order. *)
Definition annotation_children (w : node) : list string :=
  map ntext (List.filter is_annotation (children w)).

(** One wrapper level: [for child in curr.children: if child.type ==
    'annotation': ...] *)
Definition wrapper_step (anns : list string) (w : node) : list string :=
  fold_left add_annotation (annotation_children w) anns.

(** [while curr and curr.type in (...): <wrapper_step>; curr = curr.parent] *)
Fixpoint climb_wrappers (anns : list string) (n : node) (ctx : list frame) : list string :=
  if is_wrapper (ntype n) then
    let anns' := wrapper_step anns n in
    match ctx with
    | [] => anns'
    | f :: c => climb_wrappers anns' (plug f n) c
    end
  else anns.

(** [curr = anchor.parent] then the climb. *)
Definition inherited_annotations (anns : list string) (anchor : loc) : list string :=
  match parent anchor with
  | None => anns
  | Some p => climb_wrappers anns (l_node p) (l_ctx p)
  end.

(** The annotation list of a function, given its anchor. *)
Definition anchor_annotations (anchor : loc) : list string :=
  inherited_annotations (modifier_annotations (l_node anchor)) anchor.

(** ** Reference: the wrapper chain *)

Definition is_wrapper_loc (a : loc) : bool := is_wrapper (ntype (l_node a)).

(** The maximal chain of wrapper ancestors strictly above the anchor. *)
Definition wrapper_chain (anchor : loc) : list node :=
  match parent anchor with
  | None => []
  | Some p => map l_node (take_while is_wrapper_loc (ancestors p))
  end.

(** Every annotation text offered by the wrapper chain, in discovery order. *)
Definition inherited_texts (anchor : loc) : list string :=
  flat_map annotation_children (wrapper_chain anchor).

(** The anchor of the sample expression-style function. *)
Definition preview_expr_anchor : loc :=
  Eval vm_compute in default preview_expr_name (find_anchor preview_expr_name).

(** ** Lemmas *)

(** Appending new texts one by one keeps the accumulator as a prefix and
    adds exactly the texts not yet present, once each. *)
Lemma fold_add_annotation l acc :
  exists inh, fold_left add_annotation l acc = acc ++ inh /\ NoDup inh /\
    (forall x, x ∈ inh <-> x ∈ l /\ x ∉ acc).
Proof.
  revert acc. induction l as [|t l IH]; intros acc; simpl.
  - exists []. rewrite app_nil_r. split; [done|]. split; [constructor|set_solver].
  - unfold add_annotation at 2. destruct (str_mem t acc) eqn:Ht.
    + apply str_mem_elem in Ht.
      destruct (IH acc) as (inh & -> & Hnd & Hin). exists inh.
      split; [done|]. split; [done|]. intros x. rewrite Hin. set_solver.
    + apply str_mem_false in Ht. rewrite <- list_elem_of_In in Ht.
      destruct (IH (acc ++ [t])) as (inh & -> & Hnd & Hin).
      exists (t :: inh). rewrite <- app_assoc. split; [done|]. split.
      * constructor; [|done]. rewrite Hin. set_solver.
      * intros x. rewrite elem_of_cons, Hin. destruct (decide (x = t)); set_solver.
Qed.

Lemma climb_wrappers_fold anns n ctx :
  climb_wrappers anns n ctx =
  fold_left add_annotation
    (flat_map annotation_children (map l_node (take_while is_wrapper_loc (ancestors_from n ctx))))
    anns.
Proof.
  revert anns n. induction ctx as [|f c IH]; intros anns n; simpl;
    unfold is_wrapper_loc at 1; simpl; destruct (is_wrapper (ntype n)); simpl;
    rewrite ?fold_left_app, ?app_nil_r; auto.
Qed.

(** ** Theorems *)

(** C3. The climb through wrappers is a fold of [add_annotation] over the
    annotation children of the maximal chain of wrapper ancestors. *)
Theorem inherited_is_fold anns anchor :
  inherited_annotations anns anchor = fold_left add_annotation (inherited_texts anchor) anns.
Proof.
  unfold inherited_annotations, inherited_texts, wrapper_chain.
  destruct (parent anchor) as [p|]; [|done]. apply climb_wrappers_fold.
Qed.

(** C2. The anchor is the nearest function-like node on the way to the root. *)
Theorem find_anchor_nearest l a :
  find_anchor l = Some a ->
  exists below above, ancestors l = below ++ a :: above /\
    is_function_like (ntype (l_node a)) = true /\
    Forall (fun b => is_function_like (ntype (l_node b)) = false) below.
Proof.
  unfold find_anchor. rewrite climb_find. intros H.
  destruct (find_first _ _ _ H) as (below & above & ? & ? & ?). eauto.
Qed.

(** C1. The attributed list is the direct (modifier) annotations in document
    order, followed by the inherited texts that are new, each once. *)
Theorem anchor_annotations_spec anchor :
  exists inh,
    anchor_annotations anchor = modifier_annotations (l_node anchor) ++ inh /\
    NoDup inh /\
    (forall x, x ∈ inh <-> x ∈ inherited_texts anchor /\
                           x ∉ modifier_annotations (l_node anchor)).
Proof.
  unfold anchor_annotations, inherited_annotations, inherited_texts, wrapper_chain.
  destruct (parent anchor) as [p|].
  - rewrite climb_wrappers_fold. apply fold_add_annotation.
  - apply (fold_add_annotation [] _).
Qed.

(** The direct annotations are the texts of the annotation nodes under the
    [modifiers] children, in document order. *)
Lemma modifier_annotations_texts n :
  modifier_annotations n =
  map ntext (flat_map (fun m => List.filter is_annotation (children m))
               (List.filter (fun c => String.eqb (ntype c) "modifiers") (children n))).
Proof.
  unfold modifier_annotations. induction (children n) as [|c cs IH]; [done|]. simpl.
  destruct (String.eqb (ntype c) "modifiers"); simpl; by rewrite ?map_app, IH.
Qed.

(** C29. The attributed list is duplicate-free exactly when the texts of
    the annotation nodes under the anchor's [modifiers] children are: the
    climb never adds a duplicate, and a direct annotation written twice is
    recorded twice. *)
Theorem anchor_annotations_nodup anchor :
  NoDup (anchor_annotations anchor) <->
  NoDup (map ntext (flat_map (fun m => List.filter is_annotation (children m))
                      (List.filter (fun c => String.eqb (ntype c) "modifiers") (children (l_node anchor))))).
Proof.
  rewrite <- modifier_annotations_texts.
  unfold anchor_annotations, inherited_annotations.
  destruct (parent anchor) as [p|]; [|done]. rewrite climb_wrappers_fold.
  destruct (fold_add_annotation
              (flat_map annotation_children
                 (map l_node (take_while is_wrapper_loc (ancestors_from (l_node p) (l_ctx p)))))
              (modifier_annotations (l_node anchor))) as (inh & -> & Hnd & Hin).
  rewrite NoDup_app. split; [by intros [? _]|]. intros Hd. split; [done|]. split; [|done].
  intros x Hx Hx'. apply Hin in Hx' as [_ Hn]. by apply Hn.
Qed.

(** An expression-style declaration under two annotated wrappers gets both
    annotations, the inner wrapper's first. *)
Example expression_style_attribution :
  anchor_annotations <$> (descend (root_loc preview_expr_file) [0; 1; 1; 1; 0] ≫= find_anchor)
  = Some ["@Composable"; "@Preview"].
Proof. vm_compute. reflexivity. Qed.

(** A direct annotation written twice is recorded twice. *)
Example direct_duplicates_kept :
  anchor_annotations <$> (descend (root_loc duplicate_test_file) [0; 1] ≫= find_anchor)
  = Some ["@Test"; "@Test"].
Proof. vm_compute. reflexivity. Qed.

Lemma find_anchor_nearest_witness :
  find_anchor preview_expr_name = Some preview_expr_anchor /\
  exists below above, ancestors preview_expr_name = below ++ preview_expr_anchor :: above /\
    is_function_like (ntype (l_node preview_expr_anchor)) = true /\
    Forall (fun b => is_function_like (ntype (l_node b)) = false) below.
Proof.
  split; [vm_compute; reflexivity|].
  apply find_anchor_nearest. vm_compute. reflexivity.
Defined.

Lemma anchor_annotations_nodup_witness :
  NoDup (anchor_annotations preview_expr_anchor) /\
  NoDup (map ntext (flat_map (fun m => List.filter is_annotation (children m))
           (List.filter (fun c => String.eqb (ntype c) "modifiers") (children (l_node preview_expr_anchor))))).
Proof.
  assert (H : NoDup (map ntext (flat_map (fun m => List.filter is_annotation (children m))
           (List.filter (fun c => String.eqb (ntype c) "modifiers")
              (children (l_node preview_expr_anchor)))))) by (vm_compute; constructor).
  split; [exact (proj2 (anchor_annotations_nodup _) H)|exact H].
Defined.

(** The anchor walk of lines 34-36 terminates: run as Python runs it,
    it ends after at most [depth node + 2] evaluations of its test,
    whatever the tree, with [find_anchor node] as the final [anchor]. *)
Theorem anchor_loop_terminates node fuel :
  depth node + 2 <= fuel -> anchor_loop fuel node = Some (find_anchor node).
Proof. destruct node as [n ctx]. apply while_parent_climb. Qed.

(** The bound is reached: from a node with no function-like ancestor the
    loop tests every ancestor and then [None], [depth + 2] tests. *)
Example anchor_loop_bound_tight :
  let l := default (root_loc (kotlin_file [import_header "a.b"]))
             (descend (root_loc (kotlin_file [import_header "a.b"])) [0; 0]) in
  depth l = 2 /\ anchor_loop (depth l + 1) l = None /\ anchor_loop (depth l + 2) l = Some None.
Proof. vm_compute. auto. Qed.
