(* ===== verification/Extract.v ===== *)
(** * Fact extraction: the capture loops of the validators

    Each validator of run_validation.py folds over [query.captures(root)]
    and dispatches on the capture name.  This file models those loops:
    [preview_functions] (lines 27-57), [unit_test_results] (lines 97-134),
    [instrumentation_results] (lines 184-236, with the class table as an
    insertion-ordered association list, the Python dict) and [diff_facts]
    (lines 268-278; the same loop is repeated at 317-327).

    Theorems: the class table keeps unique keys ([classes_keys_nodup]) and
    registers every captured class ([class_registered]), while a parent
    captured before its class is lost ([parent_before_class_dropped]);
    diff lines are classified by capture name only and each line is the
    stripped text after its marker ([diff_facts_by_label],
    [diff_content_marker], [diff_content_indented]); the Kotlin loops keep
    one function fact per [func_name] capture ([unit_test_results_spec],
    [instr_functions_spec]). *)

From S2P Require Import Prelude PyStr Tree Samples Query Attribution.

(** [capture_name == name] *)
Definition label_is (name : string) (c : capture) : bool := String.eqb c.2 name.

(** ** Function facts *)

(** [{'name': func_name, 'annotations': annotations}] *)
Record func_fact := FuncFact { fname : string; fannotations : list string }.

(** The loop body of lines 30-57: a [func_name] capture yields a fact
    only when an anchor is found ([if anchor:] guards the append). *)
Definition preview_step (fs : list func_fact) (c : capture) : list func_fact :=
  if String.eqb c.2 "func_name" then
    match find_anchor c.1 with
    | Some a => fs ++ [FuncFact (cap_text c) (anchor_annotations a)]
    | None => fs
    end
  else fs.

Definition preview_functions (caps : list capture) : list func_fact :=
  fold_left preview_step caps [].

(** Lines 110-131 (and 197-216): the fact is appended whether or not an
    anchor is found; without an anchor its annotation list is empty. *)
Definition function_fact (c : capture) : func_fact :=
  FuncFact (cap_text c)
    (match find_anchor c.1 with
     | Some a => anchor_annotations a
     | None => []
     end).

(** ** Unit-test facts *)

Record unit_results := UnitResults {
  u_imports : list string;
  u_functions : list func_fact;
  u_constructors : list string
}.

(** Lines 103-134. *)
Definition unit_step (r : unit_results) (c : capture) : unit_results :=
  let text := cap_text c in
  if String.eqb c.2 "import_path" then
    UnitResults (u_imports r ++ [text]) (u_functions r) (u_constructors r)
  else if String.eqb c.2 "func_name" then
    UnitResults (u_imports r) (u_functions r ++ [function_fact c]) (u_constructors r)
  else if String.eqb c.2 "constructor_name" then
    UnitResults (u_imports r) (u_functions r) (u_constructors r ++ [text])
  else r.

Definition unit_test_results (caps : list capture) : unit_results :=
  fold_left unit_step caps (UnitResults [] [] []).

(** ** Instrumentation-test facts: imports, functions and the class table *)

(** The dict [results["classes"]]: class name to parent list, in insertion
    order. *)
Abbreviation class_table := (list (string * list string)).

(** [if text not in classes: classes[text] = {"parents": []}] *)
Definition register_class (cls : class_table) (name : string) : class_table :=
  if str_mem name (map fst cls) then cls else cls ++ [(name, [])].

(** [classes[name]["parents"].append(p)] on the entry of key [name]. *)
Fixpoint append_parent (cls : class_table) (name p : string) : class_table :=
  match cls with
  | [] => []
  | (k, ps) :: rest =>
      if String.eqb k name then (k, ps ++ [p]) :: rest
      else (k, ps) :: append_parent rest name p
  end.

(** Lines 224-234: walk up to the nearest [class_declaration] and read its
    first [type_identifier] child. *)
Definition class_of_parent (l : loc) : option string :=
  match climb (fun t => String.eqb t "class_declaration") (l_node l) (l_ctx l) with
  | Some cd =>
      match List.find (fun ch => String.eqb (ntype ch) "type_identifier") (children (l_node cd)) with
      | Some ch => Some (ntext ch)
      | None => None
      end
  | None => None
  end.

Record instr_results := InstrResults {
  i_imports : list string;
  i_functions : list func_fact;
  i_classes : class_table
}.

(** Lines 190-234. *)
Definition instr_step (r : instr_results) (c : capture) : instr_results :=
  let text := cap_text c in
  if String.eqb c.2 "import_path" then
    InstrResults (i_imports r ++ [text]) (i_functions r) (i_classes r)
  else if String.eqb c.2 "func_name" then
    InstrResults (i_imports r) (i_functions r ++ [function_fact c]) (i_classes r)
  else if String.eqb c.2 "class_name" then
    InstrResults (i_imports r) (i_functions r) (register_class (i_classes r) text)
  else if String.eqb c.2 "parent_class" then
    match class_of_parent c.1 with
    | Some cn =>
        if str_mem cn (map fst (i_classes r))
        then InstrResults (i_imports r) (i_functions r) (append_parent (i_classes r) cn text)
        else r
    | None => r
    end
  else r.

(** Lines 184-236 (line 236 keeps the insertion order). *)
Definition instrumentation_results (caps : list capture) : instr_results :=
  fold_left instr_step caps (InstrResults [] [] []).

(** ** The class dict as a finite map *)

(** [results["classes"]] as the Python dict it is, without its order: a
    finite map from class names to parent lists. *)
Abbreviation class_map := (gmap string (list string)).

(** The class branches of lines 216-231 on that map: [if text not in
    classes: classes[text] = {"parents": []}], and the parent appended
    to the entry of the class found. *)
Definition instr_step_map (m : class_map) (c : capture) : class_map :=
  let text := cap_text c in
  if String.eqb c.2 "class_name" then
    match m !! text with Some _ => m | None => <[text := []]> m end
  else if String.eqb c.2 "parent_class" then
    match class_of_parent c.1 with
    | Some cn => match m !! cn with Some ps => <[cn := ps ++ [text]]> m | None => m end
    | None => m
    end
  else m.

Definition classes_map (caps : list capture) : class_map := fold_left instr_step_map caps ∅.

(** ** Diff facts *)

(** [text[1:].strip() if len(text) > 1 else ""] *)
Definition diff_content (text : string) : string :=
  if 1 <? String.length text then strip (slice_from 1 text) else "".

(** Lines 271-278. *)
Definition diff_step (acc : list string * list string) (c : capture) : list string * list string :=
  let content := diff_content (cap_text c) in
  if String.eqb c.2 "deletion" then (acc.1 ++ [content], acc.2)
  else if String.eqb c.2 "addition" then (acc.1, acc.2 ++ [content])
  else acc.

Definition diff_facts (caps : list capture) : list string * list string :=
  fold_left diff_step caps ([], []).

(** The content recorded for one captured diff line. *)
Definition diff_line (c : capture) : string := diff_content (cap_text c).

(** ** Lemmas *)

(** The types between a [parent_class] capture and its class node. *)
Definition parent_class_types : list string :=
  ["type_identifier"; "user_type"; "constructor_invocation"; "delegation_specifier"].

Lemma register_class_keys cls n :
  map fst (register_class cls n) =
  if str_mem n (map fst cls) then map fst cls else map fst cls ++ [n].
Proof. unfold register_class. destruct (str_mem n (map fst cls)); [done|]. by rewrite map_app. Qed.

Lemma append_parent_keys cls n p : map fst (append_parent cls n p) = map fst cls.
Proof.
  induction cls as [|[k ps] cls IH]; simpl; [done|].
  destruct (String.eqb k n); simpl; by rewrite ?IH.
Qed.

Lemma instr_step_nodup r c :
  NoDup (map fst (i_classes r)) -> NoDup (map fst (i_classes (instr_step r c))).
Proof.
  intros Hnd. unfold instr_step.
  destruct (String.eqb c.2 "import_path"); [done|].
  destruct (String.eqb c.2 "func_name"); [done|].
  destruct (String.eqb c.2 "class_name"); simpl.
  - rewrite register_class_keys. destruct (str_mem _ _) eqn:E; [done|].
    apply str_mem_false in E. rewrite <- list_elem_of_In in E.
    apply NoDup_app. split; [done|]. split; [set_solver | apply NoDup_singleton].
  - destruct (String.eqb c.2 "parent_class"); [|done].
    destruct (class_of_parent c.1) as [cn|]; [|done].
    destruct (str_mem cn _); simpl; by rewrite ?append_parent_keys.
Qed.

Lemma instr_step_keys_incl r c : map fst (i_classes r) ⊆ map fst (i_classes (instr_step r c)).
Proof.
  unfold instr_step.
  destruct (String.eqb c.2 "import_path"); [done|].
  destruct (String.eqb c.2 "func_name"); [done|].
  destruct (String.eqb c.2 "class_name"); simpl.
  - rewrite register_class_keys. destruct (str_mem _ _); set_solver.
  - destruct (String.eqb c.2 "parent_class"); [|done].
    destruct (class_of_parent c.1) as [cn|]; [|done].
    destruct (str_mem cn _); simpl; by rewrite ?append_parent_keys.
Qed.

Lemma str_mem_list_to_map (cls : class_table) n :
  str_mem n (map fst cls) = true <-> is_Some ((list_to_map cls : class_map) !! n).
Proof.
  rewrite str_mem_elem. change (map fst cls) with (cls.*1). split.
  - intros Hn. destruct (list_to_map cls !! n) eqn:E; [by eexists|].
    by apply not_elem_of_list_to_map in E.
  - intros [x Hx]. destruct (decide (n ∈ cls.*1)) as [|Hn]; [done|].
    apply not_elem_of_list_to_map in Hn. congruence.
Qed.

Lemma register_class_map cls n :
  (list_to_map (register_class cls n) : class_map) =
  match (list_to_map cls : class_map) !! n with Some _ => list_to_map cls | None => <[n := []]> (list_to_map cls) end.
Proof.
  unfold register_class. destruct (str_mem n (map fst cls)) eqn:E.
  - apply str_mem_list_to_map in E as [ps ->]. done.
  - assert (Hn : n ∉ cls.*1)
      by (intros Hn; change (cls.*1) with (map fst cls) in Hn; apply str_mem_elem in Hn; congruence).
    rewrite (not_elem_of_list_to_map_1 _ _ Hn). by apply list_to_map_snoc.
Qed.

Lemma append_parent_map cls n p :
  (list_to_map (append_parent cls n p) : class_map) =
  match (list_to_map cls : class_map) !! n with
  | Some ps => <[n := ps ++ [p]]> (list_to_map cls)
  | None => list_to_map cls
  end.
Proof.
  induction cls as [|[k ps] cls IH]; simpl; [done|].
  destruct (String.eqb_spec k n) as [->|Hne]; simpl.
  - by rewrite lookup_insert_eq, insert_insert_eq.
  - rewrite IH, lookup_insert_ne by done.
    destruct (list_to_map cls !! n); [|done]. by rewrite insert_insert_ne.
Qed.

(** One step of the loop on the association list is the step on the map. *)
Lemma instr_step_map_refines r c :
  (list_to_map (i_classes (instr_step r c)) : class_map) =
  instr_step_map (list_to_map (i_classes r)) c.
Proof.
  unfold instr_step, instr_step_map.
  destruct (String.eqb c.2 "import_path") eqn:Hi; [apply String.eqb_eq in Hi; by rewrite Hi|].
  destruct (String.eqb c.2 "func_name") eqn:Hf; [apply String.eqb_eq in Hf; by rewrite Hf|].
  destruct (String.eqb c.2 "class_name") eqn:Hc; [apply register_class_map|].
  destruct (String.eqb c.2 "parent_class"); [|done].
  destruct (class_of_parent c.1) as [cn|]; [|done].
  destruct (str_mem cn _) eqn:E; simpl.
  - rewrite append_parent_map. done.
  - destruct (list_to_map (i_classes r) !! cn) eqn:Hl; [|done].
    assert (is_Some ((list_to_map (i_classes r) : class_map) !! cn)) as Hs%str_mem_list_to_map by eauto.
    congruence.
Qed.

Lemma instr_fold_keys_incl caps r :
  map fst (i_classes r) ⊆ map fst (i_classes (fold_left instr_step caps r)).
Proof.
  apply (fold_left_invariant (fun b => map fst (i_classes r) ⊆ map fst (i_classes b))); [done|].
  intros b c Hb. etrans; [exact Hb | apply instr_step_keys_incl].
Qed.

Lemma slice_from_1 m r : slice_from 1 (String m r) = r.
Proof.
  unfold slice_from. simpl. rewrite Nat.sub_0_r.
  induction r as [|d r IH]; simpl; [done|]. by rewrite IH.
Qed.

Lemma diff_step_split d a c :
  diff_step (d, a) c =
  (d ++ map diff_line (List.filter (label_is "deletion") [c]),
   a ++ map diff_line (List.filter (label_is "addition") [c])).
Proof.
  unfold diff_step, diff_line, label_is; simpl.
  destruct (String.eqb_spec c.2 "deletion") as [Hd|Hd].
  - rewrite Hd; simpl. by rewrite app_nil_r.
  - destruct (String.eqb c.2 "addition"); simpl; by rewrite ?app_nil_r.
Qed.

Lemma diff_facts_acc caps d a :
  fold_left diff_step caps (d, a) =
  (d ++ map diff_line (List.filter (label_is "deletion") caps),
   a ++ map diff_line (List.filter (label_is "addition") caps)).
Proof.
  revert d a. induction caps as [|c caps IH]; intros d a; cbn [fold_left].
  - by rewrite !app_nil_r.
  - rewrite diff_step_split, IH. change (c :: caps) with ([c] ++ caps).
    by rewrite !List.filter_app, !map_app, !app_assoc.
Qed.

Lemma unit_step_split i fs k c :
  unit_step (UnitResults i fs k) c =
  UnitResults (i ++ map cap_text (List.filter (label_is "import_path") [c]))
              (fs ++ map function_fact (List.filter (label_is "func_name") [c]))
              (k ++ map cap_text (List.filter (label_is "constructor_name") [c])).
Proof. unfold unit_step, label_is; simpl. label_cases c; by rewrite ?app_nil_r. Qed.

Lemma instr_step_functions r c :
  i_functions (instr_step r c) =
  i_functions r ++ map function_fact (List.filter (label_is "func_name") [c]).
Proof.
  unfold instr_step, label_is; simpl. label_cases c; rewrite ?app_nil_r; try done.
  destruct (class_of_parent c.1); [destruct (str_mem _ _)|]; done.
Qed.

Lemma unit_fold caps i fs k :
  fold_left unit_step caps (UnitResults i fs k) =
  UnitResults (i ++ map cap_text (List.filter (label_is "import_path") caps))
              (fs ++ map function_fact (List.filter (label_is "func_name") caps))
              (k ++ map cap_text (List.filter (label_is "constructor_name") caps)).
Proof.
  revert i fs k. induction caps as [|c caps IH]; intros i fs k; cbn [fold_left].
  - by rewrite !app_nil_r.
  - rewrite unit_step_split, IH. change (c :: caps) with ([c] ++ caps).
    by rewrite !List.filter_app, !map_app, !app_assoc.
Qed.

Lemma instr_fold_functions caps r :
  i_functions (fold_left instr_step caps r) =
  i_functions r ++ map function_fact (List.filter (label_is "func_name") caps).
Proof.
  revert r. induction caps as [|c caps IH]; intros r; cbn [fold_left].
  - by rewrite app_nil_r.
  - rewrite IH, instr_step_functions. change (c :: caps) with ([c] ++ caps).
    by rewrite List.filter_app, map_app, app_assoc.
Qed.

(** A [class_name] capture registers its class, whatever the table
    before and the captures after it. *)
Lemma class_registered_fold caps r c :
  c ∈ caps -> label_is "class_name" c = true ->
  cap_text c ∈ map fst (i_classes (fold_left instr_step caps r)).
Proof.
  revert r. induction caps as [|c' caps IH]; intros r Hin Hl; [set_solver|simpl].
  apply elem_of_cons in Hin as [<-|Hin]; [|by apply IH].
  apply instr_fold_keys_incl. unfold instr_step, label_is in *.
  apply String.eqb_eq in Hl. rewrite Hl. simpl. rewrite register_class_keys.
  destruct (str_mem _ _) eqn:E; [by apply str_mem_elem | set_solver].
Qed.

(** A fold of [preview_step] whose [func_name] captures all find an
    anchor appends one fact per such capture. *)
Lemma preview_fold_total caps acc :
  (forall c, c ∈ caps -> label_is "func_name" c = true -> is_Some (find_anchor c.1)) ->
  fold_left preview_step caps acc = acc ++ map function_fact (List.filter (label_is "func_name") caps).
Proof.
  revert acc. induction caps as [|c caps IH]; intros acc Hc; simpl; [by rewrite app_nil_r|].
  rewrite IH by set_solver. unfold preview_step; cbn [List.filter].
  change (String.eqb c.2 "func_name") with (label_is "func_name" c).
  destruct (label_is "func_name" c) eqn:Hl; [|done].
  destruct (Hc c) as [a Ha]; [set_solver|done|]. rewrite Ha.
  assert (Hf : function_fact c = FuncFact (cap_text c) (anchor_annotations a))
    by (unfold function_fact; by rewrite Ha).
  rewrite <- Hf. by rewrite <- app_assoc.
Qed.

(** The facts of the preview loop, whatever their order: one per
    [func_name] capture whose anchor is found, with the anchor's
    attributed annotations. *)
Lemma preview_fold_elem caps acc f :
  f ∈ fold_left preview_step caps acc <->
  f ∈ acc \/ exists c a, c ∈ caps /\ c.2 = "func_name" /\ find_anchor c.1 = Some a /\
                         f = FuncFact (cap_text c) (anchor_annotations a).
Proof.
  revert acc. induction caps as [|c caps IH]; intros acc; simpl.
  - split; [by left|]. intros [?|(? & ? & ?%not_elem_of_nil & _)]; done.
  - rewrite IH. setoid_rewrite elem_of_cons. unfold preview_step.
    destruct (String.eqb_spec c.2 "func_name") as [Hl|Hl];
      [destruct (find_anchor c.1) as [a|] eqn:Ha|]; rewrite ?elem_of_app, ?list_elem_of_singleton, ?elem_of_cons;
      split; intros H; naive_solver.
Qed.

Lemma preview_functions_elem caps f :
  f ∈ preview_functions caps <->
  exists c a, c ∈ caps /\ c.2 = "func_name" /\ find_anchor c.1 = Some a /\
              f = FuncFact (cap_text c) (anchor_annotations a).
Proof. unfold preview_functions. rewrite preview_fold_elem. set_solver. Qed.

(** The class a [parent_class] capture is looked up under is the text of
    the first [type_identifier] child of the matched class node. *)
Lemma class_of_parent_found l (x : capture) i ci j path :
  ntype (l_node l) = "class_declaration" -> child l i = Some ci ->
  ntype (l_node ci) = "type_identifier" -> descend l (j :: path) = Some x.1 ->
  loc_types x.1 = parent_class_types ++ loc_types l ->
  exists f cf, child l f = Some cf /\ ntype (l_node cf) = "type_identifier" /\ f <= i /\
    class_of_parent x.1 = Some (ntext (l_node cf)).
Proof.
  intros Hty Hci Hti Hd Ht. unfold class_of_parent.
  rewrite (climb_descend (fun t => String.eqb t "class_declaration") _ _ _ _ Hd Ht eq_refl).
  destruct l as [n ctx]. simpl in Hty. cbn [l_node l_ctx]. rewrite climb_here by (cbv beta; by rewrite Hty). simpl.
  destruct (List.find _ (children n)) as [y|] eqn:Hf.
  - apply find_first_index in Hf as (f & Hfy & Hy & Hmin).
    destruct (lookup_child (Loc n ctx) f y Hfy) as (cf & Hcf & <-).
    exists f, cf. split_and!; [done|by apply String.eqb_eq|
      apply (Hmin _ _ (child_lookup _ _ _ Hci)); by apply String.eqb_eq|done].
  - assert (H : In (l_node ci) (children n)).
    { apply list_elem_of_In, list_elem_of_lookup. exists i. apply (child_lookup _ _ _ Hci). }
    apply (List.find_none _ _ Hf) in H. by rewrite Hti, String.eqb_refl in H.
Qed.

(** ** Theorems *)

(** The class table is a dict: its keys stay pairwise distinct. *)
Theorem classes_keys_nodup caps : NoDup (map fst (i_classes (instrumentation_results caps))).
Proof.
  unfold instrumentation_results.
  apply fold_left_invariant; [constructor|]. intros r c. apply instr_step_nodup.
Qed.

(** Every [class_name] capture registers its class. *)
Theorem class_registered caps c :
  c ∈ caps -> label_is "class_name" c = true ->
  cap_text c ∈ map fst (i_classes (instrumentation_results caps)).
Proof. apply class_registered_fold. Qed.

(** The class table the loop builds as an association list is, as a
    map, the table built by the same loop on a Python dict: the list is a
    faithful implementation of the dict, with its insertion order on top. *)
Theorem classes_as_dict caps :
  (list_to_map (i_classes (instrumentation_results caps)) : class_map) = classes_map caps.
Proof.
  unfold instrumentation_results, classes_map.
  change (∅ : class_map) with (list_to_map (i_classes (InstrResults [] [] [])) : class_map).
  generalize (InstrResults [] [] []). induction caps as [|c caps IH]; intros r; [done|].
  simpl. by rewrite IH, instr_step_map_refines.
Qed.

(** Diff lines are classified by capture name only, in capture order. *)
Theorem diff_facts_by_label caps :
  diff_facts caps =
  (map diff_line (List.filter (label_is "deletion") caps),
   map diff_line (List.filter (label_is "addition") caps)).
Proof. apply diff_facts_acc. Qed.

(** The recorded content is the stripped text after the marker; the
    [len(text) > 1] guard changes nothing. *)
Theorem diff_content_marker m r : diff_content (String m r) = strip r.
Proof.
  unfold diff_content. simpl String.length.
  destruct r as [|d r]; [done|]. simpl. by rewrite slice_from_1.
Qed.

(** A line indented or followed by whitespace yields its stripped text. *)
Corollary diff_content_indented m ws1 s ws2 :
  all_space ws1 = true -> all_space ws2 = true ->
  diff_content (String m (ws1 +:+ s +:+ ws2)) = strip s.
Proof.
  intros H1 H2. unfold diff_content. simpl String.length.
  destruct (ws1 +:+ s +:+ ws2) as [|d r] eqn:E; simpl.
  - by rewrite <- (strip_surrounding ws1 s ws2), E.
  - rewrite slice_from_1, <- E. by apply strip_surrounding.
Qed.

(** A parent captured before its class name is lost. *)
Example parent_before_class_dropped :
  i_classes (instrumentation_results (instr_caps true 0)) = [("TopicDaoTest", [])] /\
  i_classes (instrumentation_results (instr_caps false 0)) = [("TopicDaoTest", ["DatabaseTest"])].
Proof. split; vm_compute; reflexivity. Qed.

(** C19. The unit-test loop collects, in capture order, the import paths, one
    function fact per [func_name] capture, and the constructor names. *)
Theorem unit_test_results_spec caps :
  unit_test_results caps =
  UnitResults (map cap_text (List.filter (label_is "import_path") caps))
              (map function_fact (List.filter (label_is "func_name") caps))
              (map cap_text (List.filter (label_is "constructor_name") caps)).
Proof. apply unit_fold. Qed.

(** The instrumentation loop records one function fact per [func_name]
    capture, whatever the class captures around it. *)
Theorem instr_functions_spec caps :
  i_functions (instrumentation_results caps) =
  map function_fact (List.filter (label_is "func_name") caps).
Proof.
  unfold instrumentation_results. by rewrite instr_fold_functions.
Qed.

Lemma class_registered_witness :
  instr_class_cap ∈ instr_caps false 0 /\ label_is "class_name" instr_class_cap = true /\
  cap_text instr_class_cap ∈ map fst (i_classes (instrumentation_results (instr_caps false 0))).
Proof.
  assert (H1 : instr_class_cap ∈ instr_caps false 0).
  { apply list_elem_of_In. vm_compute. right. left. reflexivity. }
  assert (H2 : label_is "class_name" instr_class_cap = true) by reflexivity.
  split; [exact H1|]. split; [exact H2|]. exact (class_registered _ _ H1 H2).
Defined.

Lemma diff_content_indented_witness :
  all_space "    " = true /\ all_space "" = true /\
  diff_content (String "-" ("    " +:+ "colors = TopAppBarDefaults.centerAlignedTopAppBarColors(" +:+ ""))
  = strip "colors = TopAppBarDefaults.centerAlignedTopAppBarColors(".
Proof.
  split; [reflexivity|]. split; [reflexivity|].
  apply diff_content_indented; reflexivity.
Defined.
