(* ===== verification/Validators.v ===== *)
(** * The task predicate evaluator: the five validate_* functions

    Each validator parses its input, runs its query, extracts facts
    ([Extract]) and returns an ordered dict of named booleans
    ([validations], a list of pairs in insertion order, as a Python dict
    literal is); [validation] reads one entry.  Each validator is modelled
    from its own body, so the two diff validators are two definitions.

    Theorems: the meaning of each predicate in terms of the captures
    ([preview_iff_same_function], [exactly_two_iff], [at_least_5_iff],
    [deletions_iff_substrings]), the substring matching of annotation names
    ([testonly_counts_as_test]) and the scenarios of the spec. *)

From S2P Require Import Prelude PyStr Tree Samples Attribution Extract.

(** An ordered dict [{name: bool, ...}]. *)
Abbreviation validations := (list (string * bool)).

(** [validations[name]]. *)
Definition validation (name : string) (vs : validations) : option bool :=
  snd <$> List.find (fun kv => String.eqb kv.1 name) vs.

(** ** Annotation tests (substring tests on the annotation text) *)

(** [any('@Preview' in ann ...) and any('@Composable' in ann ...)] *)
Definition is_preview_composable (f : func_fact) : bool :=
  existsb (contains "@Preview") (fannotations f) &&
  existsb (contains "@Composable") (fannotations f).

(** [any("@Test" in a for a in f['annotations'])] *)
Definition has_test (f : func_fact) : bool :=
  existsb (contains "@Test") (fannotations f).

(** ** validate_preview_generation (lines 8-71) *)

Definition validate_preview_generation (kt_bytes : string) (p : parser) (lang : language)
  : validations :=
  let root := parse p kt_bytes in
  let correct_syntax := negb (has_error root) in
  let all_functions := preview_functions (captures (lang_query lang PreviewQuery) root) in
  let total := count_where is_preview_composable all_functions in
  [("correct_syntax", correct_syntax);
   ("has_preview_and_composable", 0 <? total)].

(** ** validate_unit_test_generation (lines 74-157) *)

Definition unit_required_imports : list string :=
  ["com.google.samples.apps.nowinandroid.core.model.data.FollowableTopic";
   "com.google.samples.apps.nowinandroid.core.model.data.Topic"].

Definition validate_unit_test_generation (kt_bytes : string) (p : parser) (lang : language)
  : validations :=
  let root := parse p kt_bytes in
  let correct_syntax := negb (has_error root) in
  let r := unit_test_results (captures (lang_query lang UnitTestQuery) root) in
  let has_all_required_imports :=
    forallb (fun req => str_mem req (u_imports r)) unit_required_imports in
  let has_use_case_constructor := str_mem "GetFollowableTopicsUseCase" (u_constructors r) in
  let test_functions_count := count_where has_test (u_functions r) in
  [("correct_syntax", correct_syntax);
   ("has_all_required_imports", has_all_required_imports);
   ("has_use_case_constructor", has_use_case_constructor);
   ("has_exactly_two_test_functions", Nat.eqb test_functions_count 2)].

(** ** validate_instrumentation_test_generation (lines 160-256) *)

Definition instr_required_import : string :=
  "com.google.samples.apps.nowinandroid.core.database.model.TopicEntity".

Definition validate_instrumentation_test_generation (kt_bytes : string) (p : parser)
  (lang : language) : validations :=
  let root := parse p kt_bytes in
  let correct_syntax := negb (has_error root) in
  let r := instrumentation_results (captures (lang_query lang InstrumentationQuery) root) in
  let has_topic_entity_import := str_mem instr_required_import (i_imports r) in
  let implements_database_test :=
    existsb (fun c => str_mem "DatabaseTest" c.2) (i_classes r) in
  let test_functions_count := count_where has_test (i_functions r) in
  [("correct_syntax", correct_syntax);
   ("has_topic_entity_import", has_topic_entity_import);
   ("implements_database_test", implements_database_test);
   ("has_at_least_5_tests", 5 <=? test_functions_count)].

(** ** The two diff validators (lines 259-305 and 308-354) *)

(** [all(any(req in line for line in lines) for req in reqs)] *)
Definition contains_all (reqs lines : list string) : bool :=
  forallb (fun req => existsb (contains req) lines) reqs.

Definition material_required_deletions : list string :=
  ["colors = TopAppBarDefaults.centerAlignedTopAppBarColors(";
   "colors: TopAppBarColors = TopAppBarDefaults.centerAlignedTopAppBarColors(),"].

Definition material_required_additions : list string :=
  ["colors = TopAppBarDefaults.topAppBarColors(";
   "colors: TopAppBarColors = TopAppBarDefaults.topAppBarColors(),"].

Definition validate_material_diff (diff_text : string) (p : parser) (q : query) : validations :=
  let root := parse p diff_text in
  let correct_syntax := negb (has_error root) in
  let facts := fold_left diff_step (captures q root) ([], []) in
  [("correct_syntax", correct_syntax);
   ("contains_all_deletions", contains_all material_required_deletions facts.1);
   ("contains_all_additions", contains_all material_required_additions facts.2)].

Definition plugin_required_deletions : list string :=
  ["import org.jetbrains.kotlin.gradle.dsl.KotlinTopLevelExtension";
   "private inline fun <reified T : KotlinTopLevelExtension> Project.configureKotlin() = configure<T> {"].

Definition plugin_required_additions : list string :=
  ["import org.jetbrains.kotlin.gradle.dsl.KotlinBaseExtension";
   "private inline fun <reified T : KotlinBaseExtension> Project.configureKotlin() = configure<T> {"].

Definition validate_plugin_diff (diff_text : string) (p : parser) (q : query) : validations :=
  let root := parse p diff_text in
  let correct_syntax := negb (has_error root) in
  let facts := fold_left diff_step (captures q root) ([], []) in
  [("correct_syntax", correct_syntax);
   ("contains_all_deletions", contains_all plugin_required_deletions facts.1);
   ("contains_all_additions", contains_all plugin_required_additions facts.2)].

(** ** Lemmas *)

Lemma contains_all_spec reqs lines :
  contains_all reqs lines = true <->
  Forall (fun req => Exists (fun line => exists pre post, line = pre +:+ req +:+ post) lines) reqs.
Proof.
  unfold contains_all. rewrite forallb_forall, List.Forall_forall. apply forall_proper. intros req.
  rewrite existsb_exists, List.Exists_exists. split.
  - intros H Hin. destruct (H Hin) as (line & ? & Hc). apply contains_spec in Hc. eauto.
  - intros H Hin. destruct (H Hin) as (line & ? & Hc). apply contains_spec in Hc. eauto.
Qed.

(** [any(sub in a for a in l)] *)
Lemma existsb_contains sub l :
  existsb (contains sub) l = true <-> exists a pre post, a ∈ l /\ a = pre +:+ sub +:+ post.
Proof.
  rewrite existsb_exists. setoid_rewrite contains_spec. setoid_rewrite <- list_elem_of_In.
  naive_solver.
Qed.

Lemma count_map {A B} (p : B -> bool) (f : A -> B) l :
  count_where p (map f l) = count_where (fun x => p (f x)) l.
Proof.
  unfold count_where. induction l as [|x l IH]; simpl; [done|].
  destruct (p (f x)); simpl; by rewrite IH.
Qed.

Lemma Some_true_iff (b : bool) : Some b = Some true <-> b = true.
Proof. split; [by intros [= ->] | by intros ->]. Qed.

(** ** Theorems *)

(** C5. The preview predicate holds iff some [func_name] capture of the
    preview query finds its anchor, and one annotation text attributed to
    that anchor contains [@Preview] and one contains [@Composable]: both
    on the same function. *)
Theorem preview_iff_same_function kt p lang :
  validation "has_preview_and_composable" (validate_preview_generation kt p lang) = Some true <->
  exists c a, c ∈ captures (lang_query lang PreviewQuery) (parse p kt) /\ c.2 = "func_name" /\
    find_anchor c.1 = Some a /\
    (exists ann pre post, ann ∈ anchor_annotations a /\ ann = pre +:+ "@Preview" +:+ post) /\
    (exists ann pre post, ann ∈ anchor_annotations a /\ ann = pre +:+ "@Composable" +:+ post).
Proof.
  change (validation _ _) with (Some (0 <? count_where is_preview_composable
    (preview_functions (captures (lang_query lang PreviewQuery) (parse p kt))))).
  rewrite Some_true_iff, Nat.ltb_lt, count_where_pos, Exists_exists.
  setoid_rewrite preview_functions_elem.
  unfold is_preview_composable. setoid_rewrite andb_true_iff. setoid_rewrite existsb_contains.
  naive_solver.
Qed.

(** C6. [has_exactly_two_test_functions] holds iff exactly two [func_name]
    captures have an annotation containing "@Test". *)
Theorem exactly_two_iff kt p lang :
  validation "has_exactly_two_test_functions" (validate_unit_test_generation kt p lang) = Some true <->
  count_where (fun c => has_test (function_fact c))
    (List.filter (label_is "func_name") (captures (lang_query lang UnitTestQuery) (parse p kt))) = 2.
Proof.
  change (validation _ _) with (Some (Nat.eqb (count_where has_test
    (u_functions (unit_test_results (captures (lang_query lang UnitTestQuery) (parse p kt))))) 2)).
  rewrite Some_true_iff, Nat.eqb_eq. unfold unit_test_results. rewrite unit_fold. cbn [u_functions app].
  by rewrite count_map.
Qed.

(** C7. [has_at_least_5_tests] holds iff at least five [func_name] captures
    have an annotation containing "@Test". *)
Theorem at_least_5_iff kt p lang :
  validation "has_at_least_5_tests" (validate_instrumentation_test_generation kt p lang) = Some true <->
  5 <= count_where (fun c => has_test (function_fact c))
    (List.filter (label_is "func_name") (captures (lang_query lang InstrumentationQuery) (parse p kt))).
Proof.
  change (validation _ _) with (Some (5 <=? count_where has_test
    (i_functions (instrumentation_results (captures (lang_query lang InstrumentationQuery) (parse p kt)))))).
  rewrite Some_true_iff, Nat.leb_le. unfold instrumentation_results.
  rewrite instr_fold_functions. cbn [i_functions app]. by rewrite count_map.
Qed.

(** C8. [contains_all_deletions] of the Material task holds iff every required
    deletion occurs as a substring of some recorded deletion line. *)
Theorem deletions_iff_substrings text p q :
  validation "contains_all_deletions" (validate_material_diff text p q) = Some true <->
  Forall (fun req => Exists (fun line => exists pre post, line = pre +:+ req +:+ post)
                            (map diff_line (List.filter (label_is "deletion") (captures q (parse p text)))))
         material_required_deletions.
Proof.
  change (validation _ _) with (Some (contains_all material_required_deletions
    (diff_facts (captures q (parse p text))).1)).
  unfold diff_facts. by rewrite Some_true_iff, diff_facts_acc, contains_all_spec.
Qed.

(** An expression-style Preview function passes the preview task. *)
Example expression_style_preview_passes :
  validate_preview_generation "" (const_parser preview_expr_file) (const_language preview_expr_caps)
  = [("correct_syntax", true); ("has_preview_and_composable", true)].
Proof. vm_compute. reflexivity. Qed.

(** Both annotations on one function pass; split over two functions fail. *)
Example preview_needs_same_function :
  validation "has_preview_and_composable"
    (validate_preview_generation "" (const_parser joint_preview_file)
       (const_language (top_fun_caps joint_preview_file 1))) = Some true /\
  validation "has_preview_and_composable"
    (validate_preview_generation "" (const_parser split_preview_file)
       (const_language (top_fun_caps split_preview_file 2))) = Some false.
Proof. split; vm_compute; reflexivity. Qed.

(** The scenario of the spec: valid syntax, both imports, two tests, no
    use-case constructor. *)
Example unit_scenario_missing_constructor :
  validate_unit_test_generation "" (const_parser (unit_test_file false 2))
    (const_language (unit_test_caps false 2))
  = [("correct_syntax", true); ("has_all_required_imports", true);
     ("has_use_case_constructor", false); ("has_exactly_two_test_functions", true)].
Proof. vm_compute. reflexivity. Qed.

(** Count semantics: exactly two is false for 0, 1 and 3 tests and true
    for 2; at least five is false for 4 and true for 5 and 6. *)
Example test_count_semantics :
  Forall (fun k => validation "has_exactly_two_test_functions"
                     (validate_unit_test_generation "" (const_parser (unit_test_file true k))
                        (const_language (unit_test_caps true k))) = Some (Nat.eqb k 2))
         [0; 1; 2; 3] /\
  Forall (fun k => validation "has_at_least_5_tests"
                     (validate_instrumentation_test_generation "" (const_parser (instr_file k))
                        (const_language (instr_caps false k))) = Some (5 <=? k))
         [4; 5; 6].
Proof. split; repeat constructor; vm_compute; reflexivity. Qed.

(** The test predicates match annotation texts by substring: a helper
    annotated only with [@TestOnly] counts as a test, so two tests and one
    such helper fail [has_exactly_two_test_functions]. *)
Example testonly_counts_as_test :
  let f := kotlin_file [fun_decl ["@Test"] "a"; fun_decl ["@Test"] "b";
                        fun_decl ["@TestOnly"] "helper"] in
  has_test (FuncFact "helper" ["@TestOnly"]) = true /\
  validation "has_exactly_two_test_functions"
    (validate_unit_test_generation "" (const_parser f) (const_language (top_fun_caps f 3)))
  = Some false.
Proof. split; vm_compute; reflexivity. Qed.
