(* ===== verification/Engine.v ===== *)
(** * The extraction loops on the captures of a real query engine

    Extract.v reads the captures a query returns as any list; here they
    come from an engine with tree-sitter's contract ([Query.engine_ok]),
    run on the query sources of the code.  What the patterns guarantee
    about their captures settles two questions the loops leave open:

    - the [if anchor:] guard of [validate_preview_generation] (line 37),
      which the spec calls defensive, never fails: a [func_name] capture
      of the preview query always has a function-like ancestor
      ([preview_anchor_exists]), so every capture gives a fact
      ([preview_functions_engine]);
    - a [parent_class] capture always comes after the [class_name]
      capture of its class, since the engine reports captures in
      document order and the class name precedes the delegation
      specifier in the pattern; so the lookup of line 227 always finds
      the class registered and no parent is lost
      ([parent_class_registered]).  The loss [Extract.parent_before_class_dropped]
      shows needs an order the engine never produces;
    - every [class_declaration] of the tree with a [type_identifier]
      child is registered, with or without the optional delegation
      specifier and body ([class_declarations_registered]).

    The theorems hold for every engine [E] with [engine_ok E]; their
    witnesses use [Query.run_query]. *)

From S2P Require Import Prelude PyStr Tree Samples Query Attribution Extract.
From stdpp Require Import sorting.

(** The cases of a capture path of a concrete query. *)
Ltac path_cases H :=
  rewrite list_elem_of_In in H; simpl in H;
  repeat (destruct H as [H|H]; [simplify_eq|]); try contradiction.

(** A [parent_class] capture of the class pattern lies under a
    delegation specifier that follows a [type_identifier] child of the
    matched [class_declaration]. *)
Lemma class_parent_shape l m x :
  m ∈ pat_matches (qp_pat class_pattern) l -> x ∈ m -> x.2 = "parent_class" ->
  ntype (l_node l) = "class_declaration" /\
  exists i ci j path, child l i = Some ci /\ ntype (l_node ci) = "type_identifier" /\ i < j /\
    descend l (j :: path) = Some x.1 /\ loc_types x.1 = parent_class_types ++ loc_types l.
Proof.
  unfold class_pattern; cbn [qp_pat]. rewrite pat_matches_req.
  intros [Hty (i & ci & m1 & m2 & Hci & Hm1 & Hm2 & ->)] Hx Hn. split; [done|].
  apply elem_of_app in Hx as [Hx|[Hx|Hx]%elem_of_app]; [set_solver| |].
  - destruct (pat_matches_paths _ _ _ _ Hm1 Hx) as (ts & ? & Hp & _).
    rewrite Hn in Hp. path_cases Hp.
  - destruct (kids_matches_sound _ _ _ _ _ Hm2 Hx) as (k & c & m' & Hk & Hc & Hm' & Hx').
    apply elem_of_drop_child_locs in Hc as (j & Hj & Hc).
    destruct (pat_matches_paths _ _ _ _ Hm' Hx') as (ts & path & Hp & Hd & Ht).
    exists i, ci, j, path. split_and!; [done|by eapply pat_matches_type|lia|by simpl; rewrite Hc|].
    rewrite Ht. pose proof (child_loc_types _ _ _ Hc) as Hlc. unfold loc_types at 1 in Hlc.
    injection Hlc as ->. rewrite Hn in Hp.
    rewrite list_elem_of_In in Hk; simpl in Hk. destruct Hk as [<-|[<-|[]]]; path_cases Hp; reflexivity.
Qed.

(** The class pattern captures every [type_identifier] child of a
    [class_declaration] as [class_name]: its optional children always
    leave a match. *)
Lemma class_name_match l f cf :
  ntype (l_node l) = "class_declaration" -> child l f = Some cf -> ntype (l_node cf) = "type_identifier" ->
  exists m, m ∈ pattern_captures class_pattern l /\ (cf, "class_name") ∈ m.
Proof.
  intros Hty Hcf Htf.
  pose proof (kids_matches_optional pat_matches
    (match qp_pat class_pattern with Pat _ _ (_ :: ks) => ks | _ => [] end)
    (drop (S f) (child_locs l))) as [m2 Hm2]; [by repeat constructor|].
  exists ([(cf, "class_name")] ++ m2). split; [|set_solver].
  unfold pattern_captures. apply list_elem_of_In, filter_In. split; [|done].
  apply list_elem_of_In. unfold class_pattern; cbn [qp_pat]. apply pat_matches_req.
  split; [done|]. exists f, cf, [(cf, "class_name")], m2.
  split_and!; [done|by apply pat_matches_leaf|done|done].
Qed.

Section Engine.

Context (E : engine) (HE : engine_ok E).

Lemma engine_captured qs root x : x ∈ E qs root -> captured qs root x.
Proof. apply (HE qs root). Qed.

(** Every capture of the engine lies on a capture path of the query. *)
Lemma engine_paths qs root x :
  x ∈ E qs root ->
  exists l ts path, (x.2, ts) ∈ query_paths qs /\ descend l path = Some x.1 /\
    loc_types x.1 = ts ++ map f_type (l_ctx l).
Proof.
  intros (l & qp & m & _ & Hqp & Hm & Hx)%engine_captured.
  apply list_elem_of_In, filter_In in Hm as [Hm _]. apply list_elem_of_In in Hm.
  destruct (pat_matches_paths _ _ _ _ Hm Hx) as (ts & path & ? & ? & ?).
  exists l, ts, path. split; [|done].
  apply list_elem_of_In, in_flat_map. exists qp. split; apply list_elem_of_In; done.
Qed.

(** The [if anchor:] guard of line 37 always passes: a [func_name]
    capture of the preview query has a function-like ancestor. *)
Lemma preview_anchor_exists root x :
  x ∈ E preview_patterns root -> x.2 = "func_name" -> is_Some (find_anchor x.1).
Proof.
  intros Hx Hn. destruct (engine_paths _ _ _ Hx) as (l & ts & path & Hp & _ & Ht).
  rewrite Hn in Hp. unfold query_paths, preview_patterns in Hp.
  path_cases Hp; apply climb_is_Some; by rewrite Ht.
Qed.

(** C18. With a query engine that meets tree-sitter's contract, the preview
    loop of lines 27-57 records one function fact per [func_name] capture:
    the anchor guard never drops a function. *)
Theorem preview_functions_engine root :
  preview_functions (captures (lang_query (engine_language E) PreviewQuery) root) =
  map function_fact (List.filter (label_is "func_name")
                       (captures (lang_query (engine_language E) PreviewQuery) root)).
Proof.
  unfold preview_functions. rewrite preview_fold_total; [done|].
  intros c Hc Hl. apply (preview_anchor_exists root c Hc). by apply String.eqb_eq.
Qed.

(** C4. With a query engine that meets tree-sitter's contract, every
    [parent_class] capture finds its class already registered when the loop
    of lines 190-234 reaches it: the lookup of line 227 succeeds and the
    parent is recorded. *)
Theorem parent_class_registered root pre x post :
  captures (lang_query (engine_language E) InstrumentationQuery) root = pre ++ x :: post ->
  x.2 = "parent_class" ->
  exists cn, class_of_parent x.1 = Some cn /\ cn ∈ map fst (i_classes (instrumentation_results pre)).
Proof.
  cbn. intros Hcaps Hn.
  assert (Hx : x ∈ E instrumentation_patterns root) by (rewrite Hcaps; set_solver).
  destruct (engine_captured _ _ _ Hx) as (l & qp & m & Hl & Hqp & Hm & Hxm).
  pose proof Hm as Hm'. apply list_elem_of_In, filter_In in Hm' as [Hm' _].
  apply list_elem_of_In in Hm'.
  assert (qp = class_pattern) as ->.
  { destruct (pat_matches_paths _ _ _ _ Hm' Hxm) as (ts & ? & Hp & _). rewrite Hn in Hp.
    rewrite list_elem_of_In in Hqp; simpl in Hqp.
    destruct Hqp as [<-|[<-|[<-|[<-|[]]]]]; [path_cases Hp..|done]. }
  destruct (class_parent_shape _ _ _ Hm' Hxm Hn) as (Hty & i & ci & j & path & Hci & Hti & Hij & Hd & Ht).
  destruct (class_of_parent_found _ _ _ _ _ _ Hty Hci Hti Hd Ht) as (f & cf & Hcf & Htf & Hfi & ->).
  eexists; split; [done|].
  destruct (class_name_match _ _ _ Hty Hcf Htf) as (m0 & Hm0 & Hc0).
  apply (class_registered_fold pre _ (cf, "class_name")); [|done].
  apply (sorted_before pre x post); [rewrite <- Hcaps; apply HE| |].
  - rewrite <- Hcaps. apply HE. exists l, class_pattern, m0. split_and!; [done|set_solver|done|done].
  - change ((cf, "class_name").1) with cf. rewrite (descend_path _ _ _ Hd), (child_loc_path _ _ _ Hcf), path_le_app. simpl.
    apply orb_false_iff. split; [apply Nat.ltb_ge; lia|].
    apply andb_false_iff. left. apply Nat.eqb_neq. lia.
Qed.

(** C27. With a query engine that meets tree-sitter's contract, every
    [class_declaration] of the tree is registered in the class table under
    each of its [type_identifier] children, whether or not it has a
    delegation specifier or a body. *)
Theorem class_declarations_registered root l f cf :
  l ∈ subtree_locs root [] -> ntype (l_node l) = "class_declaration" ->
  child l f = Some cf -> ntype (l_node cf) = "type_identifier" ->
  ntext (l_node cf) ∈
    map fst (i_classes (instrumentation_results
                          (captures (lang_query (engine_language E) InstrumentationQuery) root))).
Proof.
  intros Hl Hty Hcf Htf. destruct (class_name_match _ _ _ Hty Hcf Htf) as (m & Hm & Hc).
  apply (class_registered_fold _ _ (cf, "class_name")); [|done].
  apply HE. exists l, class_pattern, m. split_and!; [done|set_solver|done|done].
Qed.

End Engine.


Lemma preview_functions_engine_witness :
  engine_ok run_query /\
  preview_functions (captures (lang_query (engine_language run_query) PreviewQuery) preview_expr_file) =
  map function_fact (List.filter (label_is "func_name")
    (captures (lang_query (engine_language run_query) PreviewQuery) preview_expr_file)).
Proof.
  pose proof run_query_ok as HE.
  split; [exact HE|]. exact (preview_functions_engine run_query HE preview_expr_file).
Defined.

Lemma parent_class_registered_witness :
  engine_ok run_query /\
  captures (lang_query (engine_language run_query) InstrumentationQuery) (instr_file 0) =
    firstn 2 (instr_caps false 0) ++ instr_parent_cap :: [] /\
  instr_parent_cap.2 = "parent_class" /\
  exists cn, class_of_parent instr_parent_cap.1 = Some cn /\
    cn ∈ map fst (i_classes (instrumentation_results (firstn 2 (instr_caps false 0)))).
Proof.
  pose proof run_query_ok as HE.
  assert (Hc : captures (lang_query (engine_language run_query) InstrumentationQuery) (instr_file 0) =
    firstn 2 (instr_caps false 0) ++ instr_parent_cap :: []) by (vm_compute; reflexivity).
  assert (Hn : instr_parent_cap.2 = "parent_class") by reflexivity.
  split_and!; [exact HE|exact Hc|exact Hn|].
  exact (parent_class_registered run_query HE (instr_file 0) _ _ _ Hc Hn).
Defined.

(** The class node of [instr_file 0] and its name. *)
Lemma class_declarations_registered_witness :
  engine_ok run_query /\
  Loc (class_decl "TopicDaoTest" "DatabaseTest" 0)
      [Frame "source_file" "" false [import_header "com.google.samples.apps.nowinandroid.core.database.model.TopicEntity"] []]
    ∈ subtree_locs (instr_file 0) [] /\
  "TopicDaoTest" ∈ map fst (i_classes (instrumentation_results
    (captures (lang_query (engine_language run_query) InstrumentationQuery) (instr_file 0)))).
Proof.
  pose proof run_query_ok as HE.
  set (l := Loc (class_decl "TopicDaoTest" "DatabaseTest" 0)
      [Frame "source_file" "" false [import_header "com.google.samples.apps.nowinandroid.core.database.model.TopicEntity"] []]).
  assert (Hl : l ∈ subtree_locs (instr_file 0) []).
  { apply list_elem_of_In. vm_compute. do 3 right. left. reflexivity. }
  assert (Hcf : child l 0 = Some (Loc (leaf "type_identifier" "TopicDaoTest")
    (Frame "class_declaration" "" false [] (drop 1 (children (class_decl "TopicDaoTest" "DatabaseTest" 0))) :: l_ctx l)))
    by reflexivity.
  split_and!; [exact HE|exact Hl|].
  exact (class_declarations_registered run_query HE (instr_file 0) l 0 _ Hl eq_refl Hcf eq_refl).
Defined.
