(* ===== verification/Dispatch.v ===== *)
(** * Per-file dispatch: process_diff_file and process_kotlin_file

    Lines 357-398 of run_validation.py: select the validator by the exact
    task string, or raise [ValueError] for any other task.  [task_keys] is
    the fixed validation-name set of each task of the spec's catalog.

    Theorems: on success the validation names are exactly the task's fixed
    set, in order ([kotlin_keys], [diff_keys]); each dispatcher succeeds
    exactly on its task names ([kotlin_dispatch_ok], [diff_dispatch_ok]);
    any other Kotlin task raises the [ValueError] of the source
    ([kotlin_unknown_task]). *)

From S2P Require Import Prelude PyStr Tree Samples Attribution Extract Validators.

(** Lines 357-375. *)
Definition process_diff_file (diff_text task : string) (diff_parser : parser)
  (diff_query : query) : result validations :=
  if String.eqb task "test4-deprecated-material" then
    Ok (validate_material_diff diff_text diff_parser diff_query)
  else if String.eqb task "test5-deprecated-plugin" then
    Ok (validate_plugin_diff diff_text diff_parser diff_query)
  else Raise (ValueError ("Unknown diff task: " +:+ task)).

(** Lines 378-398. *)
Definition process_kotlin_file (kt_bytes task : string) (kotlin_parser : parser)
  (kotlin_language : language) : result validations :=
  if String.eqb task "test1-preview" then
    Ok (validate_preview_generation kt_bytes kotlin_parser kotlin_language)
  else if String.eqb task "test2-unit-test" then
    Ok (validate_unit_test_generation kt_bytes kotlin_parser kotlin_language)
  else if String.eqb task "test3-instrumentation-test" then
    Ok (validate_instrumentation_test_generation kt_bytes kotlin_parser kotlin_language)
  else Raise (ValueError ("Unknown Kotlin task: " +:+ task)).

(** The validation names of each task of the catalog (spec, section 4.2). *)
Definition task_keys (task : string) : option (list string) :=
  if String.eqb task "test1-preview" then
    Some ["correct_syntax"; "has_preview_and_composable"]
  else if String.eqb task "test2-unit-test" then
    Some ["correct_syntax"; "has_all_required_imports"; "has_use_case_constructor";
          "has_exactly_two_test_functions"]
  else if String.eqb task "test3-instrumentation-test" then
    Some ["correct_syntax"; "has_topic_entity_import"; "implements_database_test";
          "has_at_least_5_tests"]
  else if String.eqb task "test4-deprecated-material" then
    Some ["correct_syntax"; "contains_all_deletions"; "contains_all_additions"]
  else if String.eqb task "test5-deprecated-plugin" then
    Some ["correct_syntax"; "contains_all_deletions"; "contains_all_additions"]
  else None.

Definition kotlin_task_names : list string :=
  ["test1-preview"; "test2-unit-test"; "test3-instrumentation-test"].

Definition diff_task_names : list string :=
  ["test4-deprecated-material"; "test5-deprecated-plugin"].

(** ** Lemmas *)

Lemma process_kotlin_file_Ok kt task kp kl vs :
  process_kotlin_file kt task kp kl = Ok vs -> task ∈ kotlin_task_names.
Proof.
  unfold process_kotlin_file, kotlin_task_names.
  destruct (String.eqb_spec task "test1-preview") as [->|]; [set_solver|].
  destruct (String.eqb_spec task "test2-unit-test") as [->|]; [set_solver|].
  destruct (String.eqb_spec task "test3-instrumentation-test") as [->|]; [set_solver|].
  discriminate.
Qed.

(** ** Theorems *)

(** C21. A Kotlin validation result has exactly the task's validation names. *)
Theorem kotlin_keys kt task kp kl vs :
  process_kotlin_file kt task kp kl = Ok vs -> task_keys task = Some (map fst vs).
Proof.
  unfold process_kotlin_file, task_keys.
  destruct (String.eqb task "test1-preview"); [by intros [= <-]|].
  destruct (String.eqb task "test2-unit-test"); [by intros [= <-]|].
  destruct (String.eqb task "test3-instrumentation-test"); [by intros [= <-]|].
  discriminate.
Qed.

(** C22. A diff validation result has exactly the task's validation names. *)
Theorem diff_keys text task dp dq vs :
  process_diff_file text task dp dq = Ok vs -> task_keys task = Some (map fst vs).
Proof.
  unfold process_diff_file, task_keys.
  destruct (String.eqb_spec task "test4-deprecated-material") as [->|]; [by intros [= <-]|].
  destruct (String.eqb_spec task "test5-deprecated-plugin") as [->|]; [by intros [= <-]|].
  discriminate.
Qed.

(** The Kotlin dispatcher succeeds exactly on the three Kotlin task names. *)
Theorem kotlin_dispatch_ok kt task kp kl :
  is_ok (process_kotlin_file kt task kp kl) = str_mem task kotlin_task_names.
Proof.
  unfold process_kotlin_file, str_mem, kotlin_task_names. simpl.
  destruct (String.eqb task "test1-preview"); [done|].
  destruct (String.eqb task "test2-unit-test"); [done|].
  by destruct (String.eqb task "test3-instrumentation-test").
Qed.

(** Any other task raises the source's [ValueError]. *)
Theorem kotlin_unknown_task kt task kp kl :
  str_mem task kotlin_task_names = false ->
  process_kotlin_file kt task kp kl = Raise (ValueError ("Unknown Kotlin task: " +:+ task)).
Proof.
  unfold process_kotlin_file, str_mem, kotlin_task_names. simpl.
  destruct (String.eqb task "test1-preview"); [done|].
  destruct (String.eqb task "test2-unit-test"); [done|].
  by destruct (String.eqb task "test3-instrumentation-test").
Qed.

(** The task name [test1-unit-test], listed as a Kotlin task by
    process_all_files, is unknown to process_kotlin_file. *)
Lemma kotlin_unknown_task_witness :
  str_mem "test1-unit-test" kotlin_task_names = false /\
  process_kotlin_file "" "test1-unit-test" (const_parser (kotlin_file [])) (const_language [])
  = Raise (ValueError "Unknown Kotlin task: test1-unit-test").
Proof.
  split; [reflexivity|]. apply (kotlin_unknown_task "" "test1-unit-test"). reflexivity.
Defined.

(** The diff dispatcher succeeds exactly on the two diff task names. *)
Theorem diff_dispatch_ok text task dp dq :
  is_ok (process_diff_file text task dp dq) = str_mem task diff_task_names.
Proof.
  unfold process_diff_file, str_mem, diff_task_names. simpl.
  destruct (String.eqb task "test4-deprecated-material"); [done|].
  by destruct (String.eqb task "test5-deprecated-plugin").
Qed.

Lemma kotlin_keys_witness :
  process_kotlin_file "" "test2-unit-test" (const_parser (kotlin_file [])) (const_language []) =
    Ok (validate_unit_test_generation "" (const_parser (kotlin_file [])) (const_language [])) /\
  task_keys "test2-unit-test" =
    Some (map fst (validate_unit_test_generation "" (const_parser (kotlin_file [])) (const_language []))).
Proof.
  split; [reflexivity|].
  apply (kotlin_keys "" "test2-unit-test" (const_parser (kotlin_file [])) (const_language [])).
  reflexivity.
Defined.

Lemma diff_keys_witness :
  process_diff_file "" "test5-deprecated-plugin" (const_parser (diff_file [] [])) (const_query []) =
    Ok (validate_plugin_diff "" (const_parser (diff_file [] [])) (const_query [])) /\
  task_keys "test5-deprecated-plugin" =
    Some (map fst (validate_plugin_diff "" (const_parser (diff_file [] [])) (const_query []))).
Proof.
  split; [reflexivity|].
  apply (diff_keys "" "test5-deprecated-plugin" (const_parser (diff_file [] [])) (const_query [])).
  reflexivity.
Defined.
