(* ===== verification/Batch.v ===== *)
(** * The batch reporter: process_all_files

    Lines 401-484 of run_validation.py, on manifests whose entries are
    JSON objects with string fields ([mapping], string keys to string
    values); Driver.v runs the same loop on any value json.load builds and
    shows it agrees with this one on such manifests.  The
    file system is a record of operations ([file_system]): reading a file
    as text or bytes, creating a directory, writing the CSV table; each
    may raise.  [process_items] is the loop of lines 422-470: the key
    lookups happen outside the [try] (a missing key aborts the run), the
    task is tested against the two family lists of lines 419-420 (a task
    in neither is skipped with [continue], producing no row), and any
    exception of the [try] body becomes an error row.  [process_all_files]
    then calls [os.makedirs(os.path.dirname(output_csv), exist_ok=True)]
    and writes [report_text], the text [csv.DictWriter] produces for the
    rows ([write_report]; the csv module is modelled in Csv).

    Theorems: the loop is a homomorphism over concatenation of manifests
    (isolation and order), rows are produced only for tasks of the two
    lists, the unit-test and instrumentation validators are unreachable,
    rows are consistent, a missing key aborts the run, a missing diff
    collaborator yields an error row, and the default output path makes
    every run raise; the written report reads back through
    [csv.DictReader] as the rows' values ([report_roundtrip]) unless a
    value is longer than the csv reader's field size limit, which makes
    the whole report unreadable ([long_value_unreadable]). *)

From S2P Require Import Prelude PyStr Csv Tree Samples Attribution Extract Validators Dispatch.
From stdpp Require Import pretty.

(** ** Data *)

(** One manifest entry, [json.load] of an object with string values. *)
Abbreviation mapping := (gmap string string).

(** One CSV row (lines 450-458 and 462-470). *)
Record report_row := ReportRow {
  model_name : string;
  task : string;
  is_valid : bool;
  success_validation_count : nat;
  failed_validation_count : nat;
  success_validation_list : string;
  failed_validation_list : string
}.

(** The file-system operations the loop performs. *)
Record file_system := FileSystem {
  read_text : string -> result string;   (* Path.read_text *)
  read_bytes : string -> result string;  (* Path.read_bytes *)
  mkdir_p : string -> result unit;       (* os.makedirs(p, exist_ok=True), p non-empty *)
  write_text : string -> string -> result unit  (* open(p, 'w', newline='') and write *)
}.

(** Lines 419-420. *)
Definition kotlin_tasks : list string :=
  ["test1-preview"; "test1-unit-test"; "test3-instrumentation_test"].
Definition diff_tasks : list string :=
  ["test4-deprecated-material"; "test5-deprecated-plugin"].

(** ** Operations *)

(** [mapping[key]]: a missing key raises [KeyError]. *)
Definition get_key (m : mapping) (key : string) : result string :=
  match m !! key with
  | Some v => Ok v
  | None => Raise (KeyError key)
  end.

(** Lines 430-443: the [try] body up to the validations; [None] is the
    [continue] of an unknown task. *)
Definition run_item (fs : file_system) (kotlin_parser : parser) (kotlin_language : language)
  (diff_parser : option parser) (diff_query : option query) (task path : string)
  : option (result validations) :=
  if str_mem task diff_tasks then
    Some (match diff_parser, diff_query with
          | Some dp, Some dq =>
              (diff_text <- read_text fs path ;;
               process_diff_file diff_text task dp dq)%py
          | _, _ => Raise (ValueError "diff_parser and diff_query are required for diff tasks")
          end)
  else if str_mem task kotlin_tasks then
    Some ((kt_bytes <- read_bytes fs path ;;
           process_kotlin_file kt_bytes task kotlin_parser kotlin_language)%py)
  else None.

(** [', '.join(names) if names else 'None'] *)
Definition names_field (names : list string) : string :=
  match names with
  | [] => "None"
  | _ => str_join ", " names
  end.

(** Lines 445-458. *)
Definition row_of_validations (model t : string) (vs : validations) : report_row :=
  let success_validations := map fst (List.filter snd vs) in
  let failed_validations := map fst (List.filter (fun kv => negb kv.2) vs) in
  ReportRow model t (Nat.eqb (length failed_validations) 0)
    (length success_validations) (length failed_validations)
    (names_field success_validations) (names_field failed_validations).

(** Lines 460-470. *)
Definition error_row (model t : string) (e : exn) : report_row :=
  ReportRow model t false 0 0 "None" ("Error: " +:+ exn_str e).

Definition item_row (model t : string) (r : result validations) : report_row :=
  match r with
  | Ok vs => row_of_validations model t vs
  | Raise e => error_row model t e
  end.

(** Lines 422-470. *)
Fixpoint process_items (fs : file_system) (kotlin_parser : parser) (kotlin_language : language)
  (diff_parser : option parser) (diff_query : option query) (file_mappings : list mapping)
  : result (list report_row) :=
  match file_mappings with
  | [] => Ok []
  | m :: rest =>
      (model <- get_key m "model_name" ;;
       t <- get_key m "task" ;;
       path <- get_key m "file_path" ;;
       let row :=
         match run_item fs kotlin_parser kotlin_language diff_parser diff_query t path with
         | None => []
         | Some r => [item_row model t r]
         end in
       rows <- process_items fs kotlin_parser kotlin_language diff_parser diff_query rest ;;
       Ok (row ++ rows))%py
  end.

(** [os.path.dirname] (posixpath): the text up to the last '/', with
    trailing slashes removed unless it is made of slashes only. *)
Definition dirname (p : string) : string :=
  let is_slash c := Ascii.eqb c "/"%char in
  let head := rev (drop_while (fun c => negb (is_slash c)) (rev (list_ascii_of_string p))) in
  if negb (forallb is_slash head)
  then string_of_list_ascii (rev (drop_while is_slash (rev head)))
  else string_of_list_ascii head.

(** [os.makedirs(path, exist_ok=True)]: the empty path raises
    [FileNotFoundError] (mkdir('') fails and '' is not a directory). *)
Definition makedirs_exist_ok (fs : file_system) (path : string) : result unit :=
  if String.eqb path "" then Raise (FileNotFoundError "[Errno 2] No such file or directory: ''")
  else mkdir_p fs path.

(** [str(True)], [str(False)]. *)
Definition bool_field (b : bool) : string := if b then "True" else "False".

(** Line 475. *)
Definition fieldnames : list string :=
  ["model_name"; "task"; "is_valid"; "success_validation_count";
   "failed_validation_count"; "success_validation_list"; "failed_validation_list"].

(** The values [csv.DictWriter.writerow] writes for one row. *)
Definition row_fields (r : report_row) : list string :=
  [model_name r; task r; bool_field (is_valid r); pretty (success_validation_count r);
   pretty (failed_validation_count r); success_validation_list r; failed_validation_list r].

(** Lines 474-481: the text [csv.DictWriter] writes, the header line then
    one record per row. *)
Definition report_text (results : list report_row) : string :=
  csv_write (fieldnames :: map row_fields results).

(** Lines 472-482: [os.makedirs(os.path.dirname(output_csv),
    exist_ok=True)], then the table written with [csv.DictWriter]. *)
Definition write_report (fs : file_system) (output_csv : string) (results : list report_row)
  : result unit :=
  (_ <- makedirs_exist_ok fs (dirname output_csv) ;;
   write_text fs output_csv (report_text results))%py.

(** Lines 401-484: the report is written, the rows are returned. *)
Definition process_all_files (fs : file_system) (kotlin_parser : parser)
  (kotlin_language : language) (diff_parser : option parser) (diff_query : option query)
  (file_mappings : list mapping) (output_csv : string) : result (list report_row) :=
  (results <- process_items fs kotlin_parser kotlin_language diff_parser diff_query file_mappings ;;
   _ <- write_report fs output_csv results ;;
   Ok results)%py.

(** ** Sample manifests and file systems *)

(** [{"model_name": model, "task": t, "file_path": path}] *)
Definition manifest_item (model t path : string) : mapping :=
  <["model_name" := model]> (<["task" := t]> (<["file_path" := path]> ∅)).

(** A file system on which every operation succeeds. *)
Definition ok_fs : file_system :=
  FileSystem (fun _ => Ok "") (fun _ => Ok "") (fun _ => Ok tt) (fun _ _ => Ok tt).

(** A file system on which no file can be read. *)
Definition unreadable_fs : file_system :=
  FileSystem (fun p => Raise (FileNotFoundError ("No such file: " +:+ p)))
             (fun p => Raise (FileNotFoundError ("No such file: " +:+ p)))
             (fun _ => Ok tt) (fun _ _ => Ok tt).

(** The three keys the loop reads are present. *)
Definition has_keys (m : mapping) : Prop :=
  is_Some (m !! "model_name") /\ is_Some (m !! "task") /\ is_Some (m !! "file_path").

(** A model name longer than the csv reader's field size limit. *)
Definition long_model_name : string :=
  string_of_list_ascii (repeat "m"%char (S (N.to_nat field_limit))).

(** An exception message with a delimiter, quotes and a line break. *)
Definition awkward_error : exn :=
  ValueError ("bad, " +:+ String quotechar "quoted" +:+ String quotechar (String lf "line")).

(** ** Lemmas *)

Lemma manifest_item_keys model t path :
  get_key (manifest_item model t path) "model_name" = Ok model /\
  get_key (manifest_item model t path) "task" = Ok t /\
  get_key (manifest_item model t path) "file_path" = Ok path.
Proof. unfold get_key, manifest_item. by simplify_map_eq. Qed.

Lemma process_items_one fs kp kl dp dq model t path rest :
  process_items fs kp kl dp dq (manifest_item model t path :: rest) =
  (rows <- process_items fs kp kl dp dq rest ;;
   Ok (match run_item fs kp kl dp dq t path with
       | None => []
       | Some r => [item_row model t r]
       end ++ rows))%py.
Proof. simpl. by destruct (manifest_item_keys model t path) as (-> & -> & ->). Qed.

Lemma run_item_None fs kp kl dp dq t path :
  run_item fs kp kl dp dq t path = None <->
  str_mem t diff_tasks = false /\ str_mem t kotlin_tasks = false.
Proof.
  unfold run_item. destruct (str_mem t diff_tasks), (str_mem t kotlin_tasks); naive_solver.
Qed.

(** A successful validation comes from the preview task or a diff task:
    the other two Kotlin names of [kotlin_tasks] are unknown downstream. *)
Lemma run_item_Ok fs kp kl dp dq t path vs :
  run_item fs kp kl dp dq t path = Some (Ok vs) ->
  t = "test1-preview" \/ t ∈ diff_tasks.
Proof.
  unfold run_item. destruct (str_mem t diff_tasks) eqn:Ed.
  - intros _. right. by apply str_mem_elem.
  - destruct (str_mem t kotlin_tasks) eqn:Ek; [|discriminate].
    intros [= H]. apply rbind_Ok in H as (kt & _ & H).
    apply process_kotlin_file_Ok in H as Hk. apply str_mem_elem in Ek.
    unfold kotlin_tasks, kotlin_task_names in *. left. set_solver.
Qed.

Lemma process_items_keys fs kp kl dp dq ms :
  Forall has_keys ms -> is_ok (process_items fs kp kl dp dq ms) = true.
Proof.
  induction 1 as [|m ms (Hm & Ht & Hp) _ IH]; [done|]. simpl. unfold get_key.
  destruct Hm as [? ->], Ht as [? ->], Hp as [? ->]. simpl.
  destruct (process_items _ _ _ _ _ ms); [done | discriminate].
Qed.

(** ** Theorems *)

(** Isolation and order: the rows of a concatenated manifest are the rows
    of the first part followed by the rows of the second. *)
Theorem process_items_app fs kp kl dp dq ms1 ms2 :
  process_items fs kp kl dp dq (ms1 ++ ms2) =
  (r1 <- process_items fs kp kl dp dq ms1 ;;
   r2 <- process_items fs kp kl dp dq ms2 ;;
   Ok (r1 ++ r2))%py.
Proof.
  induction ms1 as [|m ms1 IH]; simpl.
  - by destruct (process_items _ _ _ _ _ ms2).
  - destruct (get_key m "model_name"), (get_key m "task"), (get_key m "file_path"); simpl; try done.
    rewrite IH. destruct (process_items _ _ _ _ _ ms1); simpl; [|done].
    destruct (process_items _ _ _ _ _ ms2); simpl; by rewrite ?app_assoc.
Qed.

(** C10. A row is produced exactly for the items whose task is in one of the
    two family lists of lines 419-420; other items leave no trace. *)
Theorem rows_only_for_listed_tasks fs kp kl dp dq ms rows :
  process_items fs kp kl dp dq ms = Ok rows ->
  length rows =
  length (List.filter (fun m => match m !! "task" with
                                | Some t => str_mem t diff_tasks || str_mem t kotlin_tasks
                                | None => false
                                end) ms).
Proof.
  revert rows. induction ms as [|m ms IH]; intros rows; cbn [process_items List.filter];
    [by intros [= <-]|].
  unfold get_key at 2. destruct (m !! "task") as [t|]; cbn [rbind];
    destruct (get_key m "model_name"), (get_key m "file_path"); cbn [rbind]; try discriminate.
  destruct (process_items _ _ _ _ _ ms) as [rs|] eqn:E; cbn [rbind]; [|discriminate].
  intros [= <-]. rewrite length_app, (IH rs eq_refl).
  destruct (run_item fs kp kl dp dq t _) eqn:Er.
  - destruct (str_mem t diff_tasks) eqn:E1, (str_mem t kotlin_tasks) eqn:E2; try done.
    exfalso. assert (run_item fs kp kl dp dq t a0 = None) by (by apply run_item_None).
    congruence.
  - apply run_item_None in Er as [-> ->]. done.
Qed.

Lemma rows_only_for_listed_tasks_witness :
  process_items ok_fs (const_parser (kotlin_file [])) (const_language []) None None
    [manifest_item "m" "test1-preview" "a.kt"; manifest_item "m" "test2-unit-test" "b.kt"]
  = Ok [row_of_validations "m" "test1-preview"
          [("correct_syntax", true); ("has_preview_and_composable", false)]] /\
  length [row_of_validations "m" "test1-preview"
            [("correct_syntax", true); ("has_preview_and_composable", false)]] = 1.
Proof.
  split; [vm_compute; reflexivity|].
  apply (rows_only_for_listed_tasks ok_fs (const_parser (kotlin_file [])) (const_language [])
           None None [manifest_item "m" "test1-preview" "a.kt"; manifest_item "m" "test2-unit-test" "b.kt"]).
  vm_compute. reflexivity.
Defined.

(** The unit-test and instrumentation tasks, under the names the
    validators use, are silently skipped: no row at all. *)
Theorem catalog_tasks_skipped fs kp kl dp dq model path :
  process_items fs kp kl dp dq [manifest_item model "test2-unit-test" path] = Ok [] /\
  process_items fs kp kl dp dq [manifest_item model "test3-instrumentation-test" path] = Ok [].
Proof. split; by rewrite process_items_one. Qed.

(** C9. Whatever the inputs, a row that is not an error row comes from the
    preview task or a diff task: the unit-test and instrumentation
    validators are never reached. *)
Theorem validated_tasks fs kp kl dp dq ms rows r :
  process_items fs kp kl dp dq ms = Ok rows -> r ∈ rows ->
  task r = "test1-preview" \/ task r ∈ diff_tasks \/
  exists e, r = error_row (model_name r) (task r) e.
Proof.
  revert rows. induction ms as [|m ms IH]; intros rows; cbn [process_items].
  - intros [= <-]. set_solver.
  - destruct (get_key m "model_name") as [model|], (get_key m "task") as [t|],
      (get_key m "file_path") as [path|]; cbn [rbind]; try discriminate.
    destruct (process_items _ _ _ _ _ ms) as [rs|] eqn:E; cbn [rbind]; [|discriminate].
    intros [= <-] [Hr|Hr]%elem_of_app; [|by eapply IH].
    destruct (run_item fs kp kl dp dq t path) as [[vs|e]|] eqn:Er; [| |set_solver];
      apply list_elem_of_singleton in Hr as ->; simpl; eauto.
    destruct (run_item_Ok _ _ _ _ _ _ _ _ Er); auto.
Qed.

Lemma validated_tasks_witness :
  process_items ok_fs (const_parser (kotlin_file [])) (const_language []) None None
    [manifest_item "m" "test1-unit-test" "b.kt"]
  = Ok [error_row "m" "test1-unit-test" (ValueError "Unknown Kotlin task: test1-unit-test")] /\
  (task (error_row "m" "test1-unit-test" (ValueError "Unknown Kotlin task: test1-unit-test"))
     = "test1-preview" \/
   task (error_row "m" "test1-unit-test" (ValueError "Unknown Kotlin task: test1-unit-test"))
     ∈ diff_tasks \/
   exists e, error_row "m" "test1-unit-test" (ValueError "Unknown Kotlin task: test1-unit-test")
     = error_row "m" "test1-unit-test" e).
Proof.
  split; [vm_compute; reflexivity|].
  apply (validated_tasks ok_fs (const_parser (kotlin_file [])) (const_language []) None None
           [manifest_item "m" "test1-unit-test" "b.kt"]
           [error_row "m" "test1-unit-test" (ValueError "Unknown Kotlin task: test1-unit-test")]).
  - vm_compute. reflexivity.
  - apply list_elem_of_singleton. reflexivity.
Defined.

(** A row of validations is valid iff every validation holds, and its two
    counts add up to the number of validations. *)
Theorem row_consistent model t vs :
  is_valid (row_of_validations model t vs) = forallb snd vs /\
  success_validation_count (row_of_validations model t vs) +
  failed_validation_count (row_of_validations model t vs) = length vs.
Proof.
  unfold row_of_validations; simpl. rewrite !length_map. split.
  - induction vs as [|[k b] vs IH]; simpl; [done|]. by destruct b.
  - induction vs as [|[k b] vs IH]; simpl; [done|]. destruct b; simpl; lia.
Qed.

(** C13. An unreadable file yields one error row with zero counts and the
    exception text, and the loop goes on with the next items. *)
Theorem unreadable_file_row fs kp kl dp dq model t path rest e :
  str_mem t kotlin_tasks = true -> str_mem t diff_tasks = false ->
  read_bytes fs path = Raise e ->
  process_items fs kp kl dp dq (manifest_item model t path :: rest) =
  (rows <- process_items fs kp kl dp dq rest ;;
   Ok (ReportRow model t false 0 0 "None" ("Error: " +:+ exn_str e) :: rows))%py.
Proof.
  intros Hk Hd Hr. rewrite process_items_one. unfold run_item. rewrite Hd, Hk, Hr. done.
Qed.

Lemma unreadable_file_row_witness :
  process_items unreadable_fs (const_parser (kotlin_file [])) (const_language []) None None
    [manifest_item "m" "test1-preview" "gone.kt"; manifest_item "m" "test1-preview" "b.kt"]
  = Ok [ReportRow "m" "test1-preview" false 0 0 "None" "Error: No such file: gone.kt";
        ReportRow "m" "test1-preview" false 0 0 "None" "Error: No such file: b.kt"].
Proof.
  rewrite (unreadable_file_row unreadable_fs _ _ None None "m" "test1-preview" "gone.kt"
             [manifest_item "m" "test1-preview" "b.kt"] (FileNotFoundError "No such file: gone.kt"));
    vm_compute; reflexivity.
Defined.

(** C14. A manifest entry without [model_name] aborts the whole run with a
    [KeyError], whatever the entries before and after it: the lookups are
    outside the [try]. *)
Theorem missing_key_aborts fs kp kl dp dq ms1 m ms2 :
  Forall has_keys ms1 -> m !! "model_name" = None ->
  process_items fs kp kl dp dq (ms1 ++ m :: ms2) = Raise (KeyError "model_name").
Proof.
  intros Hk Hm. rewrite process_items_app.
  pose proof (process_items_keys fs kp kl dp dq ms1 Hk) as Hok.
  destruct (process_items _ _ _ _ _ ms1); [|discriminate]. simpl.
  unfold get_key at 1. by rewrite Hm.
Qed.

Lemma missing_key_aborts_witness :
  Forall has_keys [manifest_item "m" "test1-preview" "a.kt"] /\
  (<["task" := "test1-preview"]> (∅ : mapping)) !! "model_name" = None /\
  process_items ok_fs (const_parser (kotlin_file [])) (const_language []) None None
    [manifest_item "m" "test1-preview" "a.kt"; <["task" := "test1-preview"]> ∅]
  = Raise (KeyError "model_name").
Proof.
  assert (Hk : Forall has_keys [manifest_item "m" "test1-preview" "a.kt"]).
  { repeat constructor; unfold manifest_item; simplify_map_eq; eauto. }
  split; [exact Hk|]. split; [reflexivity|].
  apply (missing_key_aborts _ _ _ _ _ [manifest_item "m" "test1-preview" "a.kt"] _ []);
    [exact Hk | reflexivity].
Defined.

(** C15. A diff task without a diff parser or query yields an error row for
    that item, not a configuration failure of the run. *)
Theorem missing_diff_parser_row fs kp kl dq model t path :
  t ∈ diff_tasks ->
  process_items fs kp kl None dq [manifest_item model t path] =
  Ok [error_row model t (ValueError "diff_parser and diff_query are required for diff tasks")].
Proof.
  intros Ht. rewrite process_items_one. unfold run_item.
  apply str_mem_elem in Ht. by rewrite Ht.
Qed.

Lemma missing_diff_parser_row_witness :
  "test4-deprecated-material" ∈ diff_tasks /\
  process_items ok_fs (const_parser (kotlin_file [])) (const_language []) None None
    [manifest_item "m" "test4-deprecated-material" "x.diff"]
  = Ok [error_row "m" "test4-deprecated-material"
          (ValueError "diff_parser and diff_query are required for diff tasks")].
Proof.
  assert (Ht : "test4-deprecated-material" ∈ diff_tasks) by (unfold diff_tasks; set_solver).
  split; [exact Ht|]. by apply missing_diff_parser_row.
Defined.

(** C11. The default output path has an empty directory part, and
    [os.makedirs('')] raises: every run that writes to it fails after
    processing all items, and no CSV is written. *)
Theorem default_output_raises fs kp kl dp dq ms :
  is_ok (process_all_files fs kp kl dp dq ms "validation_results.csv") = false.
Proof.
  unfold process_all_files, write_report. destruct (process_items _ _ _ _ _ ms); [|done]. simpl.
  by replace (dirname "validation_results.csv") with "" by (vm_compute; reflexivity).
Qed.

(** An empty manifest is not an error: the run writes the header only. *)
Theorem empty_manifest_writes_header fs kp kl dp dq out :
  String.eqb (dirname out) "" = false -> mkdir_p fs (dirname out) = Ok tt ->
  write_text fs out (report_text []) = Ok tt ->
  process_all_files fs kp kl dp dq [] out = Ok [].
Proof.
  intros Hd Hm Hw. unfold process_all_files, write_report, makedirs_exist_ok. simpl.
  by rewrite Hd, Hm; simpl; rewrite Hw.
Qed.

Lemma empty_manifest_writes_header_witness :
  process_all_files ok_fs (const_parser (kotlin_file [])) (const_language []) None None []
    "build/results.csv" = Ok [].
Proof. by apply empty_manifest_writes_header. Defined.

(** C12. Shuffling the manifest shuffles the rows and changes nothing else. *)
Theorem process_items_perm fs kp kl dp dq ms ms' rows :
  ms ≡ₚ ms' -> process_items fs kp kl dp dq ms = Ok rows ->
  exists rows', process_items fs kp kl dp dq ms' = Ok rows' /\ rows ≡ₚ rows'.
Proof.
  intros Hp. revert rows. induction Hp as [|m ms ms' Hp IH|m1 m2 ms|ms ms' ms'' _ IH1 _ IH2];
    intros rows H.
  - eauto.
  - change (m :: ms) with ([m] ++ ms) in H. change (m :: ms') with ([m] ++ ms').
    rewrite process_items_app in H |- *.
    destruct (process_items _ _ _ _ _ [m]) as [r1|]; [|discriminate]. simpl in H |- *.
    destruct (process_items _ _ _ _ _ ms) as [r2|]; [|discriminate].
    destruct (IH r2 eq_refl) as (r2' & -> & Hr). injection H as <-. eexists; split; [done|].
    by rewrite Hr.
  - change (m2 :: m1 :: ms) with ([m2] ++ [m1] ++ ms) in H.
    change (m1 :: m2 :: ms) with ([m1] ++ [m2] ++ ms).
    rewrite !process_items_app in H |- *.
    destruct (process_items _ _ _ _ _ [m2]) as [a|]; [|discriminate].
    destruct (process_items _ _ _ _ _ [m1]) as [b|]; simpl in H |- *; [|discriminate].
    destruct (process_items _ _ _ _ _ ms) as [c|]; [|discriminate]. simpl in H |- *.
    injection H as <-. eexists; split; [done|]. by rewrite !app_assoc, (comm (++) a b).
  - destruct (IH1 rows H) as (r1 & H1 & P1). destruct (IH2 r1 H1) as (r2 & H2 & P2).
    exists r2. split; [done|]. by etrans.
Qed.

Lemma process_items_perm_witness :
  [manifest_item "a" "test2-unit-test" "x.kt"; manifest_item "b" "test1-preview" "y.kt"]
    ≡ₚ [manifest_item "b" "test1-preview" "y.kt"; manifest_item "a" "test2-unit-test" "x.kt"] /\
  exists rows', process_items ok_fs (const_parser (kotlin_file [])) (const_language []) None None
    [manifest_item "b" "test1-preview" "y.kt"; manifest_item "a" "test2-unit-test" "x.kt"] = Ok rows' /\
  [row_of_validations "b" "test1-preview" [("correct_syntax", true); ("has_preview_and_composable", false)]]
    ≡ₚ rows'.
Proof.
  assert (Hp : [manifest_item "a" "test2-unit-test" "x.kt"; manifest_item "b" "test1-preview" "y.kt"]
    ≡ₚ [manifest_item "b" "test1-preview" "y.kt"; manifest_item "a" "test2-unit-test" "x.kt"])
    by apply Permutation_swap.
  split; [exact Hp|]. eapply process_items_perm; [exact Hp|]. vm_compute. reflexivity.
Defined.

(** Every row of the report has one value per column. *)
Lemma row_fields_length r : length (row_fields r) = length fieldnames.
Proof. done. Qed.

Lemma fieldnames_fit : Forall (fun s => fits s = true) fieldnames.
Proof. by repeat constructor. Qed.

(** C28. The report reads back: [csv.DictReader] over the text
    process_all_files writes gives the seven column names and, for each
    row, in order, the dict of its seven values, whatever the values hold
    (delimiters, quotes, line breaks), when each fits the reader's field
    size limit. *)
Theorem report_roundtrip results :
  Forall (fun r => Forall (fun s => fits s = true) (row_fields r)) results ->
  (records <- csv_reader (report_text results) ;; Ok (dict_reader records))%py =
  Ok (Some fieldnames,
      map (fun r => zip_dict fieldnames (row_fields r)) results).
Proof.
  intros Hfit. unfold report_text. rewrite read_written_table.
  replace (forallb (forallb fits) _) with true.
  2:{ symmetry. apply forallb_fits_iff. constructor; [apply fieldnames_fit|].
      by apply Forall_fmap. }
  cbn [rbind]. rewrite dict_reader_table.
  - by rewrite map_map.
  - done.
  - unfold fieldnames. repeat constructor; set_solver.
  - apply Forall_fmap, Forall_forall. intros r _. apply row_fields_length.
Qed.

Lemma report_roundtrip_witness :
  Forall (fun r => Forall (fun s => fits s = true) (row_fields r))
    [error_row "m" "test1-preview" awkward_error] /\
  (records <- csv_reader (report_text [error_row "m" "test1-preview" awkward_error]) ;;
   Ok (dict_reader records))%py =
  Ok (Some fieldnames,
      map (fun r => zip_dict fieldnames (row_fields r))
        [error_row "m" "test1-preview" awkward_error]).
Proof.
  assert (H : Forall (fun r => Forall (fun s => fits s = true) (row_fields r))
                [error_row "m" "test1-preview" awkward_error])
    by (repeat constructor).
  split; [exact H | exact (report_roundtrip _ H)].
Defined.

(** A report value longer than the field size limit of the csv
    reader (a model name or an exception message, both unbounded) makes
    the whole written report unreadable by [csv.reader]. *)
Theorem long_value_unreadable results r s :
  r ∈ results -> s ∈ row_fields r -> fits s = false ->
  csv_reader (report_text results) = Raise field_limit_error.
Proof.
  intros Hr Hs Hf. apply (read_written_long_field _ (row_fields r) s); [|done|done].
  right. by apply list_elem_of_fmap_2.
Qed.

