(* ===== verification/Driver.v ===== *)
(** * The command-line driver: the manifest as json.load builds it

    Lines 401-470 run on whatever [json.load] returns, lines 487-491
    (load_file_mappings_from_json) and the [__main__] block, lines
    493-538, with the console output.

    [json.load] builds Python values ([pyval]): [None], booleans, ints,
    floats (kept as their [repr]), strings, lists and dicts (insertion
    ordered, distinct keys).  The loop of process_all_files uses them
    with Python's dynamic typing, as CPython 3.11 does:
    [for mapping in file_mappings] iterates a list's items, a dict's keys
    or a string's characters and raises [TypeError] on anything else
    ([py_iter]); [mapping['model_name']] looks a key up in a dict
    ([KeyError] when absent) and raises [TypeError] on any other value
    ([py_getitem]); [Path(...)] accepts only a string ([py_path]);
    [task in diff_tasks] holds only for a string task; the row keeps the
    model value, which csv writes with [str()] except [None], written as
    the empty field ([csv_field]), while the console prints it with
    [str()] ([py_str]).

    The console output is the list of texts passed to [print], each
    print of the code: for each item its progress line (line 427), then
    [Unknown task: ...] when the task is in neither family list (line
    442) or [Error processing <path>: <exception>] when the [try] caught
    one (line 461, the path as [str(Path(...))] prints it, [path_str]);
    after the report is written, the line saying where (line 483); then
    three lines per row (lines 534-537).

    [run_items] is the loop as a function; [dstep] is the same loop as a
    small-step machine, one step per iteration, whose states carry the
    rows and the output so far. *)

From S2P Require Import Prelude PyStr Csv Tree Samples Attribution Extract Validators Dispatch Batch.
From stdpp Require Import pretty relations.

(** ** Python values *)

(** The values [json.load] builds. *)
Inductive pyval :=
| PNone
| PBool (b : bool)
| PInt (z : Z)
| PFloat (repr : string)
| PStr (s : string)
| PList (items : list pyval)
| PDict (entries : list (string * pyval)).

(** [type(v).__name__] *)
Definition py_type_name (v : pyval) : string :=
  match v with
  | PNone => "NoneType"
  | PBool _ => "bool"
  | PInt _ => "int"
  | PFloat _ => "float"
  | PStr _ => "str"
  | PList _ => "list"
  | PDict _ => "dict"
  end.

(** [repr(v)]: strings quoted, containers with the [repr] of their items. *)
Fixpoint py_repr_val (v : pyval) : string :=
  match v with
  | PNone => "None"
  | PBool b => if b then "True" else "False"
  | PInt z => pretty z
  | PFloat r => r
  | PStr s => py_repr s
  | PList l => "[" +:+ str_join ", " (map py_repr_val l) +:+ "]"
  | PDict kvs =>
      "{" +:+ str_join ", " (map (fun kv => py_repr kv.1 +:+ ": " +:+ py_repr_val kv.2) kvs) +:+ "}"
  end.

(** [str(v)], and so [f"{v}"]: a string is itself. *)
Definition py_str (v : pyval) : string :=
  match v with PStr s => s | _ => py_repr_val v end.

(** The field [csv.writer] writes for a value: [None] is the empty
    string, anything else [str()] of it. *)
Definition csv_field (v : pyval) : string :=
  match v with PNone => "" | _ => py_str v end.

(** [for x in v]: a list's items, a dict's keys, a string's characters. *)
Definition py_iter (v : pyval) : result (list pyval) :=
  match v with
  | PList l => Ok l
  | PDict kvs => Ok (map (fun kv => PStr kv.1) kvs)
  | PStr s => Ok (map (fun c => PStr (String c EmptyString)) (list_ascii_of_string s))
  | _ => Raise (TypeError ("'" +:+ py_type_name v +:+ "' object is not iterable"))
  end.

(** [v[key]] with a string key. *)
Definition py_getitem (v : pyval) (key : string) : result pyval :=
  match v with
  | PDict kvs => match dict_get kvs key with Some x => Ok x | None => Raise (KeyError key) end
  | PList _ => Raise (TypeError "list indices must be integers or slices, not str")
  | PStr _ => Raise (TypeError "string indices must be integers, not 'str'")
  | _ => Raise (TypeError ("'" +:+ py_type_name v +:+ "' object is not subscriptable"))
  end.

(** [Path(v)]: only a string is a path. *)
Definition py_path (v : pyval) : result string :=
  match v with
  | PStr s => Ok s
  | _ => Raise (TypeError ("expected str, bytes or os.PathLike object, not " +:+ py_type_name v))
  end.

(** [str(Path(s))] on POSIX (pathlib of CPython 3.11, [splitroot] and
    [parse_parts]): the components between slashes without the empty ones
    and [.], joined by one slash, after the root: two leading slashes stay
    two, one or three and more are one; [.] when nothing is left. *)
Fixpoint split_slash (s : list ascii) (cur : list ascii) : list (list ascii) :=
  match s with
  | [] => [rev cur]
  | c :: s' => if ascii_dec c "/" then rev cur :: split_slash s' [] else split_slash s' (c :: cur)
  end.

Definition path_root (s : list ascii) : string :=
  match s with
  | "/"%char :: "/"%char :: c :: _ => if ascii_dec c "/" then "/" else "//"
  | "/"%char :: "/"%char :: [] => "//"
  | "/"%char :: _ => "/"
  | _ => ""
  end.

Definition path_str (s : string) : string :=
  let parts := List.filter (fun p => negb (bool_decide (p = [] \/ p = ["."%char])))
                 (split_slash (list_ascii_of_string s) []) in
  match path_root (list_ascii_of_string s) +:+ str_join "/" (map string_of_list_ascii parts) with
  | "" => "."
  | r => r
  end.

(** ** The loop of process_all_files on the loaded manifest *)

(** What an item of the manifest gives the loop body: lines 423-425. *)
Record item_view := ItemView { iv_model : pyval; iv_task : pyval; iv_path : string }.

(** Lines 423-425, outside the [try]: three lookups and [Path(...)]. *)
Definition view_item (m : pyval) : result item_view :=
  (model <- py_getitem m "model_name" ;;
   t <- py_getitem m "task" ;;
   p <- py_getitem m "file_path" ;;
   path <- py_path p ;;
   Ok (ItemView model t path))%py.

(** Line 427: [f"Processing {model_name} - {task}..."]. *)
Definition progress_line (v : item_view) : string :=
  "Processing " +:+ py_str (iv_model v) +:+ " - " +:+ py_str (iv_task v) +:+ "...".

(** A row of [results]: the model value as the manifest gave it, and the
    row as csv writes it. *)
Record driver_row := DriverRow { dr_model : pyval; dr_row : report_row }.

Section Loop.

Context (fs : file_system) (kotlin_parser : parser) (kotlin_language : language)
        (diff_parser : option parser) (diff_query : option query).

(** Lines 429-470 for one item: what it prints and the rows it adds.
    Only a string task can be in the family lists ([==] of another value
    with a string is [False]); any other task prints [Unknown task] (line
    442) and adds no row; an exception of the [try] prints [Error
    processing] with the path and the exception (line 461) before its
    error row; the row keeps the model value. *)
Definition item_body (v : item_view) : list string * list driver_row :=
  match iv_task v with
  | PStr t =>
      match run_item fs kotlin_parser kotlin_language diff_parser diff_query t (iv_path v) with
      | None => (["Unknown task: " +:+ t], [])
      | Some (Ok vs) => ([], [DriverRow (iv_model v) (item_row (csv_field (iv_model v)) t (Ok vs))])
      | Some (Raise e) =>
          (["Error processing " +:+ path_str (iv_path v) +:+ ": " +:+ exn_str e],
           [DriverRow (iv_model v) (item_row (csv_field (iv_model v)) t (Raise e))])
      end
  | t => (["Unknown task: " +:+ py_str t], [])
  end.

(** An iteration's console output, from its progress line on, and its rows. *)
Definition item_output (v : item_view) : list string := progress_line v :: (item_body v).1.
Definition item_rows (v : item_view) : list driver_row := (item_body v).2.

(** Lines 422-470: the console output and the rows, or the exception
    that ends the loop after the output printed so far. *)
Fixpoint run_items (items : list pyval) : list string * result (list driver_row) :=
  match items with
  | [] => ([], Ok [])
  | m :: rest =>
      match view_item m with
      | Raise e => ([], Raise e)
      | Ok v =>
          let '(out, r) := run_items rest in
          (item_output v ++ out, (rows <- r ;; Ok (item_rows v ++ rows))%py)
      end
  end.

(** Line 483: [print(f"\nResults written to {output_csv}")]. *)
Definition results_line (output_csv : string) : string :=
  String "010"%char ("Results written to " +:+ output_csv).

(** Lines 401-484 on the loaded manifest: iterate it, run the loop,
    write the report, print where. *)
Definition process_all_files_py (file_mappings : pyval) (output_csv : string)
  : list string * result (list driver_row) :=
  match py_iter file_mappings with
  | Raise e => ([], Raise e)
  | Ok items =>
      let '(out, r) := run_items items in
      match (rows <- r ;; _ <- write_report fs output_csv (map dr_row rows) ;; Ok rows)%py with
      | Ok rows => (out ++ [results_line output_csv], Ok rows)
      | Raise e => (out, Raise e)
      end
  end.

(** ** The loop as a machine *)

(** A state of the loop: the items still to iterate, the rows and the
    console output so far; or the loop has ended, normally or by an
    exception. *)
Inductive dstate :=
| DLoop (todo : list pyval) (rows : list driver_row) (out : list string)
| DDone (rows : list driver_row) (out : list string)
| DFail (e : exn) (out : list string).

(** One iteration of lines 422-470. *)
Inductive dstep : dstate -> dstate -> Prop :=
| dstep_end rows out :
    dstep (DLoop [] rows out) (DDone rows out)
| dstep_raise m todo rows out e :
    view_item m = Raise e ->
    dstep (DLoop (m :: todo) rows out) (DFail e out)
| dstep_item m todo rows out v :
    view_item m = Ok v ->
    dstep (DLoop (m :: todo) rows out) (DLoop todo (rows ++ item_rows v) (out ++ item_output v)).

(** The final state the loop reaches from [DLoop items rows out], read
    from [run_items]. *)
Definition final_state (rows : list driver_row) (out : list string)
  (r : list string * result (list driver_row)) : dstate :=
  match r with
  | (o, Ok rs) => DDone (rows ++ rs) (out ++ o)
  | (o, Raise e) => DFail e (out ++ o)
  end.

(** What a state reached from [DLoop items [] []] has done: the items
    iterated so far all passed lines 423-425 and each printed its
    progress line and added its rows; a failed loop stopped at the first
    item whose lookups raised. *)
Definition loop_inv (items : list pyval) (s : dstate) : Prop :=
  match s with
  | DLoop todo rows out =>
      exists done vs, items = done ++ todo /\ Forall2 (fun m v => view_item m = Ok v) done vs /\
        out = flat_map item_output vs /\ rows = flat_map item_rows vs
  | DDone rows out =>
      exists vs, Forall2 (fun m v => view_item m = Ok v) items vs /\
        out = flat_map item_output vs /\ rows = flat_map item_rows vs
  | DFail e out =>
      exists done m rest vs, items = done ++ m :: rest /\
        Forall2 (fun m v => view_item m = Ok v) done vs /\ view_item m = Raise e /\
        out = flat_map item_output vs
  end.

End Loop.

(** ** The script *)

(** [args.mappings] and [args.output] as argparse returns them (lines
    494-510); [None] when [--output] is not given. *)
Record cli_args := CliArgs { args_mappings : string; args_output : option string }.

(** The json module: [json.loads] of a text (json.load reads the file and
    decodes it). *)
Record json_module := JsonModule { json_loads : string -> result pyval }.

(** The tree-sitter objects lines 514-524 build. *)
Record ts_setup := TsSetup {
  ts_kotlin_parser : parser;
  ts_kotlin_language : language;
  ts_diff_parser : parser;
  ts_diff_query : query
}.

(** Lines 487-491. *)
Definition load_file_mappings_from_json (fs : file_system) (js : json_module) (json_path : string)
  : result pyval :=
  (text <- read_text fs json_path ;; json_loads js text)%py.

(** Lines 535-537 for one row. *)
Definition summary_lines (r : driver_row) : list string :=
  [py_str (dr_model r) +:+ " - " +:+ task (dr_row r) +:+ ": Valid=" +:+ bool_field (is_valid (dr_row r));
   "  Success (" +:+ pretty (success_validation_count (dr_row r)) +:+ "): " +:+
     success_validation_list (dr_row r);
   "  Failed (" +:+ pretty (failed_validation_count (dr_row r)) +:+ "): " +:+
     failed_validation_list (dr_row r) +:+ String lf EmptyString].

(** Lines 512-538: load the manifest, build the tree-sitter objects (which
    may raise), process the files with both diff collaborators and the
    output path ([validation_results.csv] by default), print the summary.
    The console output and how the script ends. *)
Definition main (fs : file_system) (js : json_module) (setup : result ts_setup) (args : cli_args)
  : list string * result unit :=
  match load_file_mappings_from_json fs js (args_mappings args) with
  | Raise e => ([], Raise e)
  | Ok file_mappings =>
      match setup with
      | Raise e => ([], Raise e)
      | Ok st =>
          let '(out, r) :=
            process_all_files_py fs (ts_kotlin_parser st) (ts_kotlin_language st)
              (Some (ts_diff_parser st)) (Some (ts_diff_query st)) file_mappings
              (default "validation_results.csv" (args_output args)) in
          match r with
          | Raise e => (out, Raise e)
          | Ok rows => (out ++ flat_map summary_lines rows, Ok tt)
          end
      end
  end.

(** ** The manifests of string fields *)

(** An item that is a dict whose [model_name], [task] and [file_path], when
    present, are strings: the manifests Batch reads. *)
Definition string_fields (m : pyval) : bool :=
  match m with
  | PDict kvs =>
      forallb (fun k => match dict_get kvs k with Some (PStr _) | None => true | Some _ => false end)
        ["model_name"; "task"; "file_path"]
  | _ => false
  end.

(** Such an item as Batch's [mapping]: its string entries. *)
Definition to_mapping (m : pyval) : mapping :=
  match m with
  | PDict kvs => omap (fun x => match x with PStr s => Some s | _ => None end) (list_to_map kvs)
  | _ => ∅
  end.

(** ** Samples *)

(** A file system whose every file reads as [text]. *)
Definition manifest_fs (text : string) : file_system :=
  FileSystem (fun _ => Ok text) (fun _ => Ok "") (fun _ => Ok tt) (fun _ _ => Ok tt).

(** A json module that loads every text as [v]. *)
Definition const_json (v : pyval) : json_module := JsonModule (fun _ => Ok v).

(** [{"model_name": model, "task": t, "file_path": path}] *)
Definition json_item (model t path : pyval) : pyval :=
  PDict [("model_name", model); ("task", t); ("file_path", path)].

(** The tree-sitter objects of the samples. *)
Definition sample_setup : ts_setup :=
  TsSetup (const_parser (kotlin_file [])) (const_language []) (const_parser (kotlin_file [])) (const_query []).


(** A manifest of three items: a preview, the unit-test validator's own
    task name (not in the family list) and the family list's name (which
    the dispatcher rejects), on a path that [Path] normalises. *)
Definition three_items : pyval :=
  PList [json_item (PStr "m") (PStr "test1-preview") (PStr "a.kt");
         json_item (PStr "m") (PStr "test2-unit-test") (PStr "b.kt");
         json_item (PStr "m") (PStr "test1-unit-test") (PStr "./src//b.kt")].

Definition three_items_output : list string :=
  ["Processing m - test1-preview...";
   "Processing m - test2-unit-test..."; "Unknown task: test2-unit-test";
   "Processing m - test1-unit-test...";
   "Error processing src/b.kt: Unknown Kotlin task: test1-unit-test";
   String "010"%char "Results written to out/r.csv";
   "m - test1-preview: Valid=False"; "  Success (1): correct_syntax";
   "  Failed (1): has_preview_and_composable" +:+ String lf EmptyString;
   "m - test1-unit-test: Valid=False"; "  Success (0): None";
   "  Failed (0): Error: Unknown Kotlin task: test1-unit-test" +:+ String lf EmptyString].

(** A manifest whose second item has no [model_name]. *)
Definition bad_manifest : pyval :=
  PList [json_item (PStr "m") (PStr "test1-preview") (PStr "a.kt"); PDict [("task", PStr "x")]].

(** An error row of lines 462-470, as the report shows it: not valid, yet
    no failed validation counted (a row of validations that is not valid
    counts its failed ones). *)
Definition is_error_row (r : report_row) : bool :=
  negb (is_valid r) && Nat.eqb (failed_validation_count r) 0.

(** ** Lemmas *)

Lemma progress_not_error v : starts_with "Error processing " (progress_line v) = false.
Proof. reflexivity. Qed.
Lemma progress_not_unknown v : starts_with "Unknown task: " (progress_line v) = false.
Proof. reflexivity. Qed.
Lemma unknown_not_error t : starts_with "Error processing " ("Unknown task: " +:+ t) = false.
Proof. reflexivity. Qed.
Lemma error_not_unknown x : starts_with "Unknown task: " ("Error processing " +:+ x) = false.
Proof. reflexivity. Qed.
Lemma error_is_error x : starts_with "Error processing " ("Error processing " +:+ x) = true.
Proof. reflexivity. Qed.
Lemma unknown_is_unknown x : starts_with "Unknown task: " ("Unknown task: " +:+ x) = true.
Proof. reflexivity. Qed.

Section Machine.

Context (fs : file_system) (kp : parser) (kl : language) (dp : option parser) (dq : option query).

Notation dstep := (dstep fs kp kl dp dq).
Notation run_items := (run_items fs kp kl dp dq).
Notation item_rows := (item_rows fs kp kl dp dq).
Notation item_output := (item_output fs kp kl dp dq).

Lemma dstep_det s s1 s2 : dstep s s1 -> dstep s s2 -> s1 = s2.
Proof. intros H1 H2. destruct H1; inversion H2; congruence. Qed.

(** The final states are the states of an ended loop. *)
Lemma nf_dstep s : nf dstep s <-> match s with DLoop _ _ _ => False | _ => True end.
Proof.
  split.
  - destruct s as [[|m todo] rows out| |]; try done; intros Hnf; apply Hnf.
    + eexists. constructor.
    + destruct (view_item m) eqn:E; eexists; by econstructor.
  - intros Hs [s' Hstep]. by destruct Hstep.
Qed.

(** The machine runs the loop as [run_items] computes it. *)
Lemma run_items_steps items rows out :
  rtc dstep (DLoop items rows out) (final_state rows out (run_items items)).
Proof.
  revert rows out. induction items as [|m rest IH]; intros rows out; simpl.
  - rewrite !app_nil_r. apply rtc_once. constructor.
  - destruct (view_item m) as [v|e] eqn:Hv.
    + eapply rtc_l; [by apply dstep_item|]. specialize (IH (rows ++ item_rows v) (out ++ item_output v)).
      destruct (run_items rest) as [o [rs|e]]; simpl in *; by rewrite <- !app_assoc in IH.
    + apply rtc_once. simpl. rewrite app_nil_r. by constructor.
Qed.

(** [run_items] on a loop that ends normally: every item passed the
    lookups, printed its line and added its rows. *)
Lemma run_items_Ok items out rows :
  run_items items = (out, Ok rows) ->
  exists vs, Forall2 (fun m v => view_item m = Ok v) items vs /\
    out = flat_map item_output vs /\ rows = flat_map item_rows vs.
Proof.
  revert out rows. induction items as [|m rest IH]; intros out rows; simpl.
  - intros [= <- <-]. by exists [].
  - destruct (view_item m) as [v|e] eqn:Hv; [|done].
    destruct (run_items rest) as [o [rs|e]] eqn:Hr; intros [= <- <-].
    destruct (IH _ _ eq_refl) as (vs & ? & -> & ->). exists (v :: vs). split_and!; by constructor || done.
Qed.

(** The loop stops at the first item whose lookups raise, after the
    output of the items before it. *)
Lemma run_items_raise done m rest vs e :
  Forall2 (fun m v => view_item m = Ok v) done vs -> view_item m = Raise e ->
  run_items (done ++ m :: rest) = (flat_map item_output vs, Raise e).
Proof.
  intros HF Hm. induction HF as [|m' v done' vs' Hv HF IH]; simpl.
  - by rewrite Hm.
  - rewrite Hv, IH. reflexivity.
Qed.

(** One iteration prints its progress line and at most one more line: an
    [Error processing] line exactly when its row is an error row, and an
    [Unknown task] line exactly when it adds no row. *)
Lemma item_output_counts v :
  count_where (starts_with "Error processing ") (item_output v) =
    count_where (fun r => is_error_row (dr_row r)) (item_rows v) /\
  count_where (starts_with "Unknown task: ") (item_output v) + length (item_rows v) = 1.
Proof.
  unfold item_output, item_rows, item_body, count_where.
  destruct (iv_task v) as [| | | |t| |];
    [| | | |destruct (run_item fs kp kl dp dq t (iv_path v)) as [[vs|e]|]| |]; cbn [List.filter fst snd];
    rewrite ?progress_not_error, ?progress_not_unknown, ?unknown_not_error, ?error_not_unknown,
      ?error_is_error, ?unknown_is_unknown; cbn; try (split; reflexivity).
  unfold row_of_validations, is_error_row; cbn.
  by destruct (length (map fst (List.filter (fun kv => negb kv.2) vs))).
Qed.

End Machine.

(** ** Lemmas on the manifests of string fields *)

Lemma get_key_to_mapping kvs k :
  get_key (to_mapping (PDict kvs)) k =
  match dict_get kvs k with Some (PStr s) => Ok s | _ => Raise (KeyError k) end.
Proof.
  unfold get_key, to_mapping. rewrite lookup_omap, list_to_map_dict_get.
  by destruct (dict_get kvs k) as [[]|].
Qed.

(** Three lookups that raise make any continuation raise. *)
Lemma rbind3_raise {A B C D} (a : result A) (b : result B) (c : result C) e (K : A -> B -> C -> result D) :
  (x <- a ;; y <- b ;; z <- c ;; Ok (x, y, z))%py = Raise e ->
  (x <- a ;; y <- b ;; z <- c ;; K x y z)%py = Raise e.
Proof. destruct a, b, c; simpl; congruence. Qed.

(** On an item of string fields, lines 423-425 read what Batch's lookups
    read, and raise what they raise. *)
Lemma view_item_string m :
  string_fields m = true ->
  (exists model t path, view_item m = Ok (ItemView (PStr model) (PStr t) path) /\
     get_key (to_mapping m) "model_name" = Ok model /\ get_key (to_mapping m) "task" = Ok t /\
     get_key (to_mapping m) "file_path" = Ok path) \/
  (exists e, view_item m = Raise e /\
     (x <- get_key (to_mapping m) "model_name" ;; y <- get_key (to_mapping m) "task" ;;
      z <- get_key (to_mapping m) "file_path" ;; Ok (x, y, z))%py = Raise e).
Proof.
  destruct m as [| | | | | |kvs]; try done. intros Hs. rewrite !get_key_to_mapping.
  unfold view_item; cbn [py_getitem]. simpl in Hs.
  destruct (dict_get kvs "model_name") as [[]|]; try done; simpl in *;
    destruct (dict_get kvs "task") as [[]|]; try done; simpl in *;
    destruct (dict_get kvs "file_path") as [[]|]; try done; simpl; eauto 10.
Qed.

Section Machine2.

Context (fs : file_system) (kp : parser) (kl : language) (dp : option parser) (dq : option query).

Notation dstep := (dstep fs kp kl dp dq).
Notation run_items := (run_items fs kp kl dp dq).
Notation item_rows := (item_rows fs kp kl dp dq).
Notation item_output := (item_output fs kp kl dp dq).

(** One step keeps [loop_inv]. *)
Lemma loop_inv_step items y z :
  dstep y z -> loop_inv fs kp kl dp dq items y -> loop_inv fs kp kl dp dq items z.
Proof.
  intros Hstep. destruct Hstep as [rows out|m todo rows out e Hv|m todo rows out v Hv]; simpl.
  - intros (done & vs & -> & ? & -> & ->). exists vs. by rewrite app_nil_r.
  - intros (done & vs & -> & ? & -> & ->). by exists done, m, todo, vs.
  - intros (done & vs & -> & ? & -> & ->). exists (done ++ [m]), (vs ++ [v]).
    split_and!; [by rewrite <- app_assoc|by apply Forall2_app; [|constructor]|by rewrite flat_map_app; simpl; rewrite app_nil_r|].
    by rewrite flat_map_app; simpl; rewrite app_nil_r.
Qed.

End Machine2.

(** ** Theorems *)

(** C20. Every state the loop reaches from the start satisfies [loop_inv]:
    the console shows one progress line per item iterated so far, in
    manifest order, and the rows are theirs; a loop that raised stopped at
    the first item whose lookups of lines 423-425 raised, after printing
    the lines of exactly the items before it. *)
Theorem loop_reachable_inv fs kp kl dp dq items s :
  rtc (dstep fs kp kl dp dq) (DLoop items [] []) s -> loop_inv fs kp kl dp dq items s.
Proof.
  revert s. apply rtc_ind_r; [by exists [], []|].
  intros y z _ Hyz IH. by eapply loop_inv_step.
Qed.

(** On a manifest of dicts whose three fields, when present, are
    strings, the loop on the loaded values computes the rows of Batch's
    [process_items] on the string view of the manifest, and raises what
    it raises: Batch's model is the driver's on such manifests. *)
Theorem run_items_refines fs kp kl dp dq items :
  forallb string_fields items = true ->
  (rows <- (run_items fs kp kl dp dq items).2 ;; Ok (map dr_row rows))%py =
  process_items fs kp kl dp dq (map to_mapping items).
Proof.
  induction items as [|m rest IH]; [done|]. cbn [forallb]. intros (Hm & Hr)%andb_true_iff.
  specialize (IH Hr). cbn [run_items map process_items].
  destruct (view_item_string m Hm) as [(model & t & path & Hv & H1 & H2 & H3)|(e & Hv & He)].
  - rewrite Hv, H1, H2, H3. cbn [rbind]. rewrite <- IH.
    destruct (run_items fs kp kl dp dq rest) as [o [rs|e]]; simpl; [|done].
    rewrite map_app. unfold item_rows, item_body; simpl. by destruct (run_item _ _ _ _ _ t path) as [[]|].
  - rewrite Hv. symmetry. apply (rbind3_raise _ _ _ _ _ He).
Qed.

(** C16. A manifest that iterates to nothing, [[]] but also [{}] or [""],
    is not an error: the script writes the header-only report, prints
    only where it wrote it (line 483) and ends normally. *)
Theorem main_empty_manifest fs js st args text fm :
  read_text fs (args_mappings args) = Ok text -> json_loads js text = Ok fm -> py_iter fm = Ok [] ->
  write_report fs (default "validation_results.csv" (args_output args)) [] = Ok tt ->
  main fs js (Ok st) args = ([results_line (default "validation_results.csv" (args_output args))], Ok tt).
Proof.
  intros Hr Hj Hi Hw. unfold main, load_file_mappings_from_json. rewrite Hr. cbn [rbind]. rewrite Hj.
  unfold process_all_files_py. rewrite Hi. simpl. by rewrite Hw.
Qed.

(** C23. The console output of a run that ends normally: for every item of
    the manifest, in order, its progress line followed by its [Unknown
    task] or [Error processing] line if it has one, then the line saying
    where the report was written, then the three summary lines of every
    row, in order. *)
Theorem main_output fs js setup args out :
  main fs js setup args = (out, Ok tt) ->
  exists fm st items vs,
    load_file_mappings_from_json fs js (args_mappings args) = Ok fm /\ setup = Ok st /\
    py_iter fm = Ok items /\ Forall2 (fun m v => view_item m = Ok v) items vs /\
    out = flat_map (item_output fs (ts_kotlin_parser st) (ts_kotlin_language st)
                      (Some (ts_diff_parser st)) (Some (ts_diff_query st))) vs ++
          [results_line (default "validation_results.csv" (args_output args))] ++
          flat_map summary_lines
            (flat_map (item_rows fs (ts_kotlin_parser st) (ts_kotlin_language st)
                         (Some (ts_diff_parser st)) (Some (ts_diff_query st))) vs).
Proof.
  unfold main. destruct (load_file_mappings_from_json _ _ _) as [fm|e]; [|done].
  destruct setup as [st|e]; [|done]. unfold process_all_files_py.
  destruct (py_iter fm) as [items|e] eqn:Hi; [|done].
  destruct (run_items _ _ _ _ _ items) as [o [rows|e]] eqn:Hr; cbn [rbind]; [|done].
  destruct (write_report _ _ _); cbn [rbind]; [|done]. intros [= <-].
  destruct (run_items_Ok _ _ _ _ _ _ _ _ Hr) as (vs & ? & -> & ->). exists fm, st, items, vs.
  by rewrite <- app_assoc.
Qed.

(** C24. The console accounts for the report: in a loop that ends
    normally, the [Error processing] lines (line 461) are as many as the
    error rows, and every item either prints [Unknown task] (line 442) or
    adds exactly one row. *)
Theorem loop_console_accounts fs kp kl dp dq items out rows :
  run_items fs kp kl dp dq items = (out, Ok rows) ->
  count_where (starts_with "Error processing ") out =
    count_where (fun r => is_error_row (dr_row r)) rows /\
  count_where (starts_with "Unknown task: ") out + length rows = length items.
Proof.
  intros H. destruct (run_items_Ok _ _ _ _ _ _ _ _ H) as (vs & HF & -> & ->).
  rewrite (Forall2_length _ _ _ HF). clear. induction vs as [|v vs [IH1 IH2]]; [done|].
  cbn [flat_map length]. rewrite !count_where_app, length_app.
  destruct (item_output_counts fs kp kl dp dq v) as [H1 H2]. split; lia.
Qed.

(** C25. An item whose lookups of lines 423-425 raise (a missing key, a
    subscript of a non-dict, a non-string path) ends the script with that
    exception: the console shows the output of exactly the items before
    it, no report is written and the line saying where is not printed. *)
Theorem main_aborts_on_bad_item fs js st args text fm done m rest vs e :
  read_text fs (args_mappings args) = Ok text -> json_loads js text = Ok fm ->
  py_iter fm = Ok (done ++ m :: rest) ->
  Forall2 (fun m v => view_item m = Ok v) done vs -> view_item m = Raise e ->
  main fs js (Ok st) args =
    (flat_map (item_output fs (ts_kotlin_parser st) (ts_kotlin_language st)
                 (Some (ts_diff_parser st)) (Some (ts_diff_query st))) vs, Raise e).
Proof.
  intros Hr Hj Hi HF Hm. unfold main, load_file_mappings_from_json. rewrite Hr. cbn [rbind].
  rewrite Hj. unfold process_all_files_py. rewrite Hi, (run_items_raise _ _ _ _ _ _ _ _ _ _ HF Hm).
  reflexivity.
Qed.

(** ** Witnesses and examples *)

Lemma loop_reachable_inv_witness :
  rtc (dstep ok_fs (const_parser (kotlin_file [])) (const_language []) None None)
    (DLoop [json_item (PStr "m") (PStr "test1-preview") (PStr "a.kt");
            json_item (PStr "m") (PStr "test1-preview") (PInt 3)] [] [])
    (final_state [] []
       (run_items ok_fs (const_parser (kotlin_file [])) (const_language []) None None
          [json_item (PStr "m") (PStr "test1-preview") (PStr "a.kt");
           json_item (PStr "m") (PStr "test1-preview") (PInt 3)])) /\
  loop_inv ok_fs (const_parser (kotlin_file [])) (const_language []) None None
    [json_item (PStr "m") (PStr "test1-preview") (PStr "a.kt");
     json_item (PStr "m") (PStr "test1-preview") (PInt 3)]
    (final_state [] []
       (run_items ok_fs (const_parser (kotlin_file [])) (const_language []) None None
          [json_item (PStr "m") (PStr "test1-preview") (PStr "a.kt");
           json_item (PStr "m") (PStr "test1-preview") (PInt 3)])).
Proof.
  pose proof (run_items_steps ok_fs (const_parser (kotlin_file [])) (const_language []) None None
    [json_item (PStr "m") (PStr "test1-preview") (PStr "a.kt");
     json_item (PStr "m") (PStr "test1-preview") (PInt 3)] [] []) as H.
  split; [exact H|]. exact (loop_reachable_inv _ _ _ _ _ _ _ H).
Defined.

Lemma main_empty_manifest_witness :
  read_text (manifest_fs "{}") "m.json" = Ok "{}" /\
  json_loads (const_json (PDict [])) "{}" = Ok (PDict []) /\ py_iter (PDict []) = Ok [] /\
  write_report (manifest_fs "{}") "build/out.csv" [] = Ok tt /\
  main (manifest_fs "{}") (const_json (PDict [])) (Ok sample_setup) (CliArgs "m.json" (Some "build/out.csv"))
  = ([String "010"%char "Results written to build/out.csv"], Ok tt).
Proof.
  assert (H1 : read_text (manifest_fs "{}") "m.json" = Ok "{}") by reflexivity.
  assert (H2 : json_loads (const_json (PDict [])) "{}" = Ok (PDict [])) by reflexivity.
  assert (H3 : py_iter (PDict []) = Ok []) by reflexivity.
  assert (H4 : write_report (manifest_fs "{}") "build/out.csv" [] = Ok tt) by (vm_compute; reflexivity).
  split_and!; [exact H1|exact H2|exact H3|exact H4|].
  exact (main_empty_manifest _ _ sample_setup (CliArgs "m.json" (Some "build/out.csv")) _ _ H1 H2 H3 H4).
Defined.

Lemma main_output_witness :
  main (manifest_fs "") (const_json three_items) (Ok sample_setup) (CliArgs "m.json" (Some "out/r.csv")) =
    (three_items_output, Ok tt) /\
  exists fm st items vs,
    load_file_mappings_from_json (manifest_fs "") (const_json three_items) "m.json" = Ok fm /\
    Ok sample_setup = Ok st /\ py_iter fm = Ok items /\ Forall2 (fun m v => view_item m = Ok v) items vs /\
    three_items_output =
    flat_map (item_output (manifest_fs "") (ts_kotlin_parser st) (ts_kotlin_language st)
                (Some (ts_diff_parser st)) (Some (ts_diff_query st))) vs ++
      [results_line (default "validation_results.csv" (args_output (CliArgs "m.json" (Some "out/r.csv"))))] ++
      flat_map summary_lines
        (flat_map (item_rows (manifest_fs "") (ts_kotlin_parser st) (ts_kotlin_language st)
                     (Some (ts_diff_parser st)) (Some (ts_diff_query st))) vs).
Proof.
  assert (H : main (manifest_fs "") (const_json three_items) (Ok sample_setup)
                (CliArgs "m.json" (Some "out/r.csv")) = (three_items_output, Ok tt))
    by (vm_compute; reflexivity).
  split; [exact H|]. exact (main_output _ _ _ _ _ H).
Defined.

(** A [null] model name: the console prints [None], the report has an
    empty field; an item whose task is not a string is announced and
    skipped. *)
Example null_model_name :
  main (manifest_fs "")
    (const_json (PList [json_item PNone (PStr "test1-preview") (PStr "a.kt");
                        json_item (PStr "m") (PInt 7) (PStr "b.kt")]))
    (Ok sample_setup) (CliArgs "m.json" (Some "out/r.csv")) =
    (["Processing None - test1-preview..."; "Processing m - 7..."; "Unknown task: 7";
      String "010"%char "Results written to out/r.csv";
      "None - test1-preview: Valid=False"; "  Success (1): correct_syntax";
      "  Failed (1): has_preview_and_composable" +:+ String lf EmptyString], Ok tt) /\
  (process_all_files_py (manifest_fs "") (const_parser (kotlin_file [])) (const_language []) None None
     (PList [json_item PNone (PStr "test1-preview") (PStr "a.kt")]) "out/r.csv").2 =
    Ok [DriverRow PNone (ReportRow "" "test1-preview" false 1 1 "correct_syntax" "has_preview_and_composable")].
Proof. split; vm_compute; reflexivity. Qed.

(** A manifest that is a JSON object is iterated by its keys: the first
    lookup on a key raises before anything is printed. *)
Example object_manifest_raises :
  main (manifest_fs "") (const_json (PDict [("items", PList [])])) (Ok sample_setup)
    (CliArgs "m.json" (Some "out/r.csv")) =
    ([], Raise (TypeError "string indices must be integers, not 'str'")).
Proof. vm_compute. reflexivity. Qed.

Lemma loop_console_accounts_witness :
  run_items (manifest_fs "") (const_parser (kotlin_file [])) (const_language []) None None
    [json_item (PStr "m") (PStr "test1-preview") (PStr "a.kt");
     json_item (PStr "m") (PStr "test2-unit-test") (PStr "b.kt");
     json_item (PStr "m") (PStr "test4-deprecated-material") (PStr "c.diff")] =
  (["Processing m - test1-preview...";
    "Processing m - test2-unit-test..."; "Unknown task: test2-unit-test";
    "Processing m - test4-deprecated-material...";
    "Error processing c.diff: diff_parser and diff_query are required for diff tasks"],
   Ok [DriverRow (PStr "m") (ReportRow "m" "test1-preview" false 1 1 "correct_syntax" "has_preview_and_composable");
       DriverRow (PStr "m") (ReportRow "m" "test4-deprecated-material" false 0 0 "None"
         "Error: diff_parser and diff_query are required for diff tasks")]) /\
  count_where (starts_with "Error processing ")
    ["Processing m - test1-preview...";
     "Processing m - test2-unit-test..."; "Unknown task: test2-unit-test";
     "Processing m - test4-deprecated-material...";
     "Error processing c.diff: diff_parser and diff_query are required for diff tasks"] = 1.
Proof.
  assert (H : run_items (manifest_fs "") (const_parser (kotlin_file [])) (const_language []) None None
    [json_item (PStr "m") (PStr "test1-preview") (PStr "a.kt");
     json_item (PStr "m") (PStr "test2-unit-test") (PStr "b.kt");
     json_item (PStr "m") (PStr "test4-deprecated-material") (PStr "c.diff")] =
  (["Processing m - test1-preview...";
    "Processing m - test2-unit-test..."; "Unknown task: test2-unit-test";
    "Processing m - test4-deprecated-material...";
    "Error processing c.diff: diff_parser and diff_query are required for diff tasks"],
   Ok [DriverRow (PStr "m") (ReportRow "m" "test1-preview" false 1 1 "correct_syntax" "has_preview_and_composable");
       DriverRow (PStr "m") (ReportRow "m" "test4-deprecated-material" false 0 0 "None"
         "Error: diff_parser and diff_query are required for diff tasks")])) by (vm_compute; reflexivity).
  split; [exact H|]. exact (proj1 (loop_console_accounts _ _ _ _ _ _ _ _ H)).
Defined.

Lemma main_aborts_on_bad_item_witness :
  read_text (manifest_fs "") "m.json" = Ok "" /\
  json_loads (const_json bad_manifest) "" = Ok bad_manifest /\
  py_iter bad_manifest = Ok ([json_item (PStr "m") (PStr "test1-preview") (PStr "a.kt")] ++
                             PDict [("task", PStr "x")] :: []) /\
  Forall2 (fun m v => view_item m = Ok v)
    [json_item (PStr "m") (PStr "test1-preview") (PStr "a.kt")]
    [ItemView (PStr "m") (PStr "test1-preview") "a.kt"] /\
  view_item (PDict [("task", PStr "x")]) = Raise (KeyError "model_name") /\
  main (manifest_fs "") (const_json bad_manifest) (Ok sample_setup) (CliArgs "m.json" None) =
    (["Processing m - test1-preview..."], Raise (KeyError "model_name")).
Proof.
  assert (H1 : read_text (manifest_fs "") "m.json" = Ok "") by reflexivity.
  assert (H2 : json_loads (const_json bad_manifest) "" = Ok bad_manifest) by reflexivity.
  assert (H3 : py_iter bad_manifest = Ok ([json_item (PStr "m") (PStr "test1-preview") (PStr "a.kt")] ++
                                         PDict [("task", PStr "x")] :: [])) by reflexivity.
  assert (HF : Forall2 (fun m v => view_item m = Ok v)
                 [json_item (PStr "m") (PStr "test1-preview") (PStr "a.kt")]
                 [ItemView (PStr "m") (PStr "test1-preview") "a.kt"]) by (constructor; [reflexivity|constructor]).
  assert (Hm : view_item (PDict [("task", PStr "x")]) = Raise (KeyError "model_name")) by reflexivity.
  split_and!; [exact H1|exact H2|exact H3|exact HF|exact Hm|].
  exact (main_aborts_on_bad_item _ _ sample_setup (CliArgs "m.json" None) _ _ _ _ _ _ _ H1 H2 H3 HF Hm).
Defined.
