(* ===== verification/EndToEnd.v ===== *)
(** * End to end: a manifest item through every component

    The components meet here as the script runs them on one item of the
    manifest: the driver's loop (Driver), the family lists and the [try]
    of process_all_files (Batch), the dispatcher (Dispatch), the preview
    validator (Validators), its capture loop (Extract) with the
    annotation attribution (Attribution), and the captures of the
    preview query from an engine with tree-sitter's contract (Query,
    Engine).

    The theorem composes the components' lemmas under the hypotheses of
    each one: the engine meets [engine_ok], the file reads as [kt]. *)

From S2P Require Import Prelude PyStr Csv Tree Samples Query Attribution Extract Validators Engine.
From S2P Require Import Dispatch Batch Driver.

(** The preview verdict on a tree: some [func_name] capture of the preview
    query whose attributed annotations hold both [@Preview] and
    [@Composable]. *)
Definition preview_verdict (E : engine) (root : node) : bool :=
  existsb (fun c => label_is "func_name" c && is_preview_composable (function_fact c))
    (E preview_patterns root).

(** ** Lemmas *)

Lemma count_filter_existsb {A B} (p : B -> bool) (f : A -> B) (q : A -> bool) l :
  (0 <? count_where p (map f (List.filter q l))) = existsb (fun c => q c && p (f c)) l.
Proof.
  unfold count_where. induction l as [|x l IH]; simpl; [done|].
  destruct (q x); simpl; [destruct (p (f x)); simpl; [done|exact IH]|exact IH].
Qed.

Lemma view_json_item model t path :
  view_item (json_item (PStr model) (PStr t) (PStr path)) = Ok (ItemView (PStr model) (PStr t) path).
Proof. reflexivity. Qed.

(** A leaf pattern [(ty) @c] matches a node exactly when it has type [ty]. *)
Lemma pat_matches_cap_pat ty c l :
  pat_matches (cap_pat ty c) l = if String.eqb (ntype (l_node l)) ty then [[(l, c)]] else [].
Proof. simpl. by destruct (String.eqb _ ty). Qed.

Section EndToEnd.

Context (E : engine) (HE : engine_ok E).

(** The preview count on the engine's captures is the verdict on the tree. *)
Lemma preview_count_engine root :
  (0 <? count_where is_preview_composable (preview_functions (E preview_patterns root))) =
  preview_verdict E root.
Proof.
  unfold preview_verdict, preview_functions.
  rewrite preview_fold_total; [by rewrite app_nil_l, count_filter_existsb|].
  intros c Hc Hl. apply (preview_anchor_exists E HE _ c Hc). by apply String.eqb_eq.
Qed.

(** C26. End to end: with any query engine that meets tree-sitter's
    contract, a manifest item of the preview task whose file reads as
    [kt] is announced on the console and yields one row, whose validations
    are that the tree the parser builds from [kt] has no error, and that
    some [func_name] capture of the preview query has both [@Preview] and
    [@Composable] among its attributed annotations. *)
Theorem preview_item_end_to_end fs kp dp dq model path kt :
  read_bytes fs path = Ok kt ->
  run_items fs kp (engine_language E) dp dq [json_item (PStr model) (PStr "test1-preview") (PStr path)] =
  (["Processing " +:+ model +:+ " - test1-preview..."],
   Ok [DriverRow (PStr model)
         (row_of_validations model "test1-preview"
            [("correct_syntax", negb (has_error (parse kp kt)));
             ("has_preview_and_composable", preview_verdict E (parse kp kt))])]).
Proof.
  intros Hr. cbn [run_items]. rewrite view_json_item.
  unfold item_output, item_rows, item_body, run_item. cbn [iv_task iv_path iv_model].
  simpl str_mem. cbn [negb]. rewrite Hr. cbn [rbind]. unfold process_kotlin_file. simpl String.eqb.
  unfold validate_preview_generation. cbn [captures lang_query engine_language query_patterns].
  by rewrite preview_count_engine.
Qed.

(** The captures of the diff query are the deletion and addition nodes of
    the tree, each under its own name. *)
Lemma diff_captures_engine root x :
  x ∈ E diff_patterns root <->
  x.1 ∈ subtree_locs root [] /\ x.2 = ntype (l_node x.1) /\
  (x.2 = "deletion" \/ x.2 = "addition").
Proof.
  rewrite (proj1 (HE diff_patterns root) x). unfold captured, pattern_captures. split.
  - intros (l & qp & m & Hl & Hqp & Hm & Hx).
    rewrite list_elem_of_In in Hqp. simpl in Hqp.
    destruct Hqp as [<-|[<-|[]]]; cbn [qp_pat qp_eq] in Hm; rewrite pat_matches_cap_pat in Hm;
      case_match eqn:Ht; simpl in Hm; try set_solver; apply String.eqb_eq in Ht;
      apply list_elem_of_singleton in Hm as ->; apply list_elem_of_singleton in Hx as ->; simpl;
      rewrite Ht; auto.
  - intros (Hl & Ht & [Hn|Hn]); destruct x as [l c]; simpl in *; subst c; rewrite Hn;
      [exists l, (QPattern (cap_pat "deletion" "deletion") []), [(l, "deletion")]
      |exists l, (QPattern (cap_pat "addition" "addition") []), [(l, "addition")]];
      (split_and!; [done|unfold diff_patterns; set_solver| |set_solver]);
      cbn [qp_pat qp_eq]; rewrite pat_matches_cap_pat, Hn, String.eqb_refl; simpl; set_solver.
Qed.

(** The deletion lines the diff loop records are the contents of the
    deletion nodes of the tree. *)
Lemma deletion_lines_engine root line :
  line ∈ map diff_line (List.filter (label_is "deletion") (E diff_patterns root)) <->
  exists l, l ∈ subtree_locs root [] /\ ntype (l_node l) = "deletion" /\ line = diff_content (ntext (l_node l)).
Proof.
  rewrite list_elem_of_In, in_map_iff. setoid_rewrite filter_In. setoid_rewrite <- list_elem_of_In.
  setoid_rewrite diff_captures_engine. unfold label_is, diff_line, cap_text. split.
  - intros ([l c] & <- & (Hl & Ht & _) & Hc). simpl in *. apply String.eqb_eq in Hc. subst. eauto.
  - intros (l & Hl & Ht & ->). exists (l, "deletion"). simpl. split_and!; auto.
Qed.

(** C17. End to end for the Material diff task: with any query engine that
    meets tree-sitter's contract, [contains_all_deletions] holds iff every
    required deletion occurs in the content (the text after the [-]
    marker, stripped) of some [deletion] node of the tree the parser
    builds. *)
Theorem material_deletions_end_to_end text p :
  validation "contains_all_deletions"
    (validate_material_diff text p (lang_query (engine_language E) DiffQuery)) = Some true <->
  Forall (fun req => exists l, l ∈ subtree_locs (parse p text) [] /\ ntype (l_node l) = "deletion" /\
                               exists pre post, diff_content (ntext (l_node l)) = pre +:+ req +:+ post)
         material_required_deletions.
Proof.
  change (validation _ _) with (Some (contains_all material_required_deletions
    (diff_facts (E diff_patterns (parse p text))).1)).
  unfold diff_facts. rewrite Some_true_iff, diff_facts_acc, contains_all_spec. cbn [fst].
  apply Forall_proper; [intros req|done]. rewrite Exists_exists.
  setoid_rewrite deletion_lines_engine. naive_solver.
Qed.

End EndToEnd.

Lemma preview_item_end_to_end_witness :
  engine_ok run_query /\ read_bytes ok_fs "a.kt" = Ok "" /\
  run_items ok_fs (const_parser preview_expr_file) (engine_language run_query) None None
    [json_item (PStr "m") (PStr "test1-preview") (PStr "a.kt")] =
  (["Processing " +:+ "m" +:+ " - test1-preview..."],
   Ok [DriverRow (PStr "m")
         (row_of_validations "m" "test1-preview"
            [("correct_syntax", negb (has_error (parse (const_parser preview_expr_file) "")));
             ("has_preview_and_composable",
               preview_verdict run_query (parse (const_parser preview_expr_file) ""))])]) /\
  preview_verdict run_query preview_expr_file = true.
Proof.
  pose proof run_query_ok as HE.
  assert (Hr : read_bytes ok_fs "a.kt" = Ok "") by reflexivity.
  split_and!; [exact HE|exact Hr| |vm_compute; reflexivity].
  exact (preview_item_end_to_end run_query HE ok_fs _ None None "m" "a.kt" "" Hr).
Defined.

Lemma material_deletions_end_to_end_witness :
  engine_ok run_query /\
  (validation "contains_all_deletions"
     (validate_material_diff "" (const_parser (diff_file
        ["-  colors = TopAppBarDefaults.centerAlignedTopAppBarColors(";
         "-  colors: TopAppBarColors = TopAppBarDefaults.centerAlignedTopAppBarColors(),"] []))
        (lang_query (engine_language run_query) DiffQuery)) = Some true <->
   Forall (fun req => exists l, l ∈ subtree_locs (parse (const_parser (diff_file
        ["-  colors = TopAppBarDefaults.centerAlignedTopAppBarColors(";
         "-  colors: TopAppBarColors = TopAppBarDefaults.centerAlignedTopAppBarColors(),"] [])) "") [] /\
        ntype (l_node l) = "deletion" /\
        exists pre post, diff_content (ntext (l_node l)) = pre +:+ req +:+ post)
     material_required_deletions) /\
  validation "contains_all_deletions"
     (validate_material_diff "" (const_parser (diff_file
        ["-  colors = TopAppBarDefaults.centerAlignedTopAppBarColors(";
         "-  colors: TopAppBarColors = TopAppBarDefaults.centerAlignedTopAppBarColors(),"] []))
        (lang_query (engine_language run_query) DiffQuery)) = Some true.
Proof.
  pose proof run_query_ok as HE.
  split_and!; [exact HE|exact (material_deletions_end_to_end run_query HE _ _)|vm_compute; reflexivity].
Defined.
