(* ===== verification/Merge.v ===== *)
(** * The CSV merge utility: src/merge_csv.py

    The script collects [build/test*/execution-results.csv] (the glob's
    order is the order of the input list, each file given by its
    directory name and its text), reads each with [csv.DictReader]
    ([read_csv_input], over the csv module of Csv), takes the header of
    the first file with a leading [test_name] column ([first_header]),
    tags every row with the name of its directory by a dict merge
    ([row_with_test]) and writes the header and all rows with
    [csv.DictWriter] ([write_output]: [header_row], then [write_rows],
    which stops at the first row it rejects).  [merge_csv] is the whole
    script: [Raise e] when it stops before opening the output file,
    otherwise the text of the output file and whether the writes
    finished.

    Theorems: the script as a function of the files, error branches
    included ([merge_csv_spec]); a row the writer rejects leaves the
    header and the rows before it in the output file
    ([write_output_partial]); merging files the csv writer wrote with a
    common header gives their records tagged with their directories
    ([merge_written_tables], used by Pipeline); the examples show a later
    file with an extra column, a record longer than the header, a file
    with its own [test_name] column and an empty first file. *)

From S2P Require Import Prelude PyStr Csv.

(** One input file as [csv.DictReader] presents it. *)
Record csv_input := CsvInput {
  csv_dir : string;                      (* csv_file.parent.name *)
  csv_fieldnames : option (list string); (* reader.fieldnames *)
  csv_rows : list row_dict               (* for row in reader *)
}.

(** Lines 20-23, 26 and 28: [csv.DictReader] over the text of one file.
    Reading the whole file before its rows are tagged gives the same
    outcome as the lazy reader: tagging a row cannot fail, and the header
    test of line 25 can only fail on a file without records, where the
    reader raises nothing. *)
Definition read_csv_input (dir text : string) : result csv_input :=
  (records <- csv_reader text ;;
   Ok (CsvInput dir (dict_reader records).1 (dict_reader records).2))%py.

(** [{"test_name": test_name, **row}] (line 29). *)
Definition row_with_test (test_name : string) (row : row_dict) : row_dict :=
  fold_left (fun d kv => dict_set d kv.1 kv.2) row [(Some "test_name", CStr test_name)].

(** The double-quote character, for the text of Python's messages. *)
Definition dquote : string := String (ascii_of_nat 34) "".

(** Lines 25-26: the header comes from the first file; [["test_name"] +
    None] raises [TypeError]. *)
Definition first_header (header : option (list string)) (f : csv_input)
  : result (option (list string)) :=
  match header with
  | Some h => Ok (Some h)
  | None =>
      match csv_fieldnames f with
      | Some fns => Ok (Some ("test_name" :: fns))
      | None => Raise (TypeError ("can only concatenate list (not " +:+ dquote +:+ "NoneType"
                                  +:+ dquote +:+ ") to list"))
      end
  end.

(** Lines 28-30: the rows one file contributes, each tagged with its
    directory. *)
Definition tagged_rows (f : csv_input) : list row_dict :=
  map (row_with_test (csv_dir f)) (csv_rows f).

(** Lines 19-30, over the files as (directory name, text) pairs in the
    glob's order. *)
Fixpoint merge_loop (header : option (list string)) (merged : list row_dict)
  (files : list (string * string)) : result (option (list string) * list row_dict) :=
  match files with
  | [] => Ok (header, merged)
  | (dir, text) :: rest =>
      (f <- read_csv_input dir text ;;
       header' <- first_header header f ;;
       merge_loop header' (merged ++ tagged_rows f) rest)%py
  end.

(** [repr] of a key of a row: [None] or the field name's repr. *)
Definition key_repr (k : option string) : string :=
  match k with None => "None" | Some s => py_repr s end.

(** The text the csv writer writes for a value: a str as it is, [None]
    as the empty string, a list as its [str]. *)
Definition cell_str (c : cell) : string :=
  match c with
  | CStr s => s
  | CNone => ""
  | CList l => "[" +:+ str_join ", " (map py_repr l) +:+ "]"
  end.

(** [DictWriter._dict_to_list] (extrasaction 'raise', restval ""): keys
    outside the field names raise [ValueError] (listed in the dict's
    order: Python lists the set [keys - fieldnames], whose order is not
    specified when there are several); missing keys are written as "". *)
Definition dict_row (fieldnames : list string) (d : row_dict) : result (list string) :=
  let wrong_fields :=
    List.filter (fun k => negb (bool_decide (k ∈ map Some fieldnames))) (map fst d) in
  match wrong_fields with
  | [] => Ok (map (fun k => default "" (cell_str <$> dict_get d (Some k))) fieldnames)
  | _ => Raise (ValueError ("dict contains fields not in fieldnames: "
                            +:+ str_join ", " (map key_repr wrong_fields)))
  end.

(** One item of [dict(zip(fieldnames, fieldnames))]. *)
Definition header_step (d : row_dict) (k : string) : row_dict := dict_set d (Some k) (CStr k).

(** [writer.writeheader()]: the row [dict(zip(fieldnames, fieldnames))]. *)
Definition header_row (fieldnames : list string) : result (list string) :=
  dict_row fieldnames (fold_left header_step fieldnames []).

(** [writer.writerows(rows)]: the records written before the first row
    that raises, and the outcome. *)
Fixpoint write_rows (fieldnames : list string) (rows : list row_dict)
  : list (list string) * result unit :=
  match rows with
  | [] => ([], Ok tt)
  | d :: rest =>
      match dict_row fieldnames d with
      | Ok r => let '(rs, res) := write_rows fieldnames rest in (r :: rs, res)
      | Raise e => ([], Raise e)
      end
  end.

(** Lines 33-36: the text of the output file and the outcome of the
    writes. *)
Definition write_output (header : option (list string)) (rows : list row_dict)
  : string * result unit :=
  match header with
  | None => ("", Raise (TypeError "'NoneType' object is not iterable"))
  | Some h =>
      match header_row h with
      | Raise e => ("", Raise e)
      | Ok hr => let '(rs, res) := write_rows h rows in (csv_write (hr :: rs), res)
      end
  end.

(** The whole script (lines 7-38): [Raise] when it stops before opening
    the output file; otherwise the text of the output file and whether
    the writes finished. *)
Definition merge_csv (csv_files : list (string * string)) : result (string * result unit) :=
  match csv_files with
  | [] => Raise (FileNotFoundError "No execution-results.csv files found.")
  | _ => (hr <- merge_loop None [] csv_files ;; Ok (write_output hr.1 hr.2))%py
  end.

(** The files read one after the other, stopping at the first error. *)
Fixpoint read_inputs (files : list (string * string)) : result (list csv_input) :=
  match files with
  | [] => Ok []
  | (dir, text) :: rest =>
      (f <- read_csv_input dir text ;; fs <- read_inputs rest ;; Ok (f :: fs))%py
  end.

(** ** Lemmas *)

Lemma merge_loop_Some h merged files :
  merge_loop (Some h) merged files =
  (fs <- read_inputs files ;; Ok (Some h, merged ++ flat_map tagged_rows fs))%py.
Proof.
  revert merged. induction files as [|[dir text] files IH]; intros merged; simpl.
  - by rewrite app_nil_r.
  - destruct (read_csv_input dir text) as [f|e]; simpl; [|done].
    rewrite IH. destruct (read_inputs files); simpl; [|done]. by rewrite app_assoc.
Qed.

(** [writerows] on rows the writer accepts, one record each. *)
Lemma write_rows_ok h rows outs :
  Forall2 (fun d r => dict_row h d = Ok r) rows outs -> write_rows h rows = (outs, Ok tt).
Proof. induction 1 as [|d r rows outs Hd _ IH]; simpl; [done|]. by rewrite Hd, IH. Qed.

(** [writerows] stops at the first row the writer rejects. *)
Lemma write_rows_stop h good bad rest rs e :
  write_rows h good = (rs, Ok tt) -> dict_row h bad = Raise e ->
  write_rows h (good ++ bad :: rest) = (rs, Raise e).
Proof.
  revert rs. induction good as [|d good IH]; intros rs; simpl.
  - intros [= <-] ->. done.
  - destruct (dict_row h d) as [r|]; [|discriminate].
    destruct (write_rows h good) as [rs' res] eqn:E. intros [= <- ->] Hbad.
    by rewrite (IH rs' eq_refl Hbad).
Qed.

(** The writer accepts a dict whose keys are all field names. *)
Lemma dict_row_keys h d :
  Forall (fun k => k ∈ map Some h) (map fst d) ->
  dict_row h d = Ok (map (fun k => default "" (cell_str <$> dict_get d (Some k))) h).
Proof.
  intros Hk. unfold dict_row.
  replace (List.filter _ (map fst d)) with (@nil (option string)); [done|].
  induction Hk as [|k ks Hk0 _ IH]; simpl; [done|]. by rewrite bool_decide_true.
Qed.

Lemma header_dict_other h d k :
  k ∉ h -> dict_get (fold_left header_step h d) (Some k) = dict_get d (Some k).
Proof.
  revert d. induction h as [|k0 h IH]; intros d Hk; simpl; [done|].
  rewrite IH by set_solver. apply dict_get_set_ne. set_solver.
Qed.

Lemma header_dict_get h d k :
  k ∈ h -> dict_get (fold_left header_step h d) (Some k) = Some (CStr k).
Proof.
  revert d. induction h as [|k0 h IH]; intros d Hk; [set_solver|]. simpl.
  destruct (decide (k ∈ h)) as [Hin|Hout]; [by apply IH|].
  assert (k = k0) as -> by set_solver.
  rewrite header_dict_other by done. apply dict_get_set_eq.
Qed.

Lemma header_dict_keys h d :
  Forall (fun k => k ∈ map Some h) (map fst d) ->
  Forall (fun k => k ∈ map Some h) (map fst (fold_left header_step h d)).
Proof.
  intros Hd. cut (forall h0 d, Forall (fun k => k ∈ map Some (h0 ++ h)) (map fst d) ->
    Forall (fun k => k ∈ map Some (h0 ++ h)) (map fst (fold_left header_step h d))).
  { intros H. apply (H []), Hd. }
  clear d Hd. induction h as [|k h IH]; intros h0 d Hd; simpl; [done|].
  replace (h0 ++ k :: h) with ((h0 ++ [k]) ++ h) in * by by rewrite <- app_assoc.
  apply IH. rewrite Forall_forall in Hd |- *. intros k' Hk'.
  apply dict_set_keys in Hk' as [Hk'| ->]; [by apply Hd|].
  rewrite map_app, map_app. set_solver.
Qed.

(** [writeheader] writes the field names. *)
Lemma header_row_ok h : header_row h = Ok h.
Proof.
  unfold header_row. rewrite dict_row_keys.
  - f_equal. rewrite <- (map_id h) at 2. apply map_ext_in. intros k Hk.
    rewrite <- list_elem_of_In in Hk. by rewrite header_dict_get.
  - by apply header_dict_keys.
Qed.

(** The dict of a record gives each field name its value. *)
Lemma zip_dict_values hdr r :
  NoDup hdr -> length r = length hdr ->
  map (fun k => default "" (cell_str <$> dict_get (zip_dict hdr r) (Some k))) hdr = r.
Proof.
  revert r. induction hdr as [|k hdr IH]; intros [|v r] Hnd Hlen; try done. simpl.
  apply NoDup_cons in Hnd as [Hk Hnd]. injection Hlen as Hlen. f_equal.
  - unfold dict_get. simpl. by rewrite bool_decide_true.
  - etransitivity; [|exact (IH r Hnd Hlen)]. apply map_ext_in. intros k' Hk'.
    rewrite <- list_elem_of_In in Hk'.
    change (zip_dict (k :: hdr) (v :: r)) with ([(Some k, CStr v)] ++ zip_dict hdr r).
    rewrite dict_get_app_r; [done|]. set_solver.
Qed.

Lemma zip_dict_keys hdr r : length r = length hdr -> map fst (zip_dict hdr r) = map Some hdr.
Proof. intros Hlen. unfold zip_dict. rewrite map_map. cbn. rewrite <- (map_map fst Some), fst_zip by lia. done. Qed.

(** A file the csv writer wrote, with a header of distinct names and
    records of its length, all within the field size limit. *)
Lemma read_written_input dir hdr rows :
  hdr <> [] -> NoDup hdr -> Forall (fun r => length r = length hdr) rows ->
  forallb (forallb fits) (hdr :: rows) = true ->
  read_csv_input dir (csv_write (hdr :: rows)) = Ok (CsvInput dir (Some hdr) (map (zip_dict hdr) rows)).
Proof.
  intros Hne Hnd Hlen Hfit. unfold read_csv_input. rewrite read_written_table, Hfit. cbn [rbind].
  by rewrite dict_reader_table.
Qed.

(** The writer on a tagged row whose keys are distinct field names other
    than [test_name]: the directory, then the row's values in header
    order. *)
Lemma dict_row_tagged dir fns row :
  NoDup (map fst row) -> Some "test_name" ∉ map fst row -> "test_name" ∉ fns ->
  Forall (fun k => k ∈ map Some fns) (map fst row) ->
  dict_row ("test_name" :: fns) (row_with_test dir row) =
  Ok (dir :: map (fun k => default "" (cell_str <$> dict_get row (Some k))) fns).
Proof.
  intros Hnd Ht Hfns Hsub. unfold row_with_test.
  rewrite fold_dict_set_fresh by (done || set_solver). rewrite dict_row_keys.
  - cbn [map]. f_equal. f_equal.
    apply map_ext_in. intros k Hk. rewrite <- list_elem_of_In in Hk.
    rewrite (dict_get_app_r [_]); [done|]. set_solver.
  - cbn [map fst app]. constructor; [set_solver|].
    eapply Forall_impl; [exact Hsub|]. simpl. set_solver.
Qed.

(** Merging files the csv writer wrote, all with the same header of
    distinct names without [test_name] and records of its length within
    the field size limit: the output is the header with [test_name] in
    front, then every record of every file, in order, with its
    directory in front, and the writes finish. *)
Lemma merge_written_tables hdr tables :
  tables <> [] -> hdr <> [] -> NoDup hdr -> "test_name" ∉ hdr ->
  Forall (fun t => Forall (fun r => length r = length hdr) t.2 /\
                   forallb (forallb fits) (hdr :: t.2) = true) tables ->
  merge_csv (map (fun t => (t.1, csv_write (hdr :: t.2))) tables) =
  Ok (csv_write (("test_name" :: hdr) :: flat_map (fun t => map (cons t.1) t.2) tables), Ok tt).
Proof.
  intros Hne Hh Hnd Ht Hok.
  assert (Hread : forall ts, Forall (fun t => Forall (fun r => length r = length hdr) t.2 /\
                   forallb (forallb fits) (hdr :: t.2) = true) ts ->
    read_inputs (map (fun t => (t.1, csv_write (hdr :: t.2))) ts) =
    Ok (map (fun t => CsvInput t.1 (Some hdr) (map (zip_dict hdr) t.2)) ts)).
  { induction 1 as [|[d rows] ts [Hl Hf] _ IH]; [done|]. simpl.
    by rewrite read_written_input, IH. }
  assert (Hrows : forall ts, Forall (fun t => Forall (fun r => length r = length hdr) t.2 /\
                   forallb (forallb fits) (hdr :: t.2) = true) ts ->
    Forall2 (fun d r => dict_row ("test_name" :: hdr) d = Ok r)
      (flat_map tagged_rows (map (fun t => CsvInput t.1 (Some hdr) (map (zip_dict hdr) t.2)) ts))
      (flat_map (fun t => map (cons t.1) t.2) ts)).
  { induction 1 as [|[d rows] ts [Hl _] _ IH]; [constructor|]. simpl.
    apply Forall2_app; [|done]. unfold tagged_rows. simpl. rewrite map_map.
    apply Forall2_fmap, Forall_Forall2_diag. eapply Forall_impl; [exact Hl|]. intros r Hr. simpl.
    rewrite dict_row_tagged.
    - by rewrite zip_dict_values.
    - by rewrite zip_dict_keys by done; apply NoDup_fmap_2; [apply _|].
    - rewrite zip_dict_keys by done. set_solver.
    - done.
    - rewrite zip_dict_keys by done. apply Forall_forall. set_solver. }
  destruct tables as [|[d rows] tables]; [done|].
  apply Forall_cons in Hok as [[Hl Hf] Hok]. simpl.
  rewrite read_written_input by done. simpl. rewrite merge_loop_Some, Hread by done. simpl.
  unfold write_output. rewrite header_row_ok.
  rewrite (write_rows_ok _ _ ((map (cons d) rows) ++ flat_map (fun t => map (cons t.1) t.2) tables)).
  - done.
  - change (tagged_rows (CsvInput d (Some hdr) (map (zip_dict hdr) rows)) ++
            flat_map tagged_rows (map (fun t => CsvInput t.1 (Some hdr) (map (zip_dict hdr) t.2)) tables))
      with (flat_map tagged_rows (map (fun t => CsvInput t.1 (Some hdr) (map (zip_dict hdr) t.2))
              ((d, rows) :: tables))).
    apply Hrows. by constructor.
Qed.

(** ** Theorems *)

(** C30. The whole script: no file raises [FileNotFoundError]; otherwise
    the first file is read, a first file without records raises
    [TypeError], and then the other files are read in order, the first
    unreadable one raising; the output is written from the first file's
    header with [test_name] in front and every row of every file, in
    order, tagged with its directory. *)
Theorem merge_csv_spec files :
  merge_csv files =
  match files with
  | [] => Raise (FileNotFoundError "No execution-results.csv files found.")
  | (dir, text) :: rest =>
      (f <- read_csv_input dir text ;;
       match csv_fieldnames f with
       | None => Raise (TypeError ("can only concatenate list (not " +:+ dquote +:+ "NoneType"
                                   +:+ dquote +:+ ") to list"))
       | Some fns =>
           (fs <- read_inputs rest ;;
            Ok (write_output (Some ("test_name" :: fns)) (tagged_rows f ++ flat_map tagged_rows fs)))
       end)
  end%py.
Proof.
  destruct files as [|[dir text] rest]; [done|]. unfold merge_csv. simpl.
  destruct (read_csv_input dir text) as [f|]; simpl; [|done].
  destruct (csv_fieldnames f) as [fns|]; simpl; [|done].
  rewrite merge_loop_Some. by destruct (read_inputs rest).
Qed.

(** C31. A row the writer rejects (a key outside the header: a column the
    first file lacks, or the surplus fields of a long record under the key
    [None]) stops the writes: the output file keeps the header and the
    rows before it, and the script raises. *)
Theorem write_output_partial h good bad rest rs e :
  write_rows h good = (rs, Ok tt) -> dict_row h bad = Raise e ->
  write_output (Some h) (good ++ bad :: rest) = (csv_write (h :: rs), Raise e).
Proof.
  intros Hg Hb. unfold write_output. rewrite header_row_ok.
  by rewrite (write_rows_stop _ _ _ _ _ _ Hg Hb).
Qed.

Lemma write_output_partial_witness :
  write_rows ["test_name"; "a"] [[(Some "test_name", CStr "test1"); (Some "a", CStr "1")]]
    = ([["test1"; "1"]], Ok tt) /\
  dict_row ["test_name"; "a"] [(Some "test_name", CStr "test2"); (Some "a", CStr "2"); (Some "b", CStr "3")]
    = Raise (ValueError "dict contains fields not in fieldnames: 'b'") /\
  write_output (Some ["test_name"; "a"])
    ([[(Some "test_name", CStr "test1"); (Some "a", CStr "1")]] ++
     [(Some "test_name", CStr "test2"); (Some "a", CStr "2"); (Some "b", CStr "3")] :: [])
  = (csv_write (["test_name"; "a"] :: [["test1"; "1"]]),
     Raise (ValueError "dict contains fields not in fieldnames: 'b'")).
Proof.
  assert (Hg : write_rows ["test_name"; "a"] [[(Some "test_name", CStr "test1"); (Some "a", CStr "1")]]
                 = ([["test1"; "1"]], Ok tt)) by (vm_compute; reflexivity).
  assert (Hb : dict_row ["test_name"; "a"]
                 [(Some "test_name", CStr "test2"); (Some "a", CStr "2"); (Some "b", CStr "3")]
               = Raise (ValueError "dict contains fields not in fieldnames: 'b'"))
    by (vm_compute; reflexivity).
  split; [exact Hg|]. split; [exact Hb|]. exact (write_output_partial _ _ _ _ _ _ Hg Hb).
Defined.

(** A later file with a column the first file lacks: the output file
    holds the header and the first file's rows, then the script raises. *)
Example extra_column_partial_output :
  merge_csv [("test1", csv_write [["a"]; ["1"]]); ("test2", csv_write [["a"; "b"]; ["2"; "3"]])]
  = Ok (csv_write [["test_name"; "a"]; ["test1"; "1"]],
        Raise (ValueError "dict contains fields not in fieldnames: 'b'")).
Proof. vm_compute. reflexivity. Qed.

(** A record longer than the header puts its surplus under the key
    [None], which the writer rejects. *)
Example long_record_raises :
  merge_csv [("test1", csv_write [["a"]; ["1"; "2"]])]
  = Ok (csv_write [["test_name"; "a"]], Raise (ValueError "dict contains fields not in fieldnames: None")).
Proof. vm_compute. reflexivity. Qed.

(** A row with its own [test_name] column keeps its value: the directory
    name is overwritten by the dict merge, and the header names
    [test_name] twice. *)
Example own_test_name_wins :
  merge_csv [("test1", csv_write [["test_name"; "a"]; ["x"; "1"]])]
  = Ok (csv_write [["test_name"; "test_name"; "a"]; ["x"; "x"; "1"]], Ok tt).
Proof. vm_compute. reflexivity. Qed.

(** An empty first file (no header line) makes the run raise before the
    output file is opened. *)
Example empty_first_file_raises :
  is_ok (merge_csv [("test1", ""); ("test2", csv_write [["a"]; ["1"]])]) = false.
Proof. vm_compute. reflexivity. Qed.
