(* ===== verification/Pipeline.v ===== *)
(** * The two scripts together: merging reports of run_validation.py

    merge_csv.py merges the [execution-results.csv] files of the
    [build/test*] directories.  When each of them is a report that
    [process_all_files] wrote (run_validation.py run with
    [--output build/testN/execution-results.csv]), the text of each file
    is [report_text] of the run's rows (Batch), which merge_csv.py reads
    with [csv.DictReader] and writes again with [csv.DictWriter] (Merge,
    over the csv module of Csv).

    Theorem: [merge_reports], the merged file is the report header with
    [test_name] in front, then every row of every run, in order, with the
    run's directory in front, as long as every value fits the csv
    reader's field size limit. *)

From S2P Require Import Prelude PyStr Csv Batch Merge.

(** The files merge_csv.py finds when each run of run_validation.py wrote
    its report to [build/<dir>/execution-results.csv]: the directory
    name and the report text of each run, in the glob's order. *)
Definition report_files (runs : list (string * list report_row)) : list (string * string) :=
  map (fun run => (run.1, report_text run.2)) runs.

(** The rows of the runs as the merged table lists them. *)
Lemma flat_map_tagged_runs (runs : list (string * list report_row)) :
  flat_map (fun t => map (cons t.1) t.2) (map (fun run => (run.1, map row_fields run.2)) runs) =
  flat_map (fun run => map (fun r => run.1 :: row_fields r) run.2) runs.
Proof. induction runs as [|run runs IH]; simpl; [done|]. by rewrite map_map, IH. Qed.

(** C32. Merging the reports of several runs of run_validation.py gives
    the report's seven columns with [test_name] in front, then each row
    of each run, in order, as its seven values after the run's directory
    name, and the script ends normally, when every value fits the csv
    reader's field size limit. *)
Theorem merge_reports (runs : list (string * list report_row)) :
  runs <> [] ->
  Forall (fun run => Forall (fun r => Forall (fun s => fits s = true) (row_fields r)) run.2) runs ->
  merge_csv (report_files runs) =
  Ok (csv_write (("test_name" :: fieldnames) ::
                 flat_map (fun run => map (fun r => run.1 :: row_fields r) run.2) runs), Ok tt).
Proof.
  intros Hne Hfit.
  unfold report_files.
  replace (map (fun run => (run.1, report_text run.2)) runs)
    with (map (fun t => (t.1, csv_write (fieldnames :: t.2)))
            (map (fun run => (run.1, map row_fields run.2)) runs)) by (by rewrite map_map).
  rewrite merge_written_tables, flat_map_tagged_runs; [done| | | | |].
  - by destruct runs.
  - done.
  - unfold fieldnames. repeat constructor; set_solver.
  - unfold fieldnames. set_solver.
  - apply Forall_fmap. eapply Forall_impl; [exact Hfit|]. intros run Hrun. cbn [fst snd]. split.
    + apply Forall_fmap, Forall_forall. intros r _. apply row_fields_length.
    + apply forallb_fits_iff. constructor; [apply fieldnames_fit | by apply Forall_fmap].
Qed.

Lemma merge_reports_witness :
  [("test1", [error_row "m" "test1-preview" awkward_error]);
   ("test4", [row_of_validations "m" "test4-deprecated-material" [("correct_syntax", true)]])] <> [] /\
  Forall (fun run => Forall (fun r => Forall (fun s => fits s = true) (row_fields r)) run.2)
    [("test1", [error_row "m" "test1-preview" awkward_error]);
     ("test4", [row_of_validations "m" "test4-deprecated-material" [("correct_syntax", true)]])] /\
  merge_csv (report_files
    [("test1", [error_row "m" "test1-preview" awkward_error]);
     ("test4", [row_of_validations "m" "test4-deprecated-material" [("correct_syntax", true)]])]) =
  Ok (csv_write (("test_name" :: fieldnames) ::
    flat_map (fun run => map (fun r => run.1 :: row_fields r) run.2)
      [("test1", [error_row "m" "test1-preview" awkward_error]);
       ("test4", [row_of_validations "m" "test4-deprecated-material" [("correct_syntax", true)]])]), Ok tt).
Proof.
  assert (Hne : [("test1", [error_row "m" "test1-preview" awkward_error]);
     ("test4", [row_of_validations "m" "test4-deprecated-material" [("correct_syntax", true)]])] <> [])
    by discriminate.
  assert (Hfit : Forall (fun run => Forall (fun r => Forall (fun s => fits s = true) (row_fields r)) run.2)
    [("test1", [error_row "m" "test1-preview" awkward_error]);
     ("test4", [row_of_validations "m" "test4-deprecated-material" [("correct_syntax", true)]])])
    by (repeat constructor).
  split; [exact Hne|]. split; [exact Hfit|]. exact (merge_reports _ Hne Hfit).
Defined.
